(** * Startup funding dynamics: the staged monthly simulation

    A shallow embedding of [config.py], [startup_agent.py] and
    [startup_model.py], and of the two drivers of [run_simulation.py].

    Numbers.  Python floats and ints that hold money, rates and
    probabilities are exact rationals ([Q]); counters and the survival
    flag are integers ([Z]).  Overflow, NaN and rounding of IEEE doubles
    are outside this model.  The one non-finite value the source writes
    down, [float('inf')] for the runway, has its own constructor.

    NumPy.  The global generator behind [np.random] is explicit state
    threaded through every function that draws from it; [np.exp] and
    [np.log] are taken from the same interface.  Exceptions
    ([ZeroDivisionError], NumPy's [ValueError]) are results.

    Mesa.  [BaseScheduler] keeps the agents in insertion order and starts
    [steps] and [time] at 0; [Model.step] counts its own calls in
    [Model.steps] before running the body; [DataCollector.collect] appends
    one row of model variables and stores the agents' rows under the key
    [Model.steps]. *)

From Stdlib Require Import ZArith QArith Qround Lqa Lia Bool.
From stdpp Require Import base option list sorting.

Set Default Proof Using "Type".

(** ** Python and NumPy arithmetic *)

Definition Qlt_bool (x y : Q) : bool := negb (Qle_bool y x).

(** [max(a, b)] of Python: the first argument unless the second is
    strictly greater. *)
Definition py_max (a b : Q) : Q := if Qlt_bool a b then b else a.

(** [np.clip(x, lo, hi)], that is [minimum(maximum(x, lo), hi)]. *)
Definition np_clip (x lo hi : Q) : Q :=
  let y := if Qlt_bool x lo then lo else x in
  if Qlt_bool hi y then hi else y.

(** [float('inf')] next to the finite floats. *)
Inductive Float : Type :=
  | Finite (q : Q)
  | Inf.

(** [x < y] for a float [x] that may be [inf] and a finite [y]. *)
Definition float_lt (x : Float) (y : Q) : bool :=
  match x with
  | Finite q => Qlt_bool q y
  | Inf => false
  end.

(** ** Exceptions and the generator state *)

Inductive Exn : Type :=
  | ZeroDivisionError
  | ValueError.

Inductive Res (A : Type) : Type :=
  | Ok (a : A)
  | Raise (e : Exn).
Arguments Ok {A} a.
Arguments Raise {A} e.

(** What the simulation uses of NumPy: the global generator of
    [np.random] with its samplers, and the two transcendental
    functions. *)
Class Numpy : Type := {
  rng : Type;
  (** [np.random.seed(s)]: the state a seed selects, [None] where NumPy
      rejects the seed. *)
  seed_state : Z -> option rng;
  (** [np.random.random()] *)
  sample_random : rng -> Q * rng;
  (** [np.random.uniform(low, high)] *)
  sample_uniform : Q -> Q -> rng -> Q * rng;
  (** [np.random.normal(loc, scale)] for a valid scale *)
  sample_normal : Q -> Q -> rng -> Q * rng;
  (** [np.random.beta(a, b)] for valid shape parameters *)
  sample_beta : Q -> Q -> rng -> Q * rng;
  np_exp : Q -> Q;
  np_log : Q -> Q;
}.

(** A computation that reads and advances the generator and may raise. *)
Definition M `{Numpy} (A : Type) : Type := rng -> Res (A * rng).

Definition ret `{Numpy} {A} (a : A) : M A := fun g => Ok (a, g).

Definition bind `{Numpy} {A B} (m : M A) (k : A -> M B) : M B :=
  fun g =>
    match m g with
    | Ok (a, g') => k a g'
    | Raise e => Raise e
    end.

Definition raise `{Numpy} {A} (e : Exn) : M A := fun _ => Raise e.

Declare Scope sim_scope.
Delimit Scope sim_scope with sim.
Notation "'let*' x ':=' m 'in' k" := (bind m (fun x => k))
  (at level 10, x name, m at level 100, k at level 200) : sim_scope.
Notation "'do' m 'then' k" := (bind m (fun _ => k))
  (at level 10, m at level 100, k at level 200) : sim_scope.
Local Open Scope sim_scope.

Section Samplers.
Context `{Numpy}.

Definition np_random_seed (s : Z) : M unit :=
  fun _ =>
    match seed_state s with
    | Some g => Ok (tt, g)
    | None => Raise ValueError
    end.

Definition np_random_random : M Q :=
  fun g => Ok (sample_random g).

Definition np_random_uniform (low high : Q) : M Q :=
  fun g => Ok (sample_uniform low high g).

(** NumPy raises [ValueError] for a negative scale. *)
Definition np_random_normal (loc scale : Q) : M Q :=
  fun g =>
    if Qlt_bool scale 0 then Raise ValueError
    else Ok (sample_normal loc scale g).

(** NumPy raises [ValueError] unless both shape parameters are
    positive. *)
Definition np_random_beta (a b : Q) : M Q :=
  fun g =>
    if Qlt_bool 0 a && Qlt_bool 0 b then Ok (sample_beta a b g)
    else Raise ValueError.

(** [x % y] on Python ints. *)
Definition py_mod (x y : Z) : M Z :=
  if (y =? 0)%Z then raise ZeroDivisionError else ret (x mod y)%Z.

(** [x / y] on Python ints (true division). *)
Definition py_int_div (x y : Z) : M Q :=
  if (y =? 0)%Z then raise ZeroDivisionError
  else ret (inject_Z x / inject_Z y)%Q.

(** A [for] loop that updates every element of a list in order. *)
Fixpoint for_each {A} (f : A -> M A) (l : list A) : M (list A) :=
  match l with
  | [] => ret []
  | a :: l' =>
      let* a' := f a in
      let* l'' := for_each f l' in
      ret (a' :: l'')
  end.

(** [for _ in range(n): body], the body run on a threaded state. *)
Fixpoint repeat_m {A} (n : nat) (body : A -> M A) (a : A) : M A :=
  match n with
  | O => ret a
  | Datatypes.S n' => let* a' := body a in repeat_m n' body a'
  end.
End Samplers.

(** ** config.py *)

Record Config : Type := {
  K0_MIN : Q;
  K0_MAX : Q;
  B0_MIN_RATIO : Q;
  B0_MAX_RATIO : Q;
  R0_INITIAL : Q;
  PMF_ALPHA : Q;
  PMF_BETA : Q;
  GAMMA : Q;
  EPSILON_PRICE : Q;
  BASE_PRICE : Q;
  SIGMA_R : Q;
  DELTA_GROWTH : Q;
  DELTA_CUT : Q;
  RUNWAY_LOW_THRESHOLD : Q;
  ETA : Q;
  SIGMA_PMF : Q;
  LAMBDA_1 : Q;
  LAMBDA_2 : Q;
  LAMBDA_3 : Q;
  FUNDING_INTERVAL : Z;
  ALPHA_REVENUE_BURN : Q;
  PMF_MIN : Q;
  BETA_1 : Q;
  BETA_2 : Q;
  BETA_3 : Q;
  KAPPA : Q;
  M0_INITIAL : Q;
  GROWTH_RATE_M : Q;
  POLICY_INTERVAL : Z;
  C_REG : Q;
  S_G : Q;
  TAU : Q;
  P_SHOCK : Q;
  DELTA_PMF_SHOCK_MIN : Q;
  DELTA_PMF_SHOCK_MAX : Q;
  DELTA_M_SHOCK_MIN : Q;
  DELTA_M_SHOCK_MAX : Q;
  Q_T : Q;
}.

(** The values written in [config.py]. *)
Definition default_config : Config := {|
  K0_MIN := 2000000;
  K0_MAX := 20000000;
  B0_MIN_RATIO := 0.05;
  B0_MAX_RATIO := 0.15;
  R0_INITIAL := 0;
  PMF_ALPHA := 2;
  PMF_BETA := 5;
  GAMMA := 2;
  EPSILON_PRICE := 0.01;
  BASE_PRICE := 100;
  SIGMA_R := 10000;
  DELTA_GROWTH := 0.2;
  DELTA_CUT := 0.15;
  RUNWAY_LOW_THRESHOLD := 3;
  ETA := 0.01;
  SIGMA_PMF := 0.02;
  LAMBDA_1 := 10;
  LAMBDA_2 := 10000000;
  LAMBDA_3 := 2;
  FUNDING_INTERVAL := 6;
  ALPHA_REVENUE_BURN := 0.3;
  PMF_MIN := 0.3;
  BETA_1 := 5.0;
  BETA_2 := 0.5;
  BETA_3 := 2.0;
  KAPPA := 0.25;
  M0_INITIAL := 100000000;
  GROWTH_RATE_M := 0.05;
  POLICY_INTERVAL := 12;
  C_REG := 50000;
  S_G := 30000;
  TAU := 0.18;
  P_SHOCK := 0.05;
  DELTA_PMF_SHOCK_MIN := -0.1;
  DELTA_PMF_SHOCK_MAX := 0.15;
  DELTA_M_SHOCK_MIN := -0.05;
  DELTA_M_SHOCK_MAX := 0.1;
  Q_T := 10;
|}.

(** ** The state of one startup *)

Module Agent.
Record t : Type := mk {
  K : Q;
  B : Q;
  R : Q;
  PMF : Q;
  V : Q;
  S : Z;
  just_funded : bool;
  funding_received : Q;
  runway : Float;
  death_time : option Z;
}.

Definition set_K (x : Q) (a : t) : t :=
  mk x (B a) (R a) (PMF a) (V a) (S a) (just_funded a)
     (funding_received a) (runway a) (death_time a).
Definition set_B (x : Q) (a : t) : t :=
  mk (K a) x (R a) (PMF a) (V a) (S a) (just_funded a)
     (funding_received a) (runway a) (death_time a).
Definition set_R (x : Q) (a : t) : t :=
  mk (K a) (B a) x (PMF a) (V a) (S a) (just_funded a)
     (funding_received a) (runway a) (death_time a).
Definition set_PMF (x : Q) (a : t) : t :=
  mk (K a) (B a) (R a) x (V a) (S a) (just_funded a)
     (funding_received a) (runway a) (death_time a).
Definition set_V (x : Q) (a : t) : t :=
  mk (K a) (B a) (R a) (PMF a) x (S a) (just_funded a)
     (funding_received a) (runway a) (death_time a).
Definition set_S (x : Z) (a : t) : t :=
  mk (K a) (B a) (R a) (PMF a) (V a) x (just_funded a)
     (funding_received a) (runway a) (death_time a).
Definition set_just_funded (x : bool) (a : t) : t :=
  mk (K a) (B a) (R a) (PMF a) (V a) (S a) x
     (funding_received a) (runway a) (death_time a).
Definition set_funding_received (x : Q) (a : t) : t :=
  mk (K a) (B a) (R a) (PMF a) (V a) (S a) (just_funded a)
     x (runway a) (death_time a).
Definition set_runway (x : Float) (a : t) : t :=
  mk (K a) (B a) (R a) (PMF a) (V a) (S a) (just_funded a)
     (funding_received a) x (death_time a).
Definition set_death_time (x : option Z) (a : t) : t :=
  mk (K a) (B a) (R a) (PMF a) (V a) (S a) (just_funded a)
     (funding_received a) (runway a) x.
End Agent.

(** ** The model, its scheduler and its data collector *)

(** One row of [model_reporters]. *)
Record ModelRow : Type := {
  Alive_Startups : Z;
  Dead_Startups : Z;
  Failure_Rate : Q;
  Total_Funding : Q;
  Avg_Valuation : Q;
  Avg_PMF : Q;
  Avg_Revenue : Q;
  Market_Size : Q;
  Competition_Index : Q;
}.

(** One row of [agent_reporters]. *)
Record AgentRow : Type := {
  Capital : Q;
  Burn_Rate : Q;
  Revenue : Q;
  PMF_value : Q;
  Valuation : Q;
  Survival : Z;
  Funding_Received : Q;
  Death_Time : option Z;
}.

Record DataCollector : Type := {
  model_vars : list ModelRow;
  (** [_agent_records], a dict from the step to that step's rows, in
      insertion order. *)
  agent_records : list (Z * list AgentRow);
}.

Record Schedule : Type := {
  steps : Z;
  time : Z;
  agents : list Agent.t;
}.

Record Model : Type := {
  schedule : Schedule;
  market_size : Q;
  initial_startups : Z;
  competition_index : Q;
  (** [Model.steps] of Mesa, the number of [step] calls so far. *)
  model_steps : Z;
  datacollector : DataCollector;
}.

Definition set_schedule (s : Schedule) (m : Model) : Model :=
  {| schedule := s; market_size := market_size m;
     initial_startups := initial_startups m;
     competition_index := competition_index m;
     model_steps := model_steps m; datacollector := datacollector m |}.

Definition set_agents (l : list Agent.t) (m : Model) : Model :=
  set_schedule {| steps := steps (schedule m); time := time (schedule m);
                  agents := l |} m.

Definition set_market_size (x : Q) (m : Model) : Model :=
  {| schedule := schedule m; market_size := x;
     initial_startups := initial_startups m;
     competition_index := competition_index m;
     model_steps := model_steps m; datacollector := datacollector m |}.

Definition set_competition_index (x : Q) (m : Model) : Model :=
  {| schedule := schedule m; market_size := market_size m;
     initial_startups := initial_startups m;
     competition_index := x;
     model_steps := model_steps m; datacollector := datacollector m |}.

Definition set_model_steps (x : Z) (m : Model) : Model :=
  {| schedule := schedule m; market_size := market_size m;
     initial_startups := initial_startups m;
     competition_index := competition_index m;
     model_steps := x; datacollector := datacollector m |}.

Definition set_datacollector (d : DataCollector) (m : Model) : Model :=
  {| schedule := schedule m; market_size := market_size m;
     initial_startups := initial_startups m;
     competition_index := competition_index m;
     model_steps := model_steps m; datacollector := d |}.

(** ** startup_agent.py *)

Module StartupAgent.
Section Stages.
Context `{Numpy} (config : Config).
Import Agent.
Local Open Scope Q_scope.

(** [StartupAgent.__init__]; the [unique_id] argument is not used by the
    source. *)
Definition init : M Agent.t :=
  let* K := np_random_uniform (K0_MIN config) (K0_MAX config) in
  let* B := np_random_uniform (B0_MIN_RATIO config * K)
                              (B0_MAX_RATIO config * K) in
  let R := R0_INITIAL config in
  let* PMF := np_random_beta (PMF_ALPHA config) (PMF_BETA config) in
  let V := LAMBDA_3 config * K in
  ret (Agent.mk K B R PMF V 1%Z false 0
         (if Qlt_bool 0 B then Finite (K / B) else Inf) None).

(** Stages 1 and 2 do nothing on the agent. *)
Definition stage_shock (self : Agent.t) : M Agent.t := ret self.

Definition stage_market_update (self : Agent.t) : M Agent.t := ret self.

(** Stage 3. *)
Definition stage_consumer_adoption (model : Model) (self : Agent.t)
  : M Agent.t :=
  if (S self =? 0)%Z then ret (set_R 0 self)
  else
    let exponent :=
      - GAMMA config * (PMF self - EPSILON_PRICE config * BASE_PRICE config) in
    let p_a := 1 / (1 + np_exp exponent) in
    let M_t := market_size model in
    let theta_t := competition_index model in
    let q_t := Q_T config in
    let R_bar := M_t * p_a * q_t * (1 - theta_t) in
    let* epsilon_r := np_random_normal 0 (SIGMA_R config) in
    ret (set_R (py_max 0 (R_bar + epsilon_r)) self).

(** Stage 4. *)
Definition stage_internal_dynamics (self : Agent.t) : M Agent.t :=
  if (S self =? 0)%Z then ret self
  else if just_funded self then
    ret (set_just_funded false
           (set_B (B self * (1 + DELTA_GROWTH config)) self))
  else if float_lt (runway self) (RUNWAY_LOW_THRESHOLD config)
          && Qlt_bool 0 (B self) then
    ret (set_B (B self * (1 - DELTA_CUT config)) self)
  else ret self.

(** Stage 5.  [funding_received] is set in [__init__], so the [getattr]
    default is never taken. *)
Definition stage_capital_update (model : Model) (self : Agent.t)
  : M Agent.t :=
  if (S self =? 0)%Z then ret self
  else
    let F_t := funding_received self in
    let self := set_K (K self + R self - B self + F_t) self in
    let self := set_funding_received 0 self in
    let self :=
      if Qle_bool (K self) 0 then
        set_death_time (Some (steps (schedule model)))
          (set_K 0 (set_S 0%Z self))
      else self in
    if (S self =? 1)%Z && Qlt_bool 0 (B self) then
      ret (set_runway (Finite (K self / B self)) self)
    else
      ret (set_runway (if (S self =? 0)%Z then Finite 0 else Inf) self).

(** Stage 6. *)
Definition stage_pmf_valuation_update (self : Agent.t) : M Agent.t :=
  if (S self =? 0)%Z then ret self
  else
    let* epsilon_p := np_random_normal 0 (SIGMA_PMF config) in
    let self :=
      set_PMF (PMF self + ETA config * np_log (1 + R self) + epsilon_p)
              self in
    let self := set_PMF (np_clip (PMF self) 0 1) self in
    ret (set_V (LAMBDA_1 config * R self +
                LAMBDA_2 config * PMF self +
                LAMBDA_3 config * K self) self).

(** The locals [revenue_burn_ratio] and [is_eligible] of stage 7. *)
Definition revenue_burn_ratio (self : Agent.t) : Q :=
  if Qlt_bool 0 (B self) then R self / B self else 0.

Definition is_eligible (self : Agent.t) : bool :=
  Qle_bool (ALPHA_REVENUE_BURN config) (revenue_burn_ratio self)
  && Qle_bool (PMF_MIN config) (PMF self).

(** The investor logic of stage 7, below the two early returns. *)
Definition investor_logic (model : Model) (self : Agent.t) : M Agent.t :=
  if negb (is_eligible self) then ret (set_funding_received 0 self)
  else
    let theta_t := competition_index model in
    let z := BETA_1 config * PMF self +
             BETA_2 config * np_log (R self + 1) -
             BETA_3 config * theta_t in
    let p_fund := 1 / (1 + np_exp (- z)) in
    let* u := np_random_random in
    if Qlt_bool u p_fund then
      ret (set_just_funded true
             (set_funding_received (KAPPA config * V self) self))
    else ret (set_funding_received 0 self).

(** Stage 7. *)
Definition stage_funding (model : Model) (self : Agent.t) : M Agent.t :=
  if (S self =? 0)%Z then ret (set_funding_received 0 self)
  else
    let* r := py_mod (steps (schedule model)) (FUNDING_INTERVAL config) in
    if negb (r =? 0)%Z then ret (set_funding_received 0 self)
    else investor_logic model self.

(** The burn-rate adjustment of stage 8, below the two early returns. *)
Definition policy_logic (self : Agent.t) : Agent.t :=
  let policy_impact := C_REG config - S_G config + TAU config * R self in
  let self := set_B (B self + policy_impact) self in
  set_B (py_max 0 (B self)) self.

(** Stage 8. *)
Definition stage_policy (model : Model) (self : Agent.t) : M Agent.t :=
  if (S self =? 0)%Z then ret self
  else
    let* r := py_mod (steps (schedule model)) (POLICY_INTERVAL config) in
    if negb (r =? 0)%Z then ret self
    else ret (policy_logic self).

End Stages.
End StartupAgent.

(** ** startup_model.py *)

(** The names in [StagedActivation.stage_list]. *)
Inductive Stage : Type :=
  | Stage_shock
  | Stage_market_update
  | Stage_consumer_adoption
  | Stage_internal_dynamics
  | Stage_capital_update
  | Stage_pmf_valuation_update
  | Stage_funding
  | Stage_policy.

Definition stage_list : list Stage :=
  [Stage_shock; Stage_market_update; Stage_consumer_adoption;
   Stage_internal_dynamics; Stage_capital_update;
   Stage_pmf_valuation_update; Stage_funding; Stage_policy].

(** [sum(1 for a in agents if p(a))] *)
Definition count_if (p : Agent.t -> bool) (l : list Agent.t) : Z :=
  Z.of_nat (length (List.filter p l)).

Definition is_alive (a : Agent.t) : bool := (Agent.S a =? 1)%Z.
Definition is_dead (a : Agent.t) : bool := (Agent.S a =? 0)%Z.

Definition Qsum (l : list Q) : Q := foldr Qplus 0%Q l.

(** [np.mean] of a list. *)
Definition np_mean (l : list Q) : Q :=
  (Qsum l / inject_Z (Z.of_nat (length l)))%Q.

(** [d[k] = v] on a dict kept in insertion order. *)
Fixpoint dict_set {A} (k : Z) (v : A) (d : list (Z * A)) : list (Z * A) :=
  match d with
  | [] => [(k, v)]
  | (k', v') :: d' =>
      if (k' =? k)%Z then (k, v) :: d' else (k', v') :: dict_set k v d'
  end.

Fixpoint dict_get {A} (k : Z) (d : list (Z * A)) : option A :=
  match d with
  | [] => None
  | (k', v') :: d' => if (k' =? k)%Z then Some v' else dict_get k d'
  end.

Module StartupModel.
Section Model.
Context `{Numpy} (config : Config).
Local Open Scope Q_scope.

(** [getattr(agent, stage)()] for the model the agent belongs to. *)
Definition call_stage (stage : Stage) (model : Model) (agent : Agent.t)
  : M Agent.t :=
  match stage with
  | Stage_shock => StartupAgent.stage_shock agent
  | Stage_market_update => StartupAgent.stage_market_update agent
  | Stage_consumer_adoption =>
      StartupAgent.stage_consumer_adoption config model agent
  | Stage_internal_dynamics =>
      StartupAgent.stage_internal_dynamics config agent
  | Stage_capital_update => StartupAgent.stage_capital_update model agent
  | Stage_pmf_valuation_update =>
      StartupAgent.stage_pmf_valuation_update config agent
  | Stage_funding => StartupAgent.stage_funding config model agent
  | Stage_policy => StartupAgent.stage_policy config model agent
  end.

(** The PMF shock on one agent of the loop in [apply_shocks]. *)
Definition shock_agent (delta_pmf : Q) (agent : Agent.t) : Agent.t :=
  if (Agent.S agent =? 1)%Z then
    Agent.set_PMF (np_clip (Agent.PMF agent + delta_pmf) 0 1) agent
  else agent.

(** Stage 1. *)
Definition apply_shocks (model : Model) : M Model :=
  let* u := np_random_random in
  if Qlt_bool u (P_SHOCK config) then
    let* delta_pmf := np_random_uniform (DELTA_PMF_SHOCK_MIN config)
                                        (DELTA_PMF_SHOCK_MAX config) in
    let* delta_m := np_random_uniform (DELTA_M_SHOCK_MIN config)
                                      (DELTA_M_SHOCK_MAX config) in
    let model :=
      set_agents (map (shock_agent delta_pmf) (agents (schedule model)))
                 model in
    let model :=
      set_market_size (market_size model * (1 + delta_m)) model in
    ret (set_market_size (py_max 0 (market_size model)) model)
  else ret model.

(** Stage 2. *)
Definition update_market (model : Model) : M Model :=
  let model :=
    set_market_size (market_size model * (1 + GROWTH_RATE_M config))
                    model in
  let active_startups := count_if is_alive (agents (schedule model)) in
  let* theta := py_int_div active_startups (initial_startups model) in
  ret (set_competition_index theta model).

(** The two nested loops of [StagedActivation.step]: each stage is run
    on every agent before the next stage begins. *)
Fixpoint run_stages (stages : list Stage) (model : Model) : M Model :=
  match stages with
  | [] => ret model
  | stage :: rest =>
      let* l := for_each (call_stage stage model)
                         (agents (schedule model)) in
      run_stages rest (set_agents l model)
  end.

(** [StagedActivation.step] *)
Definition schedule_step (model : Model) : M Model :=
  let* model := apply_shocks model in
  let* model := update_market model in
  let* model := run_stages (drop 2 stage_list) model in
  let sched := schedule model in
  ret (set_schedule {| steps := (steps sched + 1)%Z;
                       time := (time sched + 1)%Z;
                       agents := agents sched |} model).

(** The nine [model_reporters], evaluated in the order of the dict. *)
Definition model_row (m : Model) : M ModelRow :=
  let l := agents (schedule m) in
  let alive := List.filter is_alive l in
  let alive_n := count_if is_alive l in
  let dead_n := count_if is_dead l in
  let* failure_rate := py_int_div dead_n (Z.of_nat (length l)) in
  let avg (f : Agent.t -> Q) :=
    if existsb is_alive l then np_mean (map f alive) else 0 in
  ret {| Alive_Startups := alive_n;
         Dead_Startups := dead_n;
         Failure_Rate := failure_rate;
         Total_Funding := Qsum (map Agent.funding_received alive);
         Avg_Valuation := avg Agent.V;
         Avg_PMF := avg Agent.PMF;
         Avg_Revenue := avg Agent.R;
         Market_Size := market_size m;
         Competition_Index := competition_index m |}.

(** The eight [agent_reporters] on one agent. *)
Definition agent_row (a : Agent.t) : AgentRow :=
  {| Capital := Agent.K a;
     Burn_Rate := Agent.B a;
     Revenue := Agent.R a;
     PMF_value := Agent.PMF a;
     Valuation := Agent.V a;
     Survival := Agent.S a;
     Funding_Received := Agent.funding_received a;
     Death_Time := Agent.death_time a |}.

(** [DataCollector.collect(model)] *)
Definition collect (m : Model) : M Model :=
  let dc := datacollector m in
  let* row := model_row m in
  ret (set_datacollector
         {| model_vars := model_vars dc ++ [row];
            agent_records :=
              dict_set (model_steps m)
                       (map agent_row (agents (schedule m)))
                       (agent_records dc) |} m).

(** One pass of the loop in [__init__]: construct an agent and
    [schedule.add] it. *)
Definition add_agent (l : list Agent.t) : M (list Agent.t) :=
  let* agent := StartupAgent.init config in
  ret (l ++ [agent]).

(** [StartupModel.__init__(num_startups, seed)].  The seed also goes to
    [self.random], Python's own generator, from which the simulation
    never draws. *)
Definition init (num_startups : Z) (seed : option Z) : M Model :=
  do (match seed with
      | Some s => np_random_seed s
      | None => ret tt
      end) then
  let* l := repeat_m (Z.to_nat num_startups) add_agent [] in
  ret {| schedule := {| steps := 0; time := 0; agents := l |};
         market_size := M0_INITIAL config;
         initial_startups := num_startups;
         competition_index := 0;
         model_steps := 0;
         datacollector := {| model_vars := []; agent_records := [] |} |}.

(** [StartupModel.step], entered through Mesa's wrapper that counts the
    call. *)
Definition step (m : Model) : M Model :=
  let m := set_model_steps (model_steps m + 1)%Z m in
  let* m := collect m in
  schedule_step m.

(** [StartupModel.run_model(steps)] *)
Definition run_model (n : Z) (m : Model) : M Model :=
  let* m := repeat_m (Z.to_nat n) step m in
  collect m.

Definition get_model_data (m : Model) : list ModelRow :=
  model_vars (datacollector m).

Definition get_agent_data (m : Model) : list (Z * list AgentRow) :=
  agent_records (datacollector m).

(** The rows of the agents' final state: those stored by the last
    [collect], under the step the model ended on. *)
Definition final_agent_records (m : Model) : list AgentRow :=
  default [] (dict_get (model_steps m) (get_agent_data m)).

(** Constructing a model and running it to the horizon. *)
Definition simulate (num_startups : Z) (seed : option Z) (horizon : Z)
  : M Model :=
  let* m := init num_startups seed in
  run_model horizon m.

End Model.
End StartupModel.

(** ** A concrete generator

    A linear congruential generator with crude rational stand-ins for the
    samplers and for [exp] and [log], on which the definitions above can
    be run. *)

Module Lcg.
Local Open Scope Q_scope.

Definition next (g : Z) : Z := ((g * 1103515245 + 12345) mod 2147483648)%Z.

(** A fraction in [[0, 1)] read off the state. *)
Definition unit_of (g : Z) : Q := Qred (inject_Z ((g / 65536) mod 1024) / 1024).

Definition random (g : Z) : Q * Z := (unit_of (next g), next g).

Definition uniform (low high : Q) (g : Z) : Q * Z :=
  (Qred (low + (high - low) * unit_of (next g)), next g).

Definition normal (loc scale : Q) (g : Z) : Q * Z :=
  (Qred (loc + scale * (2 * unit_of (next g) - 1)), next g).

Definition beta (a b : Q) (g : Z) : Q * Z :=
  (np_clip (Qred (unit_of (next g) * (a / (a + b)) * 2)) 0 1, next g).

Definition exp (x : Q) : Q :=
  Qred (if Qlt_bool x 0 then 1 / (1 - x) else 1 + x).

Definition log (x : Q) : Q :=
  Qred (if Qlt_bool 1 x then (x - 1) / x else x - 1).

Definition seed (s : Z) : option Z :=
  if (0 <=? s)%Z && (s <? 4294967296)%Z then Some s else None.

#[export] Instance numpy : Numpy := {|
  rng := Z;
  seed_state := seed;
  sample_random := random;
  sample_uniform := uniform;
  sample_normal := normal;
  sample_beta := beta;
  np_exp := exp;
  np_log := log;
|}.

(** A model between two months, with one agent, for running single
    stages. *)
Definition model_at (s : Z) (a : Agent.t) : Model := {|
  schedule := {| steps := s; time := s; agents := [a] |};
  market_size := 100000000;
  initial_startups := 1;
  competition_index := 1;
  model_steps := s;
  datacollector := {| model_vars := []; agent_records := [] |};
|}.

(** A live agent whose burn exceeds what it has. *)
Definition broke : Agent.t :=
  Agent.mk 100 150 20 0.4 5000 1%Z false 0 (Finite (100 / 150)) None.

(** A live agent that burns nothing and has a good product. *)
Definition thrifty : Agent.t :=
  Agent.mk 100000 0 0 0.5 4000000 1%Z false 0 Inf None.

End Lcg.

(** [config.py] with three of its entries edited: the two initial burn
    ratios and the revenue/burn threshold. *)
Definition edited_config (b0_min_ratio b0_max_ratio alpha : Q) : Config := {|
  K0_MIN := K0_MIN default_config;
  K0_MAX := K0_MAX default_config;
  B0_MIN_RATIO := b0_min_ratio;
  B0_MAX_RATIO := b0_max_ratio;
  R0_INITIAL := R0_INITIAL default_config;
  PMF_ALPHA := PMF_ALPHA default_config;
  PMF_BETA := PMF_BETA default_config;
  GAMMA := GAMMA default_config;
  EPSILON_PRICE := EPSILON_PRICE default_config;
  BASE_PRICE := BASE_PRICE default_config;
  SIGMA_R := SIGMA_R default_config;
  DELTA_GROWTH := DELTA_GROWTH default_config;
  DELTA_CUT := DELTA_CUT default_config;
  RUNWAY_LOW_THRESHOLD := RUNWAY_LOW_THRESHOLD default_config;
  ETA := ETA default_config;
  SIGMA_PMF := SIGMA_PMF default_config;
  LAMBDA_1 := LAMBDA_1 default_config;
  LAMBDA_2 := LAMBDA_2 default_config;
  LAMBDA_3 := LAMBDA_3 default_config;
  FUNDING_INTERVAL := FUNDING_INTERVAL default_config;
  ALPHA_REVENUE_BURN := alpha;
  PMF_MIN := PMF_MIN default_config;
  BETA_1 := BETA_1 default_config;
  BETA_2 := BETA_2 default_config;
  BETA_3 := BETA_3 default_config;
  KAPPA := KAPPA default_config;
  M0_INITIAL := M0_INITIAL default_config;
  GROWTH_RATE_M := GROWTH_RATE_M default_config;
  POLICY_INTERVAL := POLICY_INTERVAL default_config;
  C_REG := C_REG default_config;
  S_G := S_G default_config;
  TAU := TAU default_config;
  P_SHOCK := P_SHOCK default_config;
  DELTA_PMF_SHOCK_MIN := DELTA_PMF_SHOCK_MIN default_config;
  DELTA_PMF_SHOCK_MAX := DELTA_PMF_SHOCK_MAX default_config;
  DELTA_M_SHOCK_MIN := DELTA_M_SHOCK_MIN default_config;
  DELTA_M_SHOCK_MAX := DELTA_M_SHOCK_MAX default_config;
  Q_T := Q_T default_config;
|}.

(** The revenue/burn threshold lowered to 0. *)
Definition config_alpha_zero : Config := edited_config 0.05 0.15 0.

(** Startups that begin with a burn rate around their whole capital. *)
Definition config_high_burn : Config := edited_config 0.9 1.3 0.3.

(** ** What one agent goes through

    The relations below follow a single agent through the loops of the
    scheduler, forgetting which generator states it met on the way. *)

Section Trajectories.
Context `{Numpy} (config : Config).

(** One stage call that returns. *)
Definition stage_out (stage : Stage) (model : Model) (a a' : Agent.t)
  : Prop :=
  exists g g', StartupModel.call_stage config stage model a g = Ok (a', g').

(** A sequence of stage calls on the same agent. *)
Fixpoint stages_out (stages : list Stage) (model : Model)
    (a a' : Agent.t) : Prop :=
  match stages with
  | [] => a' = a
  | stage :: rest =>
      exists a1, stage_out stage model a a1 /\ stages_out rest model a1 a'
  end.

(** The effect of the shock stage on one agent: none, or one shared
    delta. *)
Definition shock_out (a a' : Agent.t) : Prop :=
  a' = a \/ exists delta_pmf, a' = StartupModel.shock_agent delta_pmf a.

(** One month of one agent, run while [schedule.steps] is [s]. *)
Definition month_out (s : Z) (a a' : Agent.t) : Prop :=
  exists model a0,
    steps (schedule model) = s /\
    shock_out a a0 /\
    stages_out (drop 2 stage_list) model a0 a'.

(** What a stage leaves of an agent that is already dead. *)
Definition dead_effect (stage : Stage) (a : Agent.t) : Agent.t :=
  match stage with
  | Stage_consumer_adoption => Agent.set_R 0 a
  | Stage_funding => Agent.set_funding_received 0 a
  | _ => a
  end.

(** A freshly constructed agent. *)
Definition fresh (a : Agent.t) : Prop :=
  Agent.S a = 1%Z /\ Agent.death_time a = None /\
  Agent.funding_received a = 0%Q /\ Agent.just_funded a = false /\
  exists g, Agent.PMF a
            = fst (sample_beta (PMF_ALPHA config) (PMF_BETA config) g).

(** The state a run has reached after [t] months. *)
Definition month_state (num_startups : Z) (seed : option Z) (t : nat)
  : M Model :=
  let* m := StartupModel.init config num_startups seed in
  repeat_m t (StartupModel.step config) m.

End Trajectories.

(** Properties of the configuration and of NumPy that the results below
    rely on. *)

(** [np.random.beta] returns a value of the unit interval. *)
Definition beta_in_unit_interval `{Numpy} : Prop :=
  forall a b g, (0 <= fst (sample_beta a b g) <= 1)%Q.

(** The parameters NumPy validates and the two divisors are such that no
    stage raises. *)
Record config_runs (config : Config) : Prop := {
  runs_funding_interval : FUNDING_INTERVAL config <> 0%Z;
  runs_policy_interval : POLICY_INTERVAL config <> 0%Z;
  runs_sigma_r : (0 <= SIGMA_R config)%Q;
  runs_sigma_pmf : (0 <= SIGMA_PMF config)%Q;
  runs_pmf_alpha : (0 < PMF_ALPHA config)%Q;
  runs_pmf_beta : (0 < PMF_BETA config)%Q;
}.

(** ** Invariants of one agent *)

(** Death leaves no capital behind. *)
Definition dead_has_no_capital (a : Agent.t) : Prop :=
  Agent.S a = 0%Z -> Agent.K a = 0%Q.

(** A death that happens while [schedule.steps] is [s] is dated [s]. *)
Definition died_at (s : Z) (a : Agent.t) : Prop :=
  Agent.S a = 0%Z -> Agent.death_time a = Some s.

(** The PMF bound. *)
Definition pmf_bounded (a : Agent.t) : Prop :=
  (0 <= Agent.PMF a <= 1)%Q.

(** The seed, when one is given, is one NumPy accepts. *)
Definition seed_accepted `{Numpy} (seed : option Z) : Prop :=
  match seed with
  | Some s => seed_state s <> None
  | None => True
  end.

(** What the loop of [run_model] keeps: the population, and the number
    it started with. *)
Definition populated (n : Z) (model : Model) : Prop :=
  initial_startups model = n /\
  length (agents (schedule model)) = Z.to_nat n.

(** ** Tactics for the stage functions *)

Ltac unfold_stages :=
  unfold StartupModel.call_stage, StartupAgent.stage_shock,
    StartupAgent.stage_market_update, StartupAgent.stage_consumer_adoption,
    StartupAgent.stage_internal_dynamics, StartupAgent.stage_capital_update,
    StartupAgent.stage_pmf_valuation_update, StartupAgent.stage_funding,
    StartupAgent.investor_logic, StartupAgent.is_eligible,
    StartupAgent.revenue_burn_ratio, StartupAgent.stage_policy,
    StartupAgent.policy_logic, py_mod, np_random_normal, np_random_random,
    bind, ret, raise.

Ltac unfold_stages_in H :=
  unfold StartupModel.call_stage, StartupAgent.stage_shock,
    StartupAgent.stage_market_update, StartupAgent.stage_consumer_adoption,
    StartupAgent.stage_internal_dynamics, StartupAgent.stage_capital_update,
    StartupAgent.stage_pmf_valuation_update, StartupAgent.stage_funding,
    StartupAgent.investor_logic, StartupAgent.is_eligible,
    StartupAgent.revenue_burn_ratio, StartupAgent.stage_policy,
    StartupAgent.policy_logic, py_mod, np_random_normal, np_random_random,
    bind, ret, raise in H.

(** Splits a returned stage call into the paths through its body. *)
Ltac stage_paths H :=
  unfold_stages_in H;
  repeat match type of H with
         | context [if ?b then _ else _] => destruct b eqn:?
         | context [match ?p with (_, _) => _ end] => destruct p eqn:?
         end;
  try discriminate H;
  injection H as <- <-.

(** ** The queries of startup_model.py and the drivers of
    run_simulation.py *)

(** The entries of [config.py] that only the queries and the drivers
    read. *)
Record RunConfig : Type := {
  NUM_STARTUPS : Z;
  TIME_HORIZON : Z;
  RANDOM_SEED : Z;
  V_EXIT : Q;
  SUCCESS_PERCENTILE : Q;
}.

Definition default_run_config : RunConfig := {|
  NUM_STARTUPS := 1000;
  TIME_HORIZON := 60;
  RANDOM_SEED := 42;
  V_EXIT := 100000000;
  SUCCESS_PERCENTILE := 0.90;
|}.

(** [x <= y] on rationals is decided by [Qle_bool]. *)
#[export] Instance Qle_decision : RelDecision Qle :=
  fun x y =>
    match Qle_bool x y as b return Qle_bool x y = b -> Decision (x <= y)%Q with
    | true => fun E => left (proj1 (Qle_bool_iff x y) E)
    | false => fun E =>
        right (fun Hle =>
                 eq_ind true (fun b => if b then True else False) I false
                   (eq_trans (eq_sym (proj2 (Qle_bool_iff x y) Hle)) E))
    end eq_refl.

(** [np.percentile(l, q)] with NumPy's default linear interpolation: the
    virtual index [(n - 1) * q / 100] into the sorted values, and the
    interpolation between its two neighbours. *)
Definition np_percentile (l : list Q) (q : Q) : Q :=
  let sorted := merge_sort Qle l in
  let n := length l in
  let virtual_index := (inject_Z (Z.of_nat (n - 1)) * (q / 100))%Q in
  let previous := Qfloor virtual_index in
  let lo := Z.to_nat previous in
  let hi := Nat.min (lo + 1) (n - 1) in
  let gamma := (virtual_index - inject_Z previous)%Q in
  let a := nth lo sorted 0%Q in
  let b := nth hi sorted 0%Q in
  (a + (b - a) * gamma)%Q.

(** [StartupModel.get_success_count] *)
Definition get_success_count (rc : RunConfig) (m : Model) : Z :=
  count_if (fun agent => is_alive agent && Qle_bool (V_EXIT rc) (Agent.V agent))
           (agents (schedule m)).

(** [StartupModel.get_top_10_percent_count] *)
Definition get_top_10_percent_count (m : Model) : Z :=
  let alive_agents := List.filter is_alive (agents (schedule m)) in
  match alive_agents with
  | [] => 0
  | _ :: _ =>
      let valuations := map Agent.V alive_agents in
      let percentile_90 := np_percentile valuations 90 in
      Z.of_nat (length (List.filter (fun v => Qle_bool percentile_90 v)
                                    valuations))
  end.

(** [StartupModel.get_survival_times]: the death times of the dead agents
    that have one. *)
Definition get_survival_times (m : Model) : list Z :=
  omap (fun agent =>
          if (Agent.S agent =? 0)%Z then Agent.death_time agent else None)
       (agents (schedule m)).

Section Drivers.
Context `{Numpy} (config : Config) (rc : RunConfig).

(** The seed [run_single_simulation] constructs its model with. *)
Definition model_seed (run_number : Z) (seed : option Z) : option Z :=
  match seed with
  | Some s => Some (s + run_number)%Z
  | None =>
      if (RANDOM_SEED rc =? 0)%Z then None
      else Some (RANDOM_SEED rc + run_number)%Z
  end.

(** [run_single_simulation(run_number, seed)], without its printing and
    timing; the three ratios of the summary it prints are still
    evaluated. *)
Definition run_single_simulation (run_number : Z) (seed : option Z)
  : M Model :=
  let* model := StartupModel.init config (NUM_STARTUPS rc)
                  (model_seed run_number seed) in
  let* model := StartupModel.run_model config (TIME_HORIZON rc) model in
  let alive := count_if is_alive (agents (schedule model)) in
  let dead := count_if is_dead (agents (schedule model)) in
  let success := get_success_count rc model in
  do py_int_div alive (NUM_STARTUPS rc) then
  do py_int_div dead (NUM_STARTUPS rc) then
  do py_int_div success (NUM_STARTUPS rc) then
  ret model.

(** The loop of [run_monte_carlo], from run number [i] on. *)
Fixpoint monte_carlo_loop (n : nat) (i : Z) (seed : option Z)
    (models : list Model) : M (list Model) :=
  match n with
  | O => ret models
  | Datatypes.S n' =>
      let* model := run_single_simulation i seed in
      monte_carlo_loop n' (i + 1)%Z seed (models ++ [model])
  end.

(** [run_monte_carlo(num_runs, seed)], without its printing and timing;
    the average time per run that it prints divides by [num_runs]. *)
Definition run_monte_carlo (num_runs : Z) (seed : option Z)
  : M (list Model) :=
  let* models := monte_carlo_loop (Z.to_nat num_runs) 0 seed [] in
  if (num_runs =? 0)%Z then raise ZeroDivisionError else ret models.

End Drivers.

(** A small batch: two startups over two months. *)
Definition small_run_config : RunConfig := {|
  NUM_STARTUPS := 2;
  TIME_HORIZON := 2;
  RANDOM_SEED := 42;
  V_EXIT := 100000000;
  SUCCESS_PERCENTILE := 0.90;
|}.

(** [config.py] with the shock probability set to 0. *)
Definition config_no_shock : Config := {|
  K0_MIN := K0_MIN default_config;
  K0_MAX := K0_MAX default_config;
  B0_MIN_RATIO := B0_MIN_RATIO default_config;
  B0_MAX_RATIO := B0_MAX_RATIO default_config;
  R0_INITIAL := R0_INITIAL default_config;
  PMF_ALPHA := PMF_ALPHA default_config;
  PMF_BETA := PMF_BETA default_config;
  GAMMA := GAMMA default_config;
  EPSILON_PRICE := EPSILON_PRICE default_config;
  BASE_PRICE := BASE_PRICE default_config;
  SIGMA_R := SIGMA_R default_config;
  DELTA_GROWTH := DELTA_GROWTH default_config;
  DELTA_CUT := DELTA_CUT default_config;
  RUNWAY_LOW_THRESHOLD := RUNWAY_LOW_THRESHOLD default_config;
  ETA := ETA default_config;
  SIGMA_PMF := SIGMA_PMF default_config;
  LAMBDA_1 := LAMBDA_1 default_config;
  LAMBDA_2 := LAMBDA_2 default_config;
  LAMBDA_3 := LAMBDA_3 default_config;
  FUNDING_INTERVAL := FUNDING_INTERVAL default_config;
  ALPHA_REVENUE_BURN := ALPHA_REVENUE_BURN default_config;
  PMF_MIN := PMF_MIN default_config;
  BETA_1 := BETA_1 default_config;
  BETA_2 := BETA_2 default_config;
  BETA_3 := BETA_3 default_config;
  KAPPA := KAPPA default_config;
  M0_INITIAL := M0_INITIAL default_config;
  GROWTH_RATE_M := GROWTH_RATE_M default_config;
  POLICY_INTERVAL := POLICY_INTERVAL default_config;
  C_REG := C_REG default_config;
  S_G := S_G default_config;
  TAU := TAU default_config;
  P_SHOCK := 0;
  DELTA_PMF_SHOCK_MIN := DELTA_PMF_SHOCK_MIN default_config;
  DELTA_PMF_SHOCK_MAX := DELTA_PMF_SHOCK_MAX default_config;
  DELTA_M_SHOCK_MIN := DELTA_M_SHOCK_MIN default_config;
  DELTA_M_SHOCK_MAX := DELTA_M_SHOCK_MAX default_config;
  Q_T := Q_T default_config;
|}.

(** ** Further properties of the samplers and of the configuration *)

(** [np.random.uniform(low, high)] returns a value between its bounds. *)
Definition uniform_in_range `{Numpy} : Prop :=
  forall low high g,
    (low <= high)%Q -> (low <= fst (sample_uniform low high g) <= high)%Q.

(** [np.random.random()] returns a value that is not negative. *)
Definition random_nonneg `{Numpy} : Prop :=
  forall g, (0 <= fst (sample_random g))%Q.

(** Initial capital and burn ratios are ordered and not negative, and the
    two burn-rate factors do not change the sign. *)
Record burn_config (config : Config) : Prop := {
  burn_k0_min : (0 <= K0_MIN config)%Q;
  burn_k0_order : (K0_MIN config <= K0_MAX config)%Q;
  burn_b0_min : (0 <= B0_MIN_RATIO config)%Q;
  burn_b0_order : (B0_MIN_RATIO config <= B0_MAX_RATIO config)%Q;
  burn_growth : (0 <= 1 + DELTA_GROWTH config)%Q;
  burn_cut : (0 <= 1 - DELTA_CUT config)%Q;
}.

(** The state of an agent at the end of a month. *)

(** Alive with capital, or dead without. *)
Definition capital_tracks_survival (a : Agent.t) : Prop :=
  (Agent.S a = 1%Z /\ (0 < Agent.K a)%Q) \/
  (Agent.S a = 0%Z /\ Agent.K a = 0%Q).

(** Alive and undated, or dead and dated before step [t]. *)
Definition dated_before (t : Z) (a : Agent.t) : Prop :=
  (Agent.S a = 1%Z /\ Agent.death_time a = None) \/
  (Agent.S a = 0%Z /\
   exists d, Agent.death_time a = Some d /\ (0 <= d < t)%Z).

(** The month in which the agent at position [i] dies: the run reaches,
    after [d] months, a model whose [schedule.steps] is [d] and in which
    that agent is alive, and the [step] called on that model leaves the
    agent dead. *)
Definition dies_in_month `{Numpy} (config : Config) (num_startups : Z)
    (seed : option Z) (g : rng) (i d : nat) : Prop :=
  exists m gm a m' gm' a',
    month_state config num_startups seed d g = Ok (m, gm) /\
    steps (schedule m) = Z.of_nat d /\
    agents (schedule m) !! i = Some a /\ Agent.S a = 1%Z /\
    StartupModel.step config m gm = Ok (m', gm') /\
    agents (schedule m') !! i = Some a' /\ Agent.S a' = 0%Z.

(** The valuation formula on the agent's own fields. *)
Definition valuation_of (config : Config) (a : Agent.t) : Q :=
  (LAMBDA_1 config * Agent.R a + LAMBDA_2 config * Agent.PMF a +
   LAMBDA_3 config * Agent.K a)%Q.

(** No funding stored and no flag, or the funding of this month: the
    configured share of the valuation, flagged, on a live agent. *)
Definition funding_settled (config : Config) (a : Agent.t) : Prop :=
  (Agent.funding_received a = 0%Q /\ Agent.just_funded a = false) \/
  (Agent.funding_received a = (KAPPA config * Agent.V a)%Q /\
   Agent.just_funded a = true /\ Agent.S a <> 0%Z).

(** The burn rate the internal-dynamics stage leaves a live agent with,
    from the agent's flag, runway and burn rate. *)
Definition burn_after_dynamics (config : Config) (a : Agent.t) : Q :=
  if Agent.just_funded a then (Agent.B a * (1 + DELTA_GROWTH config))%Q
  else if float_lt (Agent.runway a) (RUNWAY_LOW_THRESHOLD config)
          && Qlt_bool 0 (Agent.B a)
       then (Agent.B a * (1 - DELTA_CUT config))%Q
       else Agent.B a.

(** [n] months of geometric growth. *)
Definition grown (config : Config) (n : nat) (m0 : Q) : Q :=
  Nat.iter n (fun m => (m * (1 + GROWTH_RATE_M config))%Q) m0.

(** ** Arithmetic lemmas *)

Lemma Qlt_bool_true (x y : Q) : Qlt_bool x y = true <-> (x < y)%Q.
Proof.
  unfold Qlt_bool. rewrite negb_true_iff.
  split; intros Hxy.
  - apply Qnot_le_lt. intros Hle. apply Qle_bool_iff in Hle. congruence.
  - destruct (Qle_bool y x) eqn:E; [|reflexivity].
    apply Qle_bool_iff in E. exfalso. exact (Qlt_not_le _ _ Hxy E).
Qed.

Lemma Qlt_bool_false (x y : Q) : Qlt_bool x y = false <-> (y <= x)%Q.
Proof.
  unfold Qlt_bool. rewrite negb_false_iff. apply Qle_bool_iff.
Qed.

Lemma Qle_bool_false (x y : Q) : Qle_bool x y = false <-> ~ (x <= y)%Q.
Proof.
  rewrite <- Qle_bool_iff. destruct (Qle_bool x y); split; congruence.
Qed.

Lemma np_clip_range (x lo hi : Q) :
  (lo <= hi)%Q -> (lo <= np_clip x lo hi <= hi)%Q.
Proof.
  intros Hlh. unfold np_clip.
  destruct (Qlt_bool x lo) eqn:E1.
  - destruct (Qlt_bool hi lo) eqn:E2.
    + apply Qlt_bool_true in E2. exfalso. exact (Qlt_not_le _ _ E2 Hlh).
    + split; [apply Qle_refl | exact Hlh].
  - apply Qlt_bool_false in E1.
    destruct (Qlt_bool hi x) eqn:E2.
    + split; [exact Hlh | apply Qle_refl].
    + apply Qlt_bool_false in E2. split; assumption.
Qed.

Lemma np_clip_unit (x : Q) : (0 <= np_clip x 0 1 <= 1)%Q.
Proof. apply np_clip_range. discriminate. Qed.

Lemma py_max_ge_l (a b : Q) : (a <= py_max a b)%Q.
Proof.
  unfold py_max. destruct (Qlt_bool a b) eqn:E.
  - apply Qlt_bool_true in E. apply Qlt_le_weak, E.
  - apply Qle_refl.
Qed.

(** ** Lemmas on the monad and its loops *)

Section MonadLemmas.
Context `{Numpy}.

Lemma bind_Ok {A B} (m : M A) (k : A -> M B) g r :
  bind m k g = Ok r <-> exists a g1, m g = Ok (a, g1) /\ k a g1 = Ok r.
Proof.
  unfold bind. split.
  - destruct (m g) as [[a g1]|e]; [|discriminate]. eauto.
  - intros (a & g1 & -> & Hk). exact Hk.
Qed.

Lemma ret_Ok {A} (a : A) g r : ret a g = Ok r <-> r = (a, g).
Proof. unfold ret. split; [intros [= <-]; reflexivity | intros ->; reflexivity]. Qed.

Lemma for_each_Forall2 {A} (f : A -> M A) (l l' : list A) g g' :
  for_each f l g = Ok (l', g') ->
  Forall2 (fun a a' => exists g1 g2, f a g1 = Ok (a', g2)) l l'.
Proof.
  revert l' g g'. induction l as [|a l IH]; intros l' g g' Hrun; cbn in Hrun.
  - apply ret_Ok in Hrun. injection Hrun as -> ->. constructor.
  - apply bind_Ok in Hrun as (a1 & g1 & Ha & Hrun).
    apply bind_Ok in Hrun as (l1 & g2 & Hl & Hrun).
    apply ret_Ok in Hrun. injection Hrun as -> ->.
    constructor; [eauto | eapply IH; eassumption].
Qed.

(** A loop whose body always returns, returns. *)
Lemma for_each_total {A} (f : A -> M A) (l : list A) g :
  (forall a g0, exists a' g1, f a g0 = Ok (a', g1)) ->
  exists l' g', for_each f l g = Ok (l', g').
Proof.
  intros Hf. revert g. induction l as [|a l IH]; intros g; cbn.
  - eexists _, _. reflexivity.
  - destruct (Hf a g) as (a' & g1 & Ha).
    destruct (IH g1) as (l' & g2 & Hl).
    exists (a' :: l'), g2. unfold bind. rewrite Ha, Hl. reflexivity.
Qed.

Lemma repeat_m_add {A} (n k : nat) (body : A -> M A) (a : A) g :
  repeat_m (n + k) body a g =
  bind (repeat_m n body a) (repeat_m k body) g.
Proof.
  revert a g. induction n as [|n IH]; intros a g; cbn.
  - reflexivity.
  - unfold bind. destruct (body a g) as [[a1 g1]|e]; [|reflexivity].
    rewrite IH. reflexivity.
Qed.

End MonadLemmas.

(** ** Lemmas on the stages of one agent *)

Section StageLemmas.
Context `{Numpy} (config : Config).

(** A stage on a dead agent returns at once, without drawing. *)
Lemma dead_stage stage model a g :
  Agent.S a = 0%Z ->
  StartupModel.call_stage config stage model a g
  = Ok (dead_effect stage a, g).
Proof.
  intros Hdead. destruct stage; unfold_stages; cbn;
    rewrite ?Hdead; reflexivity.
Qed.

(** Only the capital update writes the survival flag. *)
Lemma stage_preserves_S stage model a g a' g' :
  stage <> Stage_capital_update ->
  StartupModel.call_stage config stage model a g = Ok (a', g') ->
  Agent.S a' = Agent.S a.
Proof.
  intros Hne Hcall. destruct stage; try congruence;
    stage_paths Hcall; reflexivity.
Qed.

Lemma shock_agent_S delta a :
  Agent.S (StartupModel.shock_agent delta a) = Agent.S a.
Proof. unfold StartupModel.shock_agent. destruct (_ =? _)%Z; reflexivity. Qed.

Lemma shock_agent_dead delta a :
  Agent.S a = 0%Z -> StartupModel.shock_agent delta a = a.
Proof. intros Hd. unfold StartupModel.shock_agent. rewrite Hd. reflexivity. Qed.

(** The capital update of a live agent. *)
Lemma capital_update_live model a g :
  Agent.S a <> 0%Z ->
  let k := (Agent.K a + Agent.R a - Agent.B a + Agent.funding_received a)%Q in
  exists a',
    StartupAgent.stage_capital_update model a g = Ok (a', g) /\
    Agent.funding_received a' = 0%Q /\
    Agent.B a' = Agent.B a /\ Agent.R a' = Agent.R a /\
    Agent.PMF a' = Agent.PMF a /\ Agent.V a' = Agent.V a /\
    Agent.just_funded a' = Agent.just_funded a /\
    ((k <= 0)%Q ->
       Agent.K a' = 0%Q /\ Agent.S a' = 0%Z /\
       Agent.death_time a' = Some (steps (schedule model)) /\
       Agent.runway a' = Finite 0) /\
    (~ (k <= 0)%Q ->
       Agent.K a' = k /\ Agent.S a' = Agent.S a /\
       Agent.death_time a' = Agent.death_time a).
Proof.
  intros Hlive k. apply Z.eqb_neq in Hlive.
  unfold StartupAgent.stage_capital_update, ret. rewrite Hlive. cbn.
  fold k. destruct (Qle_bool k 0) eqn:Hk; cbn.
  - apply Qle_bool_iff in Hk. eexists. split; [reflexivity|]. cbn.
    repeat split; try reflexivity; intros; contradiction.
  - apply Qle_bool_false in Hk.
    destruct ((Agent.S a =? 1)%Z && Qlt_bool 0 (Agent.B a));
      (eexists; split; [reflexivity|]; cbn;
       repeat split; try reflexivity; intros; contradiction).
Qed.

Lemma stage_dead_has_no_capital stage model a a' :
  dead_has_no_capital a -> stage_out config stage model a a' ->
  dead_has_no_capital a'.
Proof.
  intros Hinv (g & g' & Hcall). unfold dead_has_no_capital in *.
  destruct (Z.eq_dec (Agent.S a) 0%Z) as [Hd|Hl].
  - rewrite (dead_stage _ _ _ _ Hd) in Hcall. injection Hcall as <- _.
    intros _. destruct stage; cbn; auto.
  - destruct stage;
      try (assert (HS : Agent.S a' = Agent.S a)
             by (eapply stage_preserves_S; [|exact Hcall]; discriminate);
           rewrite HS; intros; contradiction).
    unfold StartupModel.call_stage in Hcall.
    destruct (capital_update_live model a g Hl)
      as (a1 & Hrun & _ & _ & _ & _ & _ & _ & Hle & Hgt).
    rewrite Hrun in Hcall. injection Hcall as <- _.
    destruct (Qle_bool (Agent.K a + Agent.R a - Agent.B a
                        + Agent.funding_received a) 0) eqn:Hk.
    + apply Qle_bool_iff in Hk. intros _. apply Hle, Hk.
    + apply Qle_bool_false in Hk. destruct (Hgt Hk) as (_ & HS & _).
      rewrite HS. intros; contradiction.
Qed.

Lemma stage_died_at stage model a a' :
  died_at (steps (schedule model)) a ->
  stage_out config stage model a a' ->
  died_at (steps (schedule model)) a'.
Proof.
  intros Hinv (g & g' & Hcall). unfold died_at in *.
  destruct (Z.eq_dec (Agent.S a) 0%Z) as [Hd|Hl].
  - rewrite (dead_stage _ _ _ _ Hd) in Hcall. injection Hcall as <- _.
    intros _. destruct stage; cbn; auto.
  - destruct stage;
      try (assert (HS : Agent.S a' = Agent.S a)
             by (eapply stage_preserves_S; [|exact Hcall]; discriminate);
           rewrite HS; intros; contradiction).
    unfold StartupModel.call_stage in Hcall.
    destruct (capital_update_live model a g Hl)
      as (a1 & Hrun & _ & _ & _ & _ & _ & _ & Hle & Hgt).
    rewrite Hrun in Hcall. injection Hcall as <- _.
    destruct (Qle_bool (Agent.K a + Agent.R a - Agent.B a
                        + Agent.funding_received a) 0) eqn:Hk.
    + apply Qle_bool_iff in Hk. intros _. apply Hle, Hk.
    + apply Qle_bool_false in Hk. destruct (Hgt Hk) as (_ & HS & _).
      rewrite HS. intros; contradiction.
Qed.

Lemma stage_pmf_bounded stage model a a' :
  pmf_bounded a -> stage_out config stage model a a' -> pmf_bounded a'.
Proof.
  intros Hinv (g & g' & Hcall). unfold pmf_bounded in *.
  destruct stage; stage_paths Hcall; cbn; try exact Hinv;
    apply np_clip_unit.
Qed.

Lemma shock_agent_pmf_bounded delta a :
  pmf_bounded a -> pmf_bounded (StartupModel.shock_agent delta a).
Proof.
  intros Hinv. unfold StartupModel.shock_agent, pmf_bounded.
  destruct (_ =? _)%Z; cbn; [apply np_clip_unit | exact Hinv].
Qed.

(** The PMF stage of a live agent and the shock on an alive agent leave
    the PMF in the unit interval whatever it was before. *)
Lemma pmf_update_bounded a g a' g' :
  Agent.S a <> 0%Z ->
  StartupAgent.stage_pmf_valuation_update config a g = Ok (a', g') ->
  pmf_bounded a'.
Proof.
  intros Hl Hcall. apply Z.eqb_neq in Hl.
  stage_paths Hcall; try congruence. cbn. apply np_clip_unit.
Qed.

Lemma shock_alive_bounded delta a :
  Agent.S a = 1%Z -> pmf_bounded (StartupModel.shock_agent delta a).
Proof.
  intros Ha. unfold StartupModel.shock_agent, pmf_bounded. rewrite Ha.
  cbn. apply np_clip_unit.
Qed.

End StageLemmas.

(** ** Lemmas on the scheduler *)

Lemma Forall2_compose {A} (R1 R2 : A -> A -> Prop) (l1 l2 l3 : list A) :
  Forall2 R1 l1 l2 -> Forall2 R2 l2 l3 ->
  Forall2 (fun a c => exists b, R1 a b /\ R2 b c) l1 l3.
Proof.
  intros H12. revert l3. induction H12 as [|a b l1 l2 Hab _ IH];
    intros l3 H23; inversion H23; subst; constructor; eauto.
Qed.

Lemma Forall2_refl_eq {A} (l : list A) : Forall2 (fun a a' => a' = a) l l.
Proof. induction l; constructor; auto. Qed.

Section SchedulerLemmas.
Context `{Numpy} (config : Config).

Lemma call_stage_set_agents stage l model :
  StartupModel.call_stage config stage (set_agents l model)
  = StartupModel.call_stage config stage model.
Proof. destruct stage; reflexivity. Qed.

Lemma stages_out_set_agents stages l model a a' :
  stages_out config stages (set_agents l model) a a'
  <-> stages_out config stages model a a'.
Proof.
  revert a. induction stages as [|stage rest IH]; intros a; cbn.
  - reflexivity.
  - unfold stage_out. rewrite call_stage_set_agents.
    split; intros (a1 & Hs & Hr); exists a1; (split; [exact Hs|]);
      apply IH, Hr.
Qed.

(** The stage loops touch nothing but the agents, and every agent goes
    through the stages in order. *)
Lemma run_stages_spec stages model g model' g' :
  StartupModel.run_stages config stages model g = Ok (model', g') ->
  model' = set_agents (agents (schedule model')) model /\
  Forall2 (stages_out config stages model)
          (agents (schedule model)) (agents (schedule model')).
Proof.
  revert model g. induction stages as [|stage rest IH]; intros model g Hrun;
    cbn in Hrun.
  - apply ret_Ok in Hrun. injection Hrun as -> ->. split.
    + destruct model as [[? ? ?] ? ? ? ? ?]. reflexivity.
    + apply Forall2_refl_eq.
  - apply bind_Ok in Hrun as (l1 & g1 & Hloop & Hrun).
    apply for_each_Forall2 in Hloop.
    apply IH in Hrun as [Hworld Hrest]. split.
    + rewrite Hworld at 1. reflexivity.
    + cbn in Hrest.
      eapply Forall2_impl; [eapply Forall2_compose; eassumption|].
      intros a c (b & Hab & Hbc). cbn. exists b. split; [exact Hab|].
      apply (stages_out_set_agents rest l1 model), Hbc.
Qed.

Lemma apply_shocks_spec model g model' g' :
  StartupModel.apply_shocks config model g = Ok (model', g') ->
  Forall2 shock_out (agents (schedule model)) (agents (schedule model')) /\
  steps (schedule model') = steps (schedule model) /\
  initial_startups model' = initial_startups model /\
  model_steps model' = model_steps model /\
  datacollector model' = datacollector model.
Proof.
  unfold StartupModel.apply_shocks, np_random_random, np_random_uniform,
    bind, ret.
  destruct (sample_random g) as [u g1].
  destruct (Qlt_bool u (P_SHOCK config)).
  - destruct (sample_uniform _ _ g1) as [delta_pmf g2].
    destruct (sample_uniform _ _ g2) as [delta_m g3].
    intros [= <- <-]. cbn. repeat split.
    induction (agents (schedule model)) as [|a l IH]; cbn; constructor;
      [right; eexists; reflexivity | exact IH].
  - intros [= <- <-]. repeat split.
    induction (agents (schedule model)) as [|a l IH]; constructor;
      [left; reflexivity | exact IH].
Qed.

Lemma update_market_spec model g model' g' :
  StartupModel.update_market config model g = Ok (model', g') ->
  g' = g /\
  schedule model' = schedule model /\
  market_size model' = (market_size model * (1 + GROWTH_RATE_M config))%Q /\
  initial_startups model' = initial_startups model /\
  model_steps model' = model_steps model /\
  datacollector model' = datacollector model.
Proof.
  unfold StartupModel.update_market, py_int_div, bind, ret, raise. cbn.
  destruct (initial_startups model =? 0)%Z; [discriminate|].
  intros [= <- <-]. repeat split.
Qed.

(** One scheduler step: every agent lives one month while the counter
    holds its old value, then the counter moves on. *)
Lemma schedule_step_spec model g model' g' :
  StartupModel.schedule_step config model g = Ok (model', g') ->
  Forall2 (month_out config (steps (schedule model)))
          (agents (schedule model)) (agents (schedule model')) /\
  steps (schedule model') = (steps (schedule model) + 1)%Z /\
  initial_startups model' = initial_startups model /\
  model_steps model' = model_steps model /\
  datacollector model' = datacollector model.
Proof.
  unfold StartupModel.schedule_step. intros Hrun.
  apply bind_Ok in Hrun as (m1 & g1 & Hshock & Hrun).
  apply bind_Ok in Hrun as (m2 & g2 & Hmarket & Hrun).
  apply bind_Ok in Hrun as (m3 & g3 & Hstages & Hrun).
  apply ret_Ok in Hrun. injection Hrun as -> ->.
  apply apply_shocks_spec in Hshock as (Hs_agents & Hs_steps & Hs_n & Hs_ms & Hs_dc).
  apply update_market_spec in Hmarket as (_ & Hm_sched & _ & Hm_n & Hm_ms & Hm_dc).
  apply run_stages_spec in Hstages as (Hworld & Hagents).
  assert (Hsteps2 : steps (schedule m2) = steps (schedule model))
    by (rewrite Hm_sched; exact Hs_steps).
  rewrite Hworld. cbn. rewrite Hsteps2, Hm_n, Hs_n, Hm_ms, Hs_ms, Hm_dc, Hs_dc.
  repeat split.
  rewrite Hm_sched in Hagents.
  eapply Forall2_impl; [eapply Forall2_compose; eassumption|].
  intros a c (b & Hab & Hbc). exists m2, b. auto.
Qed.

Lemma collect_spec model g model' g' :
  StartupModel.collect model g = Ok (model', g') ->
  g' = g /\
  schedule model' = schedule model /\
  initial_startups model' = initial_startups model /\
  model_steps model' = model_steps model /\
  length (model_vars (datacollector model'))
  = Datatypes.S (length (model_vars (datacollector model))) /\
  agent_records (datacollector model')
  = dict_set (model_steps model)
             (map StartupModel.agent_row (agents (schedule model)))
             (agent_records (datacollector model)).
Proof.
  unfold StartupModel.collect, StartupModel.model_row, py_int_div, bind,
    ret, raise.
  destruct (Z.of_nat (length (agents (schedule model))) =? 0)%Z;
    [discriminate|].
  intros [= <- <-]. cbn. repeat split.
  rewrite length_app. cbn. lia.
Qed.

(** One month of the model. *)
Lemma step_spec model g model' g' :
  StartupModel.step config model g = Ok (model', g') ->
  Forall2 (month_out config (steps (schedule model)))
          (agents (schedule model)) (agents (schedule model')) /\
  steps (schedule model') = (steps (schedule model) + 1)%Z /\
  initial_startups model' = initial_startups model /\
  model_steps model' = (model_steps model + 1)%Z /\
  length (model_vars (datacollector model'))
  = Datatypes.S (length (model_vars (datacollector model))).
Proof.
  unfold StartupModel.step. intros Hrun.
  apply bind_Ok in Hrun as (m1 & g1 & Hcollect & Hrun).
  apply collect_spec in Hcollect as (_ & Hc_sched & Hc_n & Hc_ms & Hc_len & _).
  apply schedule_step_spec in Hrun as (Hagents & Hsteps & Hn & Hms & Hdc).
  rewrite Hc_sched in Hagents, Hsteps. cbn in *.
  rewrite Hdc, Hn, Hms, Hc_n, Hc_ms, Hc_len. auto.
Qed.

(** *** Following one agent through a run *)

Lemma stages_out_inv (P : Agent.t -> Prop) stages model a a' :
  (forall stage x y, P x -> stage_out config stage model x y -> P y) ->
  P a -> stages_out config stages model a a' -> P a'.
Proof.
  intros Hstage. revert a. induction stages as [|stage rest IH];
    intros a Ha Hout; cbn in Hout.
  - subst. exact Ha.
  - destruct Hout as (a1 & Hs & Hr). eapply IH; [|exact Hr].
    eapply Hstage; eassumption.
Qed.

Lemma month_inv (P : Agent.t -> Prop) :
  (forall stage model x y, P x -> stage_out config stage model x y -> P y) ->
  (forall delta x, P x -> P (StartupModel.shock_agent delta x)) ->
  forall s a a', P a -> month_out config s a a' -> P a'.
Proof.
  intros Hstage Hshock s a a' Ha (model & a0 & _ & Hs & Hout).
  eapply stages_out_inv; [intros; eapply Hstage; eassumption| |exact Hout].
  destruct Hs as [->|(delta & ->)]; auto.
Qed.

(** What holds of an agent and survives a month holds of the same agent,
    at the same position, however many months later. *)
Lemma run_agent_inv (P : Agent.t -> Prop) n model g model' g' i a :
  (forall s x y, P x -> month_out config s x y -> P y) ->
  repeat_m n (StartupModel.step config) model g = Ok (model', g') ->
  agents (schedule model) !! i = Some a -> P a ->
  exists a', agents (schedule model') !! i = Some a' /\ P a'.
Proof.
  intros Hmonth. revert model g a. induction n as [|n IH];
    intros model g a Hrun Hi Ha; cbn in Hrun.
  - apply ret_Ok in Hrun. injection Hrun as -> ->. eauto.
  - apply bind_Ok in Hrun as (m1 & g1 & Hstep & Hrun).
    apply step_spec in Hstep as (Hagents & _).
    destruct (Forall2_lookup_l _ _ _ _ _ Hagents Hi) as (a1 & Hi1 & Hm).
    eapply IH; [exact Hrun | exact Hi1 | eapply Hmonth; eassumption].
Qed.

Lemma run_agents_Forall (P : Agent.t -> Prop) n model g model' g' :
  (forall s x y, P x -> month_out config s x y -> P y) ->
  repeat_m n (StartupModel.step config) model g = Ok (model', g') ->
  Forall P (agents (schedule model)) ->
  Forall P (agents (schedule model')).
Proof.
  intros Hmonth. revert model g. induction n as [|n IH];
    intros model g Hrun Hall; cbn in Hrun.
  - apply ret_Ok in Hrun. injection Hrun as -> ->. exact Hall.
  - apply bind_Ok in Hrun as (m1 & g1 & Hstep & Hrun).
    apply step_spec in Hstep as (Hagents & _).
    eapply IH; [exact Hrun|].
    clear -Hagents Hall Hmonth.
    induction Hagents as [|x y l l' Hxy _ IHl]; [constructor|].
    inversion Hall; subst. constructor; [eapply Hmonth; eassumption|auto].
Qed.

(** A month of a dead agent: revenue and stored funding are zeroed,
    nothing else is written. *)
Lemma dead_month s a a' :
  Agent.S a = 0%Z -> month_out config s a a' ->
  a' = Agent.set_funding_received 0 (Agent.set_R 0 a).
Proof.
  intros Hd (model & a0 & _ & Hs & Hout).
  assert (a0 = a) as ->.
  { destruct Hs as [->|(delta & ->)]; [reflexivity|].
    apply shock_agent_dead, Hd. }
  cbn in Hout.
  destruct Hout as (a1 & (g1 & g1' & H1) & a2 & (g2 & g2' & H2) &
                    a3 & (g3 & g3' & H3) & a4 & (g4 & g4' & H4) &
                    a5 & (g5 & g5' & H5) & a6 & (g6 & g6' & H6) & ->).
  rewrite dead_stage in H1 by exact Hd. injection H1 as <- _.
  rewrite dead_stage in H2 by exact Hd. injection H2 as <- _.
  rewrite dead_stage in H3 by exact Hd. injection H3 as <- _.
  rewrite dead_stage in H4 by exact Hd. injection H4 as <- _.
  rewrite dead_stage in H5 by exact Hd. injection H5 as <- _.
  rewrite dead_stage in H6 by exact Hd. injection H6 as <- _.
  reflexivity.
Qed.

End SchedulerLemmas.

(** ** Lemmas on construction *)

Section InitLemmas.
Context `{Numpy} (config : Config).

Lemma agent_init_fresh g a g' :
  StartupAgent.init config g = Ok (a, g') -> fresh config a.
Proof.
  unfold StartupAgent.init, np_random_uniform, np_random_beta, bind, ret.
  destruct (sample_uniform _ _ g) as [K g1].
  destruct (sample_uniform _ _ g1) as [B g2].
  destruct (Qlt_bool 0 (PMF_ALPHA config) && Qlt_bool 0 (PMF_BETA config));
    [|discriminate].
  destruct (sample_beta _ _ g2) as [PMF g3] eqn:Hbeta.
  intros [= <- <-]. unfold fresh. cbn. repeat split.
  exists g2. rewrite Hbeta. reflexivity.
Qed.

Lemma add_agents_spec n l g l' g' :
  repeat_m n (StartupModel.add_agent config) l g = Ok (l', g') ->
  length l' = (length l + n)%nat /\ (Forall (fresh config) l -> Forall (fresh config) l').
Proof.
  revert l g. induction n as [|n IH]; intros l g Hrun; cbn in Hrun.
  - apply ret_Ok in Hrun. injection Hrun as -> ->. split; [lia|auto].
  - apply bind_Ok in Hrun as (l1 & g1 & Hadd & Hrun).
    unfold StartupModel.add_agent in Hadd.
    apply bind_Ok in Hadd as (a & g2 & Hinit & Hadd).
    apply ret_Ok in Hadd. injection Hadd as -> ->.
    apply agent_init_fresh in Hinit.
    apply IH in Hrun as [Hlen Hall]. split.
    + rewrite Hlen, length_app. cbn. lia.
    + intros Hl. apply Hall. apply Forall_app. split; [exact Hl|].
      constructor; [exact Hinit|constructor].
Qed.

Lemma init_spec num_startups seed g model g' :
  StartupModel.init config num_startups seed g = Ok (model, g') ->
  steps (schedule model) = 0%Z /\
  model_steps model = 0%Z /\
  initial_startups model = num_startups /\
  model_vars (datacollector model) = [] /\
  length (agents (schedule model)) = Z.to_nat num_startups /\
  Forall (fresh config) (agents (schedule model)).
Proof.
  unfold StartupModel.init. intros Hrun.
  apply bind_Ok in Hrun as ([] & g1 & _ & Hrun).
  apply bind_Ok in Hrun as (l & g2 & Hadd & Hrun).
  apply ret_Ok in Hrun. injection Hrun as -> ->. cbn.
  apply add_agents_spec in Hadd as [Hlen Hall]. cbn in Hlen.
  repeat split; [exact Hlen | apply Hall; constructor].
Qed.

Lemma month_state_later num_startups seed t d g mu gu :
  month_state config num_startups seed (t + d) g = Ok (mu, gu) ->
  exists mt gt,
    month_state config num_startups seed t g = Ok (mt, gt) /\
    repeat_m d (StartupModel.step config) mt gt = Ok (mu, gu).
Proof.
  unfold month_state. intros Hrun.
  apply bind_Ok in Hrun as (m0 & g0 & Hinit & Hrun).
  rewrite repeat_m_add in Hrun.
  apply bind_Ok in Hrun as (mt & gt & Ht & Hd).
  exists mt, gt. split; [|exact Hd].
  apply bind_Ok. eauto.
Qed.

Lemma month_state_invariant (P : Agent.t -> Prop) num_startups seed t g
    model g' :
  (forall a, fresh config a -> P a) ->
  (forall s x y, P x -> month_out config s x y -> P y) ->
  month_state config num_startups seed t g = Ok (model, g') ->
  Forall P (agents (schedule model)).
Proof.
  intros Hfresh Hmonth Hrun. unfold month_state in Hrun.
  apply bind_Ok in Hrun as (m0 & g0 & Hinit & Hrun).
  apply init_spec in Hinit as (_ & _ & _ & _ & _ & Hall).
  eapply run_agents_Forall; [exact Hmonth | exact Hrun |].
  eapply Forall_impl; [exact Hall | exact Hfresh].
Qed.

End InitLemmas.

(** ** Lemmas on termination without exception *)

Lemma dict_get_set {A} (k : Z) (v : A) (d : list (Z * A)) :
  dict_get k (dict_set k v d) = Some v.
Proof.
  induction d as [|[k' v'] d IH]; cbn.
  - rewrite Z.eqb_refl. reflexivity.
  - destruct (k' =? k)%Z eqn:E; cbn.
    + rewrite Z.eqb_refl. reflexivity.
    + rewrite E. exact IH.
Qed.

Section Totality.
Context `{Numpy} (config : Config).
Hypothesis Hruns : config_runs config.

Lemma stage_total stage model a g :
  exists a' g', StartupModel.call_stage config stage model a g = Ok (a', g').
Proof using Hruns.
  destruct Hruns as [Hfi Hpi Hsr Hsp _ _].
  apply Z.eqb_neq in Hfi, Hpi. apply Qlt_bool_false in Hsr, Hsp.
  destruct stage; unfold_stages; rewrite ?Hfi, ?Hpi, ?Hsr, ?Hsp;
    repeat match goal with
           | |- context [if ?b then _ else _] => destruct b
           | |- context [match ?p with (_, _) => _ end] => destruct p
           end; eauto.
Qed.

Lemma run_stages_total stages model g :
  exists model' g',
    StartupModel.run_stages config stages model g = Ok (model', g').
Proof using Hruns.
  revert model g. induction stages as [|stage rest IH]; intros model g; cbn.
  - eexists _, _. reflexivity.
  - destruct (for_each_total (StartupModel.call_stage config stage model)
                (agents (schedule model)) g) as (l & g1 & Hloop).
    { intros. apply stage_total. }
    destruct (IH (set_agents l model) g1) as (m' & g' & Hrest).
    exists m', g'. unfold bind. rewrite Hloop. exact Hrest.
Qed.

Lemma apply_shocks_total model g :
  exists model' g', StartupModel.apply_shocks config model g = Ok (model', g').
Proof.
  unfold StartupModel.apply_shocks, np_random_random, np_random_uniform,
    bind, ret.
  destruct (sample_random g) as [u g1].
  destruct (Qlt_bool u (P_SHOCK config)); [|eauto].
  destruct (sample_uniform _ _ g1) as [delta_pmf g2].
  destruct (sample_uniform _ _ g2) as [delta_m g3]. eauto.
Qed.

Lemma schedule_step_total model g :
  initial_startups model <> 0%Z ->
  exists model' g',
    StartupModel.schedule_step config model g = Ok (model', g').
Proof using Hruns.
  intros Hn. unfold StartupModel.schedule_step.
  destruct (apply_shocks_total model g) as (m1 & g1 & Hshock).
  pose proof (apply_shocks_spec _ _ _ _ _ Hshock) as (_ & _ & Hn1 & _).
  assert (Hmarket : exists m2,
             StartupModel.update_market config m1 g1 = Ok (m2, g1)).
  { unfold StartupModel.update_market, py_int_div, bind, ret, raise. cbn.
    rewrite Hn1. apply Z.eqb_neq in Hn. rewrite Hn. eauto. }
  destruct Hmarket as (m2 & Hmarket).
  destruct (run_stages_total (drop 2 stage_list) m2 g1) as (m3 & g3 & Hst).
  unfold bind. rewrite Hshock, Hmarket, Hst. eauto.
Qed.

Lemma collect_total model g :
  agents (schedule model) <> [] ->
  exists model', StartupModel.collect model g = Ok (model', g).
Proof.
  intros Hne.
  unfold StartupModel.collect, StartupModel.model_row, py_int_div, bind,
    ret, raise.
  destruct (Z.of_nat (length (agents (schedule model))) =? 0)%Z eqn:E;
    [|eauto].
  apply Z.eqb_eq in E. destruct (agents (schedule model));
    [congruence | cbn in E; lia].
Qed.

Lemma step_populated n model g model' g' :
  populated n model ->
  StartupModel.step config model g = Ok (model', g') ->
  populated n model'.
Proof.
  intros [Hn Hlen] Hstep.
  apply step_spec in Hstep as (Hagents & _ & Hn' & _).
  apply Forall2_length in Hagents. split; congruence.
Qed.

Lemma populated_nonempty n model :
  (0 < n)%Z -> populated n model ->
  initial_startups model <> 0%Z /\ agents (schedule model) <> [].
Proof.
  intros Hpos [Hn Hlen]. split; [lia|].
  intros Hnil. rewrite Hnil in Hlen. cbn in Hlen. lia.
Qed.

Lemma step_total n model g :
  (0 < n)%Z -> populated n model ->
  exists model' g', StartupModel.step config model g = Ok (model', g').
Proof using Hruns.
  intros Hpos Hpop.
  destruct (populated_nonempty _ _ Hpos Hpop) as [Hn Hne].
  unfold StartupModel.step.
  destruct (collect_total (set_model_steps (model_steps model + 1) model) g)
    as (m1 & Hcollect); [exact Hne|].
  pose proof (collect_spec _ _ _ _ Hcollect) as (_ & _ & Hn1 & _).
  destruct (schedule_step_total m1 g) as (m2 & g2 & Hsched).
  { rewrite Hn1. exact Hn. }
  exists m2, g2. unfold bind. rewrite Hcollect. exact Hsched.
Qed.

Lemma steps_total n k model g :
  (0 < n)%Z -> populated n model ->
  exists model' g',
    repeat_m k (StartupModel.step config) model g = Ok (model', g').
Proof using Hruns.
  intros Hpos. revert model g. induction k as [|k IH]; intros model g Hpop;
    cbn.
  - eexists _, _. reflexivity.
  - destruct (step_total n model g Hpos Hpop) as (m1 & g1 & Hstep).
    destruct (IH m1 g1) as (m2 & g2 & Hrest).
    { eapply step_populated; eassumption. }
    exists m2, g2. unfold bind. rewrite Hstep. exact Hrest.
Qed.

(** The loop of [run_model]: what [k] months add up to. *)
Lemma steps_spec n k model g model' g' :
  populated n model ->
  repeat_m k (StartupModel.step config) model g = Ok (model', g') ->
  populated n model' /\
  steps (schedule model') = (steps (schedule model) + Z.of_nat k)%Z /\
  length (model_vars (datacollector model'))
  = (length (model_vars (datacollector model)) + k)%nat.
Proof.
  revert model g. induction k as [|k IH]; intros model g Hpop Hrun;
    cbn [repeat_m] in Hrun.
  - apply ret_Ok in Hrun. injection Hrun as -> ->.
    repeat split; try apply Hpop; lia.
  - apply bind_Ok in Hrun as (m1 & g1 & Hstep & Hrun).
    pose proof (step_populated _ _ _ _ _ Hpop Hstep) as Hpop1.
    apply step_spec in Hstep as (_ & Hsteps & _ & _ & Hlen).
    destruct (IH _ _ Hpop1 Hrun) as (Hpop' & Hsteps' & Hlen').
    repeat split; try apply Hpop'; lia.
Qed.

Lemma agent_init_total g :
  exists a g', StartupAgent.init config g = Ok (a, g').
Proof using Hruns.
  destruct Hruns as [_ _ _ _ Ha Hb].
  apply Qlt_bool_true in Ha, Hb.
  unfold StartupAgent.init, np_random_uniform, np_random_beta, bind, ret.
  destruct (sample_uniform _ _ g) as [K g1].
  destruct (sample_uniform _ _ g1) as [B g2].
  rewrite Ha, Hb. cbn.
  destruct (sample_beta _ _ g2) as [PMF g3]. eauto.
Qed.

Lemma add_agents_total k l g :
  exists l' g',
    repeat_m k (StartupModel.add_agent config) l g = Ok (l', g').
Proof using Hruns.
  revert l g. induction k as [|k IH]; intros l g; cbn.
  - eexists _, _. reflexivity.
  - destruct (agent_init_total g) as (a & g1 & Hinit).
    destruct (IH (l ++ [a]) g1) as (l' & g' & Hrest).
    exists l', g'. unfold StartupModel.add_agent, bind, ret.
    rewrite Hinit. exact Hrest.
Qed.

Lemma init_total num_startups seed g :
  seed_accepted seed ->
  exists model g',
    StartupModel.init config num_startups seed g = Ok (model, g').
Proof using Hruns.
  intros Hseed. unfold StartupModel.init.
  assert (Hs : exists g0,
             (match seed with
              | Some s => np_random_seed s
              | None => ret tt
              end) g = Ok (tt, g0)).
  { destruct seed as [s|]; cbn; [|eauto].
    unfold np_random_seed. cbn in Hseed.
    destruct (seed_state s); [eauto|congruence]. }
  destruct Hs as (g0 & Hs).
  destruct (add_agents_total (Z.to_nat num_startups) [] g0)
    as (l & g1 & Hadd).
  unfold bind. rewrite Hs, Hadd. eexists _, _. reflexivity.
Qed.

End Totality.

(** * The claims *)

Section Claims.
Context `{Numpy} (config : Config).

(** C1.  Monotonic death: an agent that is dead in the state after [t]
    months of a run is dead in the state after [u] months for every
    [u > t], and there its revenue [R] and its capital [K] are 0. *)
Theorem C1_monotonic_death
    (num_startups : Z) (seed : option Z) (g : rng) (t u : nat)
    (mt mu : Model) (gt gu : rng) (i : nat) (a : Agent.t) :
  month_state config num_startups seed t g = Ok (mt, gt) ->
  month_state config num_startups seed u g = Ok (mu, gu) ->
  (t < u)%nat ->
  agents (schedule mt) !! i = Some a ->
  Agent.S a = 0%Z ->
  exists a',
    agents (schedule mu) !! i = Some a' /\
    Agent.S a' = 0%Z /\ Agent.R a' = 0%Q /\ Agent.K a' = 0%Q.
Proof.
  intros Ht Hu Hlt Hi Hdead.
  replace u with (t + (1 + (u - t - 1)))%nat in Hu by lia.
  apply month_state_later in Hu as (mt' & gt' & Ht' & Hrest).
  rewrite Ht in Ht'. injection Ht' as <- <-.
  assert (Hcap : dead_has_no_capital a).
  { assert (Hall : Forall dead_has_no_capital (agents (schedule mt))).
    { eapply month_state_invariant; [| |exact Ht].
      - intros x (HS & _) Hx. rewrite HS in Hx. discriminate.
      - apply month_inv.
        + intros; eapply stage_dead_has_no_capital; eassumption.
        + intros delta x Hx. unfold dead_has_no_capital.
          rewrite shock_agent_S. intros Hd.
          rewrite shock_agent_dead by exact Hd. auto. }
    rewrite Forall_lookup in Hall. exact (Hall i a Hi). }
  rewrite repeat_m_add in Hrest.
  apply bind_Ok in Hrest as (m1 & g1 & Hfirst & Hrest).
  cbn in Hfirst. apply bind_Ok in Hfirst as (m1' & g1' & Hstep & Hret).
  apply ret_Ok in Hret. injection Hret as -> ->.
  apply step_spec in Hstep as (Hagents & _).
  destruct (Forall2_lookup_l _ _ _ _ _ Hagents Hi) as (a1 & Hi1 & Hm).
  apply dead_month in Hm; [|exact Hdead].
  pose (P := fun x : Agent.t =>
               Agent.S x = 0%Z /\ Agent.R x = 0%Q /\ Agent.K x = 0%Q).
  assert (Hend : exists a', agents (schedule mu) !! i = Some a' /\ P a').
  { eapply (run_agent_inv config P); [| exact Hrest | exact Hi1 |].
    - intros s x y (HS & HR & HK) Hxy.
      apply dead_month in Hxy; [|exact HS]. subst y. unfold P. cbn. auto.
    - subst a1. unfold P. cbn. auto. }
  destruct Hend as (a' & Hi' & HP). eauto.
Qed.

(** C10.  Frozen after death: for an agent that is dead in the state after
    [t] months, the fields PMF, V, B and runway (and the recorded death
    time) hold the same values in the state after [u] months for every
    [u >= t]; the valuation keeps its last value and is not zeroed.  The
    shock leaves the dead agent as it is, and the internal-dynamics,
    PMF/valuation and policy stages return it unchanged without a
    draw. *)
Theorem C10_dead_agent_is_frozen
    (num_startups : Z) (seed : option Z) (g : rng) (t u : nat)
    (mt mu : Model) (gt gu : rng) (i : nat) (a : Agent.t) :
  month_state config num_startups seed t g = Ok (mt, gt) ->
  month_state config num_startups seed u g = Ok (mu, gu) ->
  (t <= u)%nat ->
  agents (schedule mt) !! i = Some a ->
  Agent.S a = 0%Z ->
  exists a',
    agents (schedule mu) !! i = Some a' /\
    Agent.PMF a' = Agent.PMF a /\ Agent.V a' = Agent.V a /\
    Agent.B a' = Agent.B a /\ Agent.runway a' = Agent.runway a /\
    Agent.death_time a' = Agent.death_time a /\
    (forall delta, StartupModel.shock_agent delta a = a) /\
    (forall model ga,
       StartupAgent.stage_internal_dynamics config a ga = Ok (a, ga) /\
       StartupAgent.stage_pmf_valuation_update config a ga = Ok (a, ga) /\
       StartupAgent.stage_policy config model a ga = Ok (a, ga)).
Proof.
  intros Ht Hu Hle Hi Hdead.
  assert (Hstages :
            (forall delta, StartupModel.shock_agent delta a = a) /\
            (forall model ga,
               StartupAgent.stage_internal_dynamics config a ga
               = Ok (a, ga) /\
               StartupAgent.stage_pmf_valuation_update config a ga
               = Ok (a, ga) /\
               StartupAgent.stage_policy config model a ga = Ok (a, ga))).
  { split; [intros; apply shock_agent_dead, Hdead|].
    intros model ga. repeat split.
    - exact (dead_stage config Stage_internal_dynamics model a ga Hdead).
    - exact (dead_stage config Stage_pmf_valuation_update model a ga Hdead).
    - exact (dead_stage config Stage_policy model a ga Hdead). }
  replace u with (t + (u - t))%nat in Hu by lia.
  apply month_state_later in Hu as (mt' & gt' & Ht' & Hrest).
  rewrite Ht in Ht'. injection Ht' as <- <-.
  pose (P := fun x : Agent.t =>
               Agent.S x = 0%Z /\
               Agent.PMF x = Agent.PMF a /\ Agent.V x = Agent.V a /\
               Agent.B x = Agent.B a /\ Agent.runway x = Agent.runway a /\
               Agent.death_time x = Agent.death_time a).
  assert (Hend : exists a', agents (schedule mu) !! i = Some a' /\ P a').
  { eapply (run_agent_inv config P); [| exact Hrest | exact Hi |].
    - intros s x y (HS & HP) Hxy.
      apply dead_month in Hxy; [|exact HS]. subst y. unfold P. cbn.
      split; [exact HS | exact HP].
    - unfold P. auto 10. }
  destruct Hend as (a' & Hi' & _ & HPMF & HV & HB & Hrw & Hdt).
  destruct Hstages as [Hshock Hquiet].
  exists a'. repeat (split; [assumption|]). exact Hquiet.
Qed.

(** C2.  PMF bound: a freshly constructed agent has its PMF in [[0, 1]]
    (the Beta draw), every agent of the state after any number of months
    has, and no stage call nor shock takes an agent out of the bound: the
    two that write PMF, the shock on an alive agent and the PMF update of
    a live agent, clip into [[0, 1]] whatever the value was. *)
Theorem C2_pmf_bound
    (num_startups : Z) (seed : option Z) (g : rng) (t : nat)
    (model : Model) (g' : rng) :
  beta_in_unit_interval ->
  month_state config num_startups seed t g = Ok (model, g') ->
  Forall pmf_bounded (agents (schedule model)) /\
  (forall stage m a ga a' ga',
      pmf_bounded a ->
      StartupModel.call_stage config stage m a ga = Ok (a', ga') ->
      pmf_bounded a') /\
  (forall delta a,
      pmf_bounded a -> pmf_bounded (StartupModel.shock_agent delta a)) /\
  (forall delta a,
      Agent.S a = 1%Z -> pmf_bounded (StartupModel.shock_agent delta a)) /\
  (forall a ga a' ga',
      Agent.S a <> 0%Z ->
      StartupAgent.stage_pmf_valuation_update config a ga = Ok (a', ga') ->
      pmf_bounded a').
Proof.
  intros Hbeta Hrun. split; [|split; [|split; [|split]]].
  - eapply month_state_invariant; [| |exact Hrun].
    + intros a (_ & _ & _ & _ & gb & HPMF). unfold pmf_bounded.
      rewrite HPMF. apply Hbeta.
    + apply month_inv.
      * intros; eapply stage_pmf_bounded; eassumption.
      * intros; apply shock_agent_pmf_bounded; assumption.
  - intros stage m a ga a' ga' Ha Hcall.
    eapply stage_pmf_bounded; [exact Ha|]. exists ga, ga'. exact Hcall.
  - intros; apply shock_agent_pmf_bounded; assumption.
  - intros; apply shock_alive_bounded; assumption.
  - intros a ga a' ga' Hl Hcall. eapply pmf_update_bounded; eassumption.
Qed.

(** C3 (as amended).  For a population of at least one agent, a horizon
    [H >= 0], a configuration no stage raises on and a seed NumPy accepts,
    constructing the model and running it to the horizon completes; the
    per-month series then has [H + 1] rows, one collected before each
    month and one after the last, and the final state has one agent row
    per agent. *)
Theorem C3_series_lengths
    (num_startups horizon : Z) (seed : option Z) (g : rng) :
  config_runs config ->
  seed_accepted seed ->
  (0 < num_startups)%Z ->
  (0 <= horizon)%Z ->
  exists model g',
    StartupModel.simulate config num_startups seed horizon g
    = Ok (model, g') /\
    Z.of_nat (length (StartupModel.get_model_data model))
    = (horizon + 1)%Z /\
    Z.of_nat (length (StartupModel.final_agent_records model))
    = num_startups.
Proof.
  intros Hruns Hseed Hpos Hh.
  destruct (init_total config Hruns num_startups seed g Hseed)
    as (m0 & g0 & Hinit).
  pose proof (init_spec _ _ _ _ _ _ Hinit)
    as (_ & _ & Hn & Hvars & Hlen & _).
  assert (Hpop : populated num_startups m0) by (split; assumption).
  destruct (steps_total config Hruns num_startups (Z.to_nat horizon) m0 g0
              Hpos Hpop) as (m1 & g1 & Hloop).
  destruct (steps_spec config _ _ _ _ _ _ Hpop Hloop)
    as (Hpop1 & _ & Hlen1).
  destruct (populated_nonempty _ _ Hpos Hpop1) as [_ Hne].
  destruct (collect_total m1 g1 Hne) as (m2 & Hcollect).
  exists m2, g1. split.
  - unfold StartupModel.simulate, StartupModel.run_model, bind.
    rewrite Hinit. rewrite Hloop. exact Hcollect.
  - apply collect_spec in Hcollect
      as (_ & Hsched & _ & Hms & Hrows & Hrecords).
    unfold StartupModel.get_model_data, StartupModel.final_agent_records,
      StartupModel.get_agent_data.
    rewrite Hrows, Hlen1, Hvars, Hrecords, Hms, dict_get_set. cbn.
    rewrite length_map. destruct Hpop1 as [_ ->]. split; lia.
Qed.

(** C4.  Determinism: a run constructed with seed [s] does not depend on
    the state the global generator was in before; two runs with the same
    seed, population, horizon and configuration return the same result,
    with the same final agents, the same per-month rows and the same
    final generator state, and so do their states after any number of
    months. *)
Theorem C4_determinism
    (num_startups horizon : Z) (s : Z) (g1 g2 : rng) :
  StartupModel.simulate config num_startups (Some s) horizon g1
  = StartupModel.simulate config num_startups (Some s) horizon g2 /\
  forall t,
    month_state config num_startups (Some s) t g1
    = month_state config num_startups (Some s) t g2.
Proof.
  split; [|intros t];
    unfold StartupModel.simulate, month_state, StartupModel.init, bind,
      np_random_seed;
    destruct (seed_state s); reflexivity.
Qed.

(** C5.  Capital update of a live agent: [K] becomes [K + R - B + F] and
    the stored funding is reset to 0, without drawing or raising; if the
    new [K] is [<= 0] then [K] is 0, [S] is 0 and the death time is the
    scheduler's current step count, otherwise [S] and the death time are
    as before.  Once dead, the capital update is the identity, so the
    death time is written once; and no other stage nor the shock writes
    [S]. *)
Theorem C5_capital_update_and_death
    (model : Model) (a : Agent.t) (g : rng) :
  Agent.S a <> 0%Z ->
  let k := (Agent.K a + Agent.R a - Agent.B a + Agent.funding_received a)%Q in
  (exists a',
     StartupAgent.stage_capital_update model a g = Ok (a', g) /\
     Agent.funding_received a' = 0%Q /\
     ((k <= 0)%Q ->
        Agent.K a' = 0%Q /\ Agent.S a' = 0%Z /\
        Agent.death_time a' = Some (steps (schedule model))) /\
     (~ (k <= 0)%Q ->
        Agent.K a' = k /\ Agent.S a' = Agent.S a /\
        Agent.death_time a' = Agent.death_time a) /\
     (Agent.S a' = 0%Z ->
        forall model' g',
          StartupAgent.stage_capital_update model' a' g' = Ok (a', g'))) /\
  (forall stage model' x gx y gy,
     stage <> Stage_capital_update ->
     StartupModel.call_stage config stage model' x gx = Ok (y, gy) ->
     Agent.S y = Agent.S x) /\
  (forall delta x, Agent.S (StartupModel.shock_agent delta x) = Agent.S x).
Proof.
  intros Hlive k. split; [|split].
  - destruct (capital_update_live model a g Hlive)
      as (a' & Hrun & Hfr & _ & _ & _ & _ & _ & Hle & Hgt).
    exists a'. split; [exact Hrun|]. split; [exact Hfr|].
    split; [|split; [exact Hgt|]].
    + intros Hk. destruct (Hle Hk) as (HK & HS & Hdt & _). auto.
    + intros Hdead model' g'.
      unfold StartupAgent.stage_capital_update, ret.
      rewrite Hdead. reflexivity.
  - intros stage model' x gx y gy Hne Hcall.
    eapply stage_preserves_S; eassumption.
  - intros. apply shock_agent_S.
Qed.

(** C6, as amended by the proviso on the threshold.  When the
    revenue/burn threshold [ALPHA_REVENUE_BURN] is positive, which the 0.3
    of [config.py] is, a live agent whose burn rate is 0 gets the ratio 0,
    is not eligible whatever its PMF, and leaves the investor logic with
    [funding_received] set to 0 and nothing else written, without a draw
    and without an exception; so does the funding stage.  The ratio is 0
    under every configuration; the ineligibility needs the proviso, since
    the test is [ratio >= ALPHA_REVENUE_BURN]. *)
Theorem C6_zero_burn_is_ineligible
    (model : Model) (a : Agent.t) (g : rng) :
  (0 < ALPHA_REVENUE_BURN config)%Q ->
  Agent.S a <> 0%Z ->
  (Agent.B a == 0)%Q ->
  StartupAgent.revenue_burn_ratio a = 0%Q /\
  StartupAgent.is_eligible config a = false /\
  StartupAgent.investor_logic config model a g
  = Ok (Agent.set_funding_received 0 a, g) /\
  (FUNDING_INTERVAL config <> 0%Z ->
   StartupAgent.stage_funding config model a g
   = Ok (Agent.set_funding_received 0 a, g)).
Proof.
  intros Halpha Hlive HB.
  assert (Hratio : StartupAgent.revenue_burn_ratio a = 0%Q).
  { unfold StartupAgent.revenue_burn_ratio.
    destruct (Qlt_bool 0 (Agent.B a)) eqn:E; [|reflexivity].
    apply Qlt_bool_true in E. rewrite HB in E.
    exfalso. exact (Qlt_irrefl _ E). }
  assert (Helig : StartupAgent.is_eligible config a = false).
  { unfold StartupAgent.is_eligible. rewrite Hratio.
    apply andb_false_iff. left. apply Qle_bool_false.
    apply Qlt_not_le, Halpha. }
  assert (Hlogic : StartupAgent.investor_logic config model a g
                   = Ok (Agent.set_funding_received 0 a, g)).
  { unfold StartupAgent.investor_logic. rewrite Helig. reflexivity. }
  repeat split; try assumption.
  intros Hfi. apply Z.eqb_neq in Hlive, Hfi.
  unfold StartupAgent.stage_funding, py_mod, bind, ret.
  rewrite Hlive, Hfi.
  destruct (negb _); [reflexivity | exact Hlogic].
Qed.

(** C7.  Cadence: in a month whose step count is not a multiple of the
    funding interval, the funding stage sets [funding_received] to 0 and
    does nothing else (no eligibility test, no draw, no flag); in a month
    whose step count is not a multiple of the policy interval, the policy
    stage leaves the agent, and so its burn rate, as it was. *)
Theorem C7_cadence (model : Model) (a : Agent.t) (g : rng) :
  FUNDING_INTERVAL config <> 0%Z ->
  POLICY_INTERVAL config <> 0%Z ->
  ((steps (schedule model) mod FUNDING_INTERVAL config <> 0)%Z ->
   StartupAgent.stage_funding config model a g
   = Ok (Agent.set_funding_received 0 a, g)) /\
  ((steps (schedule model) mod POLICY_INTERVAL config <> 0)%Z ->
   StartupAgent.stage_policy config model a g = Ok (a, g)).
Proof.
  intros Hfi Hpi. apply Z.eqb_neq in Hfi, Hpi.
  split; intros Hmod; apply Z.eqb_neq in Hmod.
  - unfold StartupAgent.stage_funding, py_mod, bind, ret.
    rewrite Hfi, Hmod. destruct (Agent.S a =? 0)%Z; reflexivity.
  - unfold StartupAgent.stage_policy, py_mod, bind, ret.
    rewrite Hpi, Hmod. destruct (Agent.S a =? 0)%Z; reflexivity.
Qed.

(** C8.  The shock stage makes one [random()] draw.  If the draw is not
    below the shock probability, nothing changes.  If it is, exactly two
    more draws follow, [delta_pmf] then [delta_m], whatever the number of
    agents: every agent with [S = 1] gets PMF
    [clip(PMF + delta_pmf, 0, 1)] with that one [delta_pmf], every other
    agent is left as it is, and the market size becomes
    [max(0, M * (1 + delta_m))].  Within a scheduler step the growth
    [M * (1 + g_m)] is applied to the market size the shock stage
    left. *)
Theorem C8_shock_stage (model : Model) (g g1 : rng) (u : Q) :
  sample_random g = (u, g1) ->
  (Qlt_bool u (P_SHOCK config) = false ->
   StartupModel.apply_shocks config model g = Ok (model, g1)) /\
  (Qlt_bool u (P_SHOCK config) = true ->
   forall delta_pmf g2 delta_m g3,
     sample_uniform (DELTA_PMF_SHOCK_MIN config)
                    (DELTA_PMF_SHOCK_MAX config) g1 = (delta_pmf, g2) ->
     sample_uniform (DELTA_M_SHOCK_MIN config)
                    (DELTA_M_SHOCK_MAX config) g2 = (delta_m, g3) ->
     exists model',
       StartupModel.apply_shocks config model g = Ok (model', g3) /\
       market_size model'
       = py_max 0 (market_size model * (1 + delta_m))%Q /\
       length (agents (schedule model'))
       = length (agents (schedule model)) /\
       forall i a,
         agents (schedule model) !! i = Some a ->
         (Agent.S a = 1%Z ->
          exists a',
            agents (schedule model') !! i = Some a' /\
            a' = Agent.set_PMF
                   (np_clip (Agent.PMF a + delta_pmf) 0 1) a /\
            (0 <= Agent.PMF a' <= 1)%Q) /\
         (Agent.S a <> 1%Z ->
          agents (schedule model') !! i = Some a)) /\
  (forall m1 g1' model' g',
     StartupModel.apply_shocks config model g = Ok (m1, g1') ->
     StartupModel.schedule_step config model g = Ok (model', g') ->
     market_size model'
     = (market_size m1 * (1 + GROWTH_RATE_M config))%Q).
Proof.
  intros Hu. split; [|split].
  - intros Hno.
    unfold StartupModel.apply_shocks, np_random_random, bind, ret.
    rewrite Hu, Hno. reflexivity.
  - intros Hyes delta_pmf g2 delta_m g3 Hp Hm.
    eexists. split.
    { unfold StartupModel.apply_shocks, np_random_random,
        np_random_uniform, bind, ret.
      rewrite Hu, Hyes, Hp, Hm. reflexivity. }
    cbn. split; [reflexivity|]. split; [apply length_map|].
    intros i a Hi. split.
    + intros Halive. eexists. split.
      * rewrite list_lookup_fmap, Hi. reflexivity.
      * unfold StartupModel.shock_agent. rewrite Halive. cbn.
        split; [reflexivity | apply np_clip_unit].
    + intros Hnot. rewrite list_lookup_fmap, Hi. cbn. f_equal.
      unfold StartupModel.shock_agent. apply Z.eqb_neq in Hnot.
      rewrite Hnot. reflexivity.
  - intros m1 g1' model' g' Hshock Hstep.
    unfold StartupModel.schedule_step in Hstep.
    apply bind_Ok in Hstep as (m1' & g1'' & Hshock' & Hstep).
    rewrite Hshock in Hshock'. injection Hshock' as <- <-.
    apply bind_Ok in Hstep as (m2 & g2 & Hmarket & Hstep).
    apply bind_Ok in Hstep as (m3 & g3 & Hstages & Hstep).
    apply ret_Ok in Hstep. injection Hstep as -> ->.
    apply update_market_spec in Hmarket as (_ & _ & HM & _).
    apply run_stages_spec in Hstages as (Hworld & _).
    rewrite Hworld. cbn. exact HM.
Qed.


End Claims.

(** * The claims on concrete runs

    The generator of [Lcg] and three startups constructed with seed 42.
    With the high initial burn the third startup dies in the first
    month. *)

Section Runs.
Import Lcg.
Local Open Scope Z_scope.

Lemma default_config_runs : config_runs default_config.
Proof. constructor; cbn; solve [discriminate | reflexivity]. Qed.

Lemma lcg_beta_in_unit_interval : beta_in_unit_interval (H:=numpy).
Proof. intros a b g. cbn. apply np_clip_unit. Qed.

(** The third startup is dead after the first month; two months later it
    is dead with no revenue and no capital. *)
Lemma C1_monotonic_death_witness :
  exists mt gt mu gu a,
    month_state (H:=numpy) config_high_burn 3 (Some 42) 1 0 = Ok (mt, gt) /\
    month_state (H:=numpy) config_high_burn 3 (Some 42) 3 0 = Ok (mu, gu) /\
    agents (schedule mt) !! 2%nat = Some a /\
    Agent.S a = 0 /\
    exists a',
      agents (schedule mu) !! 2%nat = Some a' /\
      Agent.S a' = 0 /\ Agent.R a' = 0%Q /\ Agent.K a' = 0%Q.
Proof.
  eexists _, _, _, _, _.
  split; [vm_compute; reflexivity|].
  split; [vm_compute; reflexivity|].
  split; [vm_compute; reflexivity|].
  split; [reflexivity|].
  eapply (C1_monotonic_death (H:=numpy) config_high_burn 3 (Some 42) 0
            1%nat 3%nat).
  - vm_compute; reflexivity.
  - vm_compute; reflexivity.
  - lia.
  - vm_compute; reflexivity.
  - reflexivity.
Defined.

(** The same startup keeps its PMF, valuation, burn rate, runway and
    death time. *)
Lemma C10_dead_agent_is_frozen_witness :
  exists mt gt mu gu a,
    month_state (H:=numpy) config_high_burn 3 (Some 42) 1 0 = Ok (mt, gt) /\
    month_state (H:=numpy) config_high_burn 3 (Some 42) 3 0 = Ok (mu, gu) /\
    agents (schedule mt) !! 2%nat = Some a /\
    Agent.S a = 0 /\
    exists a',
      agents (schedule mu) !! 2%nat = Some a' /\
      Agent.PMF a' = Agent.PMF a /\ Agent.V a' = Agent.V a /\
      Agent.B a' = Agent.B a /\ Agent.runway a' = Agent.runway a /\
      Agent.death_time a' = Agent.death_time a.
Proof.
  eexists _, _, _, _, _.
  split; [vm_compute; reflexivity|].
  split; [vm_compute; reflexivity|].
  split; [vm_compute; reflexivity|].
  split; [reflexivity|].
  edestruct (C10_dead_agent_is_frozen (H:=numpy) config_high_burn 3
               (Some 42) 0 1%nat 3%nat) with (i := 2%nat)
    as (a' & Hi & HPMF & HV & HB & Hrw & Hdt & _).
  - vm_compute; reflexivity.
  - vm_compute; reflexivity.
  - lia.
  - vm_compute; reflexivity.
  - reflexivity.
  - exists a'. auto 10.
Defined.

(** After two months every PMF is in the unit interval. *)
Lemma C2_pmf_bound_witness :
  exists model g',
    month_state (H:=numpy) config_high_burn 3 (Some 42) 2 0
    = Ok (model, g') /\
    Forall pmf_bounded (agents (schedule model)).
Proof.
  eexists _, _. split; [vm_compute; reflexivity|].
  eapply (C2_pmf_bound (H:=numpy) config_high_burn 3 (Some 42) 0 2%nat).
  - exact lcg_beta_in_unit_interval.
  - vm_compute; reflexivity.
Defined.

(** The per-month series of a run is one row longer than its horizon:
    three months give four rows. *)
Lemma C3_series_longer_than_horizon :
  exists model g',
    StartupModel.simulate (H:=numpy) default_config 2 (Some 42) 3 0
    = Ok (model, g') /\
    length (StartupModel.get_model_data model) = 4%nat /\
    length (StartupModel.get_model_data model) <> 3%nat.
Proof.
  eexists _, _. split; [vm_compute; reflexivity|].
  split; [reflexivity | discriminate].
Qed.

(** Two startups and three months: the run completes with four rows in
    the series and two final agent rows. *)
Lemma C3_series_lengths_witness :
  exists model g',
    StartupModel.simulate (H:=numpy) default_config 2 (Some 42) 3 0
    = Ok (model, g') /\
    Z.of_nat (length (StartupModel.get_model_data model)) = 3 + 1 /\
    Z.of_nat (length (StartupModel.final_agent_records model)) = 2.
Proof.
  apply (C3_series_lengths (H:=numpy) default_config 2 3 (Some 42) 0).
  - exact default_config_runs.
  - cbn. discriminate.
  - lia.
  - lia.
Defined.

(** The capital update of [broke] while the step count is 4. *)
Lemma C5_capital_update_and_death_witness :
  exists a',
    StartupAgent.stage_capital_update (H:=numpy) (model_at 4 broke) broke 0
    = Ok (a', 0) /\
    Agent.K a' = 0%Q /\ Agent.S a' = 0 /\ Agent.death_time a' = Some 4 /\
    Agent.funding_received a' = 0%Q.
Proof.
  destruct (C5_capital_update_and_death (H:=numpy) default_config
              (model_at 4 broke) broke 0)
    as ((a' & Hrun & Hfr & Hle & _) & _).
  - cbn. discriminate.
  - exists a'. split; [exact Hrun|].
    destruct Hle as (HK & HS & Hdt); [cbn; discriminate|]. auto.
Defined.

(** C6 without the proviso fails.  Under a configuration whose
    threshold [ALPHA_REVENUE_BURN] is 0, the live startup [thrifty], whose
    burn rate is 0, gets the ratio 0, passes the test
    [ratio >= ALPHA_REVENUE_BURN], is eligible, and leaves the funding
    stage of a funding month with [funding_received] set to a quarter of
    its valuation, not to 0. *)
Lemma zero_threshold_funds_zero_burn :
  Agent.S thrifty = 1 /\ Agent.B thrifty = 0%Q /\
  StartupAgent.revenue_burn_ratio thrifty = 0%Q /\
  StartupAgent.is_eligible config_alpha_zero thrifty = true /\
  exists a' g',
    StartupAgent.stage_funding (H:=numpy) config_alpha_zero
      (model_at 0 thrifty) thrifty 0 = Ok (a', g') /\
    Agent.funding_received a' = (0.25 * 4000000)%Q /\
    ~ (Agent.funding_received a' == 0)%Q.
Proof.
  repeat split.
  eexists _, _. split; [vm_compute; reflexivity|].
  split; [reflexivity | discriminate].
Qed.

(** With the threshold 0.3 of [config.py], [thrifty] is not eligible. *)
Lemma C6_zero_burn_is_ineligible_witness :
  StartupAgent.is_eligible default_config thrifty = false /\
  StartupAgent.stage_funding (H:=numpy) default_config
    (model_at 0 thrifty) thrifty 0
  = Ok (Agent.set_funding_received 0 thrifty, 0).
Proof.
  destruct (C6_zero_burn_is_ineligible (H:=numpy) default_config
              (model_at 0 thrifty) thrifty 0)
    as (_ & Helig & _ & Hstage).
  - reflexivity.
  - cbn. discriminate.
  - reflexivity.
  - split; [exact Helig|]. apply Hstage. cbn. discriminate.
Defined.

(** Step 7 is neither a funding month nor a policy month. *)
Lemma C7_cadence_witness :
  StartupAgent.stage_funding (H:=numpy) default_config
    (model_at 7 thrifty) thrifty 0
  = Ok (Agent.set_funding_received 0 thrifty, 0) /\
  StartupAgent.stage_policy (H:=numpy) default_config
    (model_at 7 thrifty) thrifty 0
  = Ok (thrifty, 0).
Proof.
  destruct (C7_cadence (H:=numpy) default_config (model_at 7 thrifty)
              thrifty 0) as (Hfunding & Hpolicy).
  - cbn. discriminate.
  - cbn. discriminate.
  - split; [apply Hfunding | apply Hpolicy]; cbn; discriminate.
Defined.

(** From generator state 0 the first draw is 0, so a shock occurs. *)
Lemma C8_shock_stage_witness :
  sample_random (Numpy:=numpy) 0 = (0%Q, 12345) /\
  exists model' g3,
    StartupModel.apply_shocks (H:=numpy) default_config
      (model_at 0 thrifty) 0 = Ok (model', g3) /\
    agents (schedule model') !! 0%nat
    = Some (Agent.set_PMF (32830 # 51200) thrifty).
Proof.
  split; [reflexivity|].
  destruct (C8_shock_stage (H:=numpy) default_config (model_at 0 thrifty)
              0 12345 0%Q) as (_ & Hyes & _).
  - reflexivity.
  - edestruct Hyes as (model' & Hrun & _ & _ & Hagents).
    + reflexivity.
    + vm_compute; reflexivity.
    + vm_compute; reflexivity.
    + exists model'. eexists. split; [exact Hrun|].
      destruct (Hagents 0%nat thrifty) as [Halive _]; [reflexivity|].
      destruct Halive as (a' & Hi & -> & _); [reflexivity|].
      rewrite Hi. reflexivity.
Defined.


(** Without a seed the result depends on the state the generator was
    left in. *)
Remark unseeded_runs_differ :
  StartupModel.simulate (H:=numpy) default_config 1 None 1 0
  <> StartupModel.simulate (H:=numpy) default_config 1 None 1 1.
Proof. vm_compute. discriminate. Qed.

End Runs.

(** * Further properties of the simulation *)

(** ** What each stage writes *)

Section Frames.
Context `{Numpy} (config : Config).

(** The fields a stage call leaves as they were. *)
Lemma stage_frame stage model a g a' g' :
  StartupModel.call_stage config stage model a g = Ok (a', g') ->
  (stage <> Stage_capital_update ->
   Agent.K a' = Agent.K a /\ Agent.S a' = Agent.S a /\
   Agent.death_time a' = Agent.death_time a /\
   Agent.runway a' = Agent.runway a) /\
  (stage <> Stage_consumer_adoption -> Agent.R a' = Agent.R a) /\
  (stage <> Stage_pmf_valuation_update ->
   Agent.PMF a' = Agent.PMF a /\ Agent.V a' = Agent.V a) /\
  (stage <> Stage_internal_dynamics -> stage <> Stage_policy ->
   Agent.B a' = Agent.B a) /\
  (stage <> Stage_capital_update -> stage <> Stage_funding ->
   Agent.funding_received a' = Agent.funding_received a) /\
  (stage <> Stage_internal_dynamics -> stage <> Stage_funding ->
   Agent.just_funded a' = Agent.just_funded a).
Proof.
  intros Hcall.
  destruct stage; stage_paths Hcall; cbn; repeat split; intros;
    try reflexivity; congruence.
Qed.

(** The shock writes the PMF and nothing else. *)
Lemma shock_out_frame a a0 :
  shock_out a a0 ->
  Agent.K a0 = Agent.K a /\ Agent.B a0 = Agent.B a /\
  Agent.R a0 = Agent.R a /\ Agent.V a0 = Agent.V a /\
  Agent.S a0 = Agent.S a /\
  Agent.just_funded a0 = Agent.just_funded a /\
  Agent.funding_received a0 = Agent.funding_received a /\
  Agent.runway a0 = Agent.runway a /\
  Agent.death_time a0 = Agent.death_time a.
Proof.
  intros [->|(delta & ->)]; [repeat split|].
  unfold StartupModel.shock_agent.
  destruct (Agent.S a =? 1)%Z; repeat split.
Qed.

(** One month of an agent, stage by stage. *)
Lemma month_out_inv s a a' :
  month_out config s a a' ->
  exists model a0 a1 a2 a3 a4 a5,
    steps (schedule model) = s /\
    shock_out a a0 /\
    stage_out config Stage_consumer_adoption model a0 a1 /\
    stage_out config Stage_internal_dynamics model a1 a2 /\
    stage_out config Stage_capital_update model a2 a3 /\
    stage_out config Stage_pmf_valuation_update model a3 a4 /\
    stage_out config Stage_funding model a4 a5 /\
    stage_out config Stage_policy model a5 a'.
Proof.
  intros (model & a0 & Hs & Hshock & Hout). cbn in Hout.
  destruct Hout as (a1 & H1 & a2 & H2 & a3 & H3 & a4 & H4 & a5 & H5 &
                    a6 & H6 & ->).
  exists model, a0, a1, a2, a3, a4, a5. auto 10.
Qed.

Lemma month_state_succ num_startups seed t g model' g' :
  month_state config num_startups seed (Datatypes.S t) g = Ok (model', g') ->
  exists model gm,
    month_state config num_startups seed t g = Ok (model, gm) /\
    StartupModel.step config model gm = Ok (model', g').
Proof.
  intros Hrun. replace (Datatypes.S t) with (t + 1)%nat in Hrun by lia.
  apply month_state_later in Hrun as (model & gm & Ht & Hstep).
  exists model, gm. split; [exact Ht|].
  cbn in Hstep. apply bind_Ok in Hstep as (m1 & g1 & Hstep & Hret).
  apply ret_Ok in Hret. injection Hret as -> ->. exact Hstep.
Qed.

(** What a month establishes from a condition that construction gives and
    that the month's result implies again, holds from the first month
    on. *)
Lemma month_state_after_first (Q P : Agent.t -> Prop)
    num_startups seed t g model g' :
  (forall a, fresh config a -> Q a) ->
  (forall s x y, Q x -> month_out config s x y -> P y) ->
  (forall a, P a -> Q a) ->
  month_state config num_startups seed (Datatypes.S t) g = Ok (model, g') ->
  Forall P (agents (schedule model)).
Proof.
  intros Hfresh Hmonth HPQ Hrun.
  apply month_state_succ in Hrun as (m0 & g0 & Ht & Hstep).
  assert (HQ : Forall Q (agents (schedule m0))).
  { eapply month_state_invariant; [exact Hfresh | | exact Ht].
    intros s x y Hx Hxy. eapply HPQ, Hmonth; eassumption. }
  apply step_spec in Hstep as (Hagents & _).
  clear -Hagents HQ Hmonth.
  induction Hagents as [|x y l l' Hxy _ IH]; [constructor|].
  inversion HQ; subst. constructor; [eapply Hmonth; eassumption | auto].
Qed.

(** *** Revenue *)

Lemma consumer_adoption_nonneg model a a' :
  stage_out config Stage_consumer_adoption model a a' ->
  (0 <= Agent.R a')%Q.
Proof.
  intros (g & g' & Hcall). stage_paths Hcall; cbn.
  - apply Qle_refl.
  - apply py_max_ge_l.
Qed.

Lemma month_revenue_nonneg s a a' :
  month_out config s a a' -> (0 <= Agent.R a')%Q.
Proof.
  intros Hm.
  apply month_out_inv in Hm
    as (model & a0 & a1 & a2 & a3 & a4 & a5 & _ & _ & H1 & H2 & H3 & H4 &
        H5 & H6).
  apply consumer_adoption_nonneg in H1.
  destruct H2 as (? & ? & H2), H3 as (? & ? & H3), H4 as (? & ? & H4),
    H5 as (? & ? & H5), H6 as (? & ? & H6).
  apply stage_frame in H2 as (_ & E2 & _), H3 as (_ & E3 & _),
    H4 as (_ & E4 & _), H5 as (_ & E5 & _), H6 as (_ & E6 & _).
  rewrite E6, E5, E4, E3, E2 by discriminate. exact H1.
Qed.

End Frames.

Section MonthLemmas.
Context `{Numpy} (config : Config).

(** Every agent of a constructed model comes out of
    [StartupAgent.__init__]. *)
Lemma init_agents_Forall (P : Agent.t -> Prop) num_startups seed g model g' :
  (forall g0 a g1, StartupAgent.init config g0 = Ok (a, g1) -> P a) ->
  StartupModel.init config num_startups seed g = Ok (model, g') ->
  Forall P (agents (schedule model)).
Proof.
  intros HP Hrun. unfold StartupModel.init in Hrun.
  apply bind_Ok in Hrun as ([] & g1 & _ & Hrun).
  apply bind_Ok in Hrun as (l & g2 & Hadd & Hrun).
  apply ret_Ok in Hrun. injection Hrun as -> ->. cbn.
  assert (Hgen : forall n l0 ga l1 gb,
             repeat_m n (StartupModel.add_agent config) l0 ga = Ok (l1, gb) ->
             Forall P l0 -> Forall P l1).
  { clear -HP. induction n as [|n IH]; intros l0 ga l1 gb Hrun Hl0;
      cbn in Hrun.
    - apply ret_Ok in Hrun. injection Hrun as -> ->. exact Hl0.
    - apply bind_Ok in Hrun as (l2 & gc & Hadd & Hrun).
      unfold StartupModel.add_agent in Hadd.
      apply bind_Ok in Hadd as (a & gd & Hinit & Hadd).
      apply ret_Ok in Hadd. injection Hadd as -> ->.
      eapply IH; [exact Hrun|]. apply Forall_app. split; [exact Hl0|].
      constructor; [eapply HP; exact Hinit | constructor]. }
  eapply Hgen; [exact Hadd | constructor].
Qed.

Lemma month_state_invariant_from_init (P : Agent.t -> Prop)
    num_startups seed t g model g' :
  (forall g0 a g1, StartupAgent.init config g0 = Ok (a, g1) -> P a) ->
  (forall s x y, P x -> month_out config s x y -> P y) ->
  month_state config num_startups seed t g = Ok (model, g') ->
  Forall P (agents (schedule model)).
Proof.
  intros Hinit Hmonth Hrun. unfold month_state in Hrun.
  apply bind_Ok in Hrun as (m0 & g0 & Hm0 & Hrun).
  eapply run_agents_Forall; [exact Hmonth | exact Hrun |].
  eapply init_agents_Forall; eassumption.
Qed.

Lemma month_state_steps num_startups seed t g model g' :
  month_state config num_startups seed t g = Ok (model, g') ->
  steps (schedule model) = Z.of_nat t /\
  time (schedule model) = Z.of_nat t /\
  model_steps model = Z.of_nat t.
Proof.
  revert model g'. induction t as [|t IH]; intros model g' Hrun.
  - unfold month_state in Hrun.
    apply bind_Ok in Hrun as (m0 & g0 & Hinit & Hrun).
    cbn in Hrun. apply ret_Ok in Hrun. injection Hrun as -> ->.
    unfold StartupModel.init in Hinit.
    apply bind_Ok in Hinit as ([] & g1 & _ & Hinit).
    apply bind_Ok in Hinit as (l & g2 & _ & Hinit).
    apply ret_Ok in Hinit. injection Hinit as -> ->. cbn. auto.
  - apply month_state_succ in Hrun as (m0 & g0 & Ht & Hstep).
    destruct (IH _ _ Ht) as (Hs & Htime & Hms).
    unfold StartupModel.step in Hstep.
    apply bind_Ok in Hstep as (m1 & g1 & Hcollect & Hstep).
    apply collect_spec in Hcollect as (_ & Hsched & _ & Hms1 & _).
    unfold StartupModel.schedule_step in Hstep.
    apply bind_Ok in Hstep as (m2 & g2 & Hshock & Hstep).
    apply bind_Ok in Hstep as (m3 & g3 & Hmarket & Hstep).
    apply bind_Ok in Hstep as (m4 & g4 & Hstages & Hstep).
    apply ret_Ok in Hstep. injection Hstep as -> ->.
    apply run_stages_spec in Hstages as (Hworld & _).
    apply update_market_spec in Hmarket as (_ & Hsched3 & _ & _ & Hms3 & _).
    unfold StartupModel.apply_shocks, np_random_random, np_random_uniform,
      bind, ret in Hshock.
    assert (Hshock' : steps (schedule m2) = steps (schedule m1) /\
                      time (schedule m2) = time (schedule m1) /\
                      model_steps m2 = model_steps m1).
    { destruct (sample_random g1) as [u gu].
      destruct (Qlt_bool u (P_SHOCK config)).
      - destruct (sample_uniform _ _ gu) as [d1 gd1].
        destruct (sample_uniform _ _ gd1) as [d2 gd2].
        injection Hshock as <- _. cbn. auto.
      - injection Hshock as <- _. auto. }
    destruct Hshock' as (Hs2 & Ht2 & Hms2).
    rewrite Hworld. cbn. rewrite Hsched3, Hs2, Ht2, Hsched. cbn.
    rewrite Hs, Htime, Hms3, Hms2, Hms1. cbn. rewrite Hms. lia.
Qed.

(** An invariant indexed by the number of months. *)
Lemma month_state_indexed (P : nat -> Agent.t -> Prop)
    num_startups seed t g model g' :
  (forall a, fresh config a -> P O a) ->
  (forall n x y,
     P n x -> month_out config (Z.of_nat n) x y -> P (Datatypes.S n) y) ->
  month_state config num_startups seed t g = Ok (model, g') ->
  Forall (P t) (agents (schedule model)).
Proof.
  intros Hfresh Hmonth. revert model g'.
  induction t as [|t IH]; intros model g' Hrun.
  - unfold month_state in Hrun.
    apply bind_Ok in Hrun as (m0 & g0 & Hinit & Hrun).
    cbn in Hrun. apply ret_Ok in Hrun. injection Hrun as -> ->.
    apply init_spec in Hinit as (_ & _ & _ & _ & _ & Hall).
    eapply Forall_impl; [exact Hall | exact Hfresh].
  - apply month_state_succ in Hrun as (m0 & g0 & Ht & Hstep).
    pose proof (IH _ _ Ht) as Hall.
    destruct (month_state_steps _ _ _ _ _ _ Ht) as (Hs & _).
    apply step_spec in Hstep as (Hagents & _). rewrite Hs in Hagents.
    clear -Hagents Hall Hmonth.
    induction Hagents as [|x y l l' Hxy _ IHl]; [constructor|].
    inversion Hall; subst. constructor; [eapply Hmonth; eassumption | auto].
Qed.

(** *** Burn rate *)

Lemma stage_burn_nonneg stage model a a' :
  (0 <= 1 + DELTA_GROWTH config)%Q ->
  (0 <= 1 - DELTA_CUT config)%Q ->
  (0 <= Agent.B a)%Q ->
  stage_out config stage model a a' ->
  (0 <= Agent.B a')%Q.
Proof.
  intros Hg Hc HB (g & g' & Hcall).
  destruct stage; stage_paths Hcall; cbn;
    first [ exact HB
          | apply py_max_ge_l
          | apply Qmult_le_0_compat; assumption ].
Qed.

Lemma agent_init_burn_nonneg g a g' :
  uniform_in_range -> burn_config config ->
  StartupAgent.init config g = Ok (a, g') -> (0 <= Agent.B a)%Q.
Proof.
  intros Hu [Hk0 Hk Hb0 Hb _ _].
  unfold StartupAgent.init, np_random_uniform, np_random_beta, bind, ret.
  pose proof (Hu (K0_MIN config) (K0_MAX config) g Hk) as HK.
  destruct (sample_uniform _ _ g) as [K g1]. cbn in HK.
  assert (HK0 : (0 <= K)%Q) by (eapply Qle_trans; [exact Hk0 | apply HK]).
  assert (Hord : (B0_MIN_RATIO config * K <= B0_MAX_RATIO config * K)%Q)
    by (apply Qmult_le_compat_r; assumption).
  pose proof (Hu _ _ g1 Hord) as HB.
  destruct (sample_uniform _ _ g1) as [B g2]. cbn in HB.
  destruct (Qlt_bool 0 (PMF_ALPHA config) && Qlt_bool 0 (PMF_BETA config));
    [|discriminate].
  destruct (sample_beta _ _ g2) as [PMF g3].
  intros [= <- <-]. cbn.
  eapply Qle_trans; [|apply HB]. apply Qmult_le_0_compat; assumption.
Qed.

(** *** Capital and survival *)

Lemma month_capital_tracks_survival s a a' :
  Agent.S a = 1%Z \/ (Agent.S a = 0%Z /\ Agent.K a = 0%Q) ->
  month_out config s a a' -> capital_tracks_survival a'.
Proof.
  intros Ha Hm.
  apply month_out_inv in Hm
    as (model & a0 & a1 & a2 & a3 & a4 & a5 & _ & H0 & H1 & H2 & H3 & H4 &
        H5 & H6).
  apply shock_out_frame in H0 as (K0 & _ & _ & _ & S0 & _).
  destruct H1 as (? & ? & H1), H2 as (? & ? & H2), H3 as (g3 & g3' & H3),
    H4 as (? & ? & H4), H5 as (? & ? & H5), H6 as (? & ? & H6).
  apply stage_frame in H1 as (F1 & _), H2 as (F2 & _), H4 as (F4 & _),
    H5 as (F5 & _), H6 as (F6 & _).
  destruct (F1 ltac:(discriminate)) as (K1 & S1 & _).
  destruct (F2 ltac:(discriminate)) as (K2 & S2 & _).
  destruct (F4 ltac:(discriminate)) as (K4 & S4 & _).
  destruct (F5 ltac:(discriminate)) as (K5 & S5 & _).
  destruct (F6 ltac:(discriminate)) as (K6 & S6 & _).
  assert (HS2 : Agent.S a2 = Agent.S a) by congruence.
  assert (HK2 : Agent.K a2 = Agent.K a) by congruence.
  assert (Hend : capital_tracks_survival a3).
  { unfold StartupModel.call_stage in H3. destruct Ha as [Hal|[Hd HK]].
    - destruct (capital_update_live model a2 g3)
        as (b & Hrun & _ & _ & _ & _ & _ & _ & Hle & Hgt);
        [rewrite HS2, Hal; discriminate|].
      rewrite Hrun in H3. injection H3 as <- _.
      destruct (Qle_bool (Agent.K a2 + Agent.R a2 - Agent.B a2
                          + Agent.funding_received a2) 0) eqn:Hk.
      + apply Qle_bool_iff in Hk. destruct (Hle Hk) as (EK & ES & _).
        right. auto.
      + apply Qle_bool_false in Hk. destruct (Hgt Hk) as (EK & ES & _).
        left. split; [congruence|]. rewrite EK. apply Qnot_le_lt, Hk.
    - assert (Hd2 : Agent.S a2 = 0%Z) by congruence.
      pose proof (dead_stage config Stage_capital_update model a2 g3 Hd2)
        as Hrun.
      unfold StartupModel.call_stage in Hrun. rewrite Hrun in H3.
      injection H3 as <- _. right. split; congruence. }
  unfold capital_tracks_survival in *.
  rewrite K6, K5, K4, S6, S5, S4. exact Hend.
Qed.

(** *** Death times *)

Lemma month_dated_before n a a' :
  dated_before (Z.of_nat n) a ->
  month_out config (Z.of_nat n) a a' ->
  dated_before (Z.of_nat (Datatypes.S n)) a'.
Proof.
  intros Ha Hm.
  apply month_out_inv in Hm
    as (model & a0 & a1 & a2 & a3 & a4 & a5 & Hs & H0 & H1 & H2 & H3 & H4 &
        H5 & H6).
  apply shock_out_frame in H0 as (_ & _ & _ & _ & S0 & _ & _ & _ & D0).
  destruct H1 as (? & ? & H1), H2 as (? & ? & H2), H3 as (g3 & g3' & H3),
    H4 as (? & ? & H4), H5 as (? & ? & H5), H6 as (? & ? & H6).
  apply stage_frame in H1 as (F1 & _), H2 as (F2 & _), H4 as (F4 & _),
    H5 as (F5 & _), H6 as (F6 & _).
  destruct (F1 ltac:(discriminate)) as (_ & S1 & D1 & _).
  destruct (F2 ltac:(discriminate)) as (_ & S2 & D2 & _).
  destruct (F4 ltac:(discriminate)) as (_ & S4 & D4 & _).
  destruct (F5 ltac:(discriminate)) as (_ & S5 & D5 & _).
  destruct (F6 ltac:(discriminate)) as (_ & S6 & D6 & _).
  assert (HS2 : Agent.S a2 = Agent.S a) by congruence.
  assert (HD2 : Agent.death_time a2 = Agent.death_time a) by congruence.
  assert (Hend : dated_before (Z.of_nat (Datatypes.S n)) a3).
  { unfold StartupModel.call_stage in H3.
    destruct Ha as [[Hal Hnone]|[Hd (d & Hsome & Hrange)]].
    - destruct (capital_update_live model a2 g3)
        as (b & Hrun & _ & _ & _ & _ & _ & _ & Hle & Hgt);
        [rewrite HS2, Hal; discriminate|].
      rewrite Hrun in H3. injection H3 as <- _.
      destruct (Qle_bool (Agent.K a2 + Agent.R a2 - Agent.B a2
                          + Agent.funding_received a2) 0) eqn:Hk.
      + apply Qle_bool_iff in Hk. destruct (Hle Hk) as (_ & ES & ED & _).
        right. split; [exact ES|]. exists (Z.of_nat n).
        rewrite ED, Hs. split; [reflexivity | lia].
      + apply Qle_bool_false in Hk. destruct (Hgt Hk) as (_ & ES & ED).
        left. split; congruence.
    - assert (Hd2 : Agent.S a2 = 0%Z) by congruence.
      pose proof (dead_stage config Stage_capital_update model a2 g3 Hd2)
        as Hrun.
      unfold StartupModel.call_stage in Hrun. rewrite Hrun in H3.
      injection H3 as <- _. right. split; [exact Hd2|].
      exists d. split; [congruence | lia]. }
  unfold dated_before in *.
  rewrite D6, D5, D4, S6, S5, S4. exact Hend.
Qed.

(** A live agent that a month leaves dead is dated with the step count of
    that month. *)
Lemma month_death_dated s a a' :
  Agent.S a = 1%Z -> month_out config s a a' -> Agent.S a' = 0%Z ->
  Agent.death_time a' = Some s.
Proof.
  intros HS (model & a0 & Hs & Hshock & Hout) Hdead. subst s.
  assert (Hinv : died_at (steps (schedule model)) a').
  { eapply (stages_out_inv config (died_at (steps (schedule model))));
      [| |exact Hout].
    - intros stage x y Hx Hxy. eapply stage_died_at; eassumption.
    - unfold died_at. intros Hd.
      destruct Hshock as [->|(delta & ->)];
        [|rewrite shock_agent_S in Hd]; rewrite HS in Hd; discriminate. }
  apply Hinv, Hdead.
Qed.

(** The history of the agent at position [i]: after [t] months it is
    alive and undated, or it is dead, died in one of the [t] months and
    is dated with the step count of that month. *)
Lemma agent_history num_startups seed g t model g' i a :
  month_state config num_startups seed t g = Ok (model, g') ->
  agents (schedule model) !! i = Some a ->
  (Agent.S a = 1%Z /\ Agent.death_time a = None) \/
  (Agent.S a = 0%Z /\
   exists d : nat,
     (d < t)%nat /\ Agent.death_time a = Some (Z.of_nat d) /\
     dies_in_month config num_startups seed g i d).
Proof.
  revert model g' a. induction t as [|t IH]; intros model g' a Hrun Hi.
  - unfold month_state in Hrun.
    apply bind_Ok in Hrun as (m0 & g0 & Hinit & Hrun).
    cbn in Hrun. apply ret_Ok in Hrun. injection Hrun as -> ->.
    apply init_spec in Hinit as (_ & _ & _ & _ & _ & Hall).
    rewrite Forall_lookup in Hall. destruct (Hall i a Hi) as (HS & HD & _).
    left. auto.
  - apply month_state_succ in Hrun as (m0 & g0 & Ht & Hstep).
    destruct (month_state_steps _ _ _ _ _ _ Ht) as (Hs & _).
    pose proof Hstep as Hagents.
    apply step_spec in Hagents as (Hagents & _). rewrite Hs in Hagents.
    destruct (Forall2_lookup_r _ _ _ _ _ Hagents Hi) as (x & Hx & Hm).
    destruct (IH _ _ _ Ht Hx) as [[HS HD]|(HS & d & Hd & HD & Hdies)].
    + destruct (month_dated_before t x a) as [Hl|(HS' & _)];
        [left; auto | exact Hm | left; exact Hl |].
      right. split; [exact HS'|]. exists t. split; [lia|]. split.
      * eapply month_death_dated; eassumption.
      * exists m0, g0, x, model, g', a. auto 10.
    + apply dead_month in Hm; [|exact HS]. subst a.
      right. split; [exact HS|]. exists d.
      split; [lia|]. split; [exact HD | exact Hdies].
Qed.

(** A death in one of the first [t] months is still on record after [t]
    months, with the step count of its month. *)
Lemma dies_in_month_recorded num_startups seed g t model g' i d :
  month_state config num_startups seed t g = Ok (model, g') ->
  (d < t)%nat ->
  dies_in_month config num_startups seed g i d ->
  exists a,
    agents (schedule model) !! i = Some a /\
    Agent.S a = 0%Z /\ Agent.death_time a = Some (Z.of_nat d).
Proof.
  intros Hrun Hd
    (m & gm & x & m' & gm' & x' & Hm & Hs & Hx & HS & Hstep & Hx' & HS').
  replace t with (Datatypes.S d + (t - Datatypes.S d))%nat in Hrun by lia.
  apply month_state_later in Hrun as (mt & gt & Ht & Hrest).
  apply month_state_succ in Ht as (m0 & g0 & Hm0 & Hstep0).
  rewrite Hm in Hm0. injection Hm0 as <- <-.
  rewrite Hstep in Hstep0. injection Hstep0 as <- <-.
  apply step_spec in Hstep as (Hagents & _). rewrite Hs in Hagents.
  destruct (Forall2_lookup_l _ _ _ _ _ Hagents Hx) as (y & Hy & Hmonth).
  rewrite Hx' in Hy. injection Hy as <-.
  assert (HD : Agent.death_time x' = Some (Z.of_nat d))
    by (eapply month_death_dated; eassumption).
  eapply (run_agent_inv config
            (fun a => Agent.S a = 0%Z /\
                      Agent.death_time a = Some (Z.of_nat d)));
    [|exact Hrest | exact Hx' | split; assumption].
  intros s u v [Hu HDu] Huv. apply dead_month in Huv; [|exact Hu].
  subst v. split; assumption.
Qed.

(** *** Valuation *)

Lemma month_valuation s a a' :
  month_out config s a a' -> Agent.S a' <> 0%Z ->
  Agent.V a' = valuation_of config a'.
Proof.
  intros Hm Hlive.
  apply month_out_inv in Hm
    as (model & a0 & a1 & a2 & a3 & a4 & a5 & _ & _ & _ & _ & _ & H4 &
        H5 & H6).
  destruct H4 as (g4 & g4' & H4), H5 as (? & ? & H5), H6 as (? & ? & H6).
  apply stage_frame in H5 as (F5 & R5 & P5 & _), H6 as (F6 & R6 & P6 & _).
  destruct (F5 ltac:(discriminate)) as (K5 & S5 & _).
  destruct (F6 ltac:(discriminate)) as (K6 & S6 & _).
  destruct (P5 ltac:(discriminate)) as (PMF5 & V5).
  destruct (P6 ltac:(discriminate)) as (PMF6 & V6).
  specialize (R5 ltac:(discriminate)). specialize (R6 ltac:(discriminate)).
  assert (Hlive4 : Agent.S a4 <> 0%Z) by congruence.
  assert (H4V : Agent.V a4 = valuation_of config a4).
  { stage_paths H4; [|reflexivity].
    match goal with E : (Agent.S a3 =? 0)%Z = true |- _ =>
      apply Z.eqb_eq in E; contradiction end. }
  unfold valuation_of in *. rewrite V6, V5, R6, R5, PMF6, PMF5, K6, K5.
  exact H4V.
Qed.

(** *** Funding *)

Lemma internal_dynamics_clears_flag model a a' :
  stage_out config Stage_internal_dynamics model a a' ->
  Agent.S a <> 0%Z -> Agent.just_funded a' = false.
Proof.
  intros (g & g' & Hcall) Hlive. apply Z.eqb_neq in Hlive.
  unfold StartupModel.call_stage, StartupAgent.stage_internal_dynamics, ret
    in Hcall.
  rewrite Hlive in Hcall.
  destruct (Agent.just_funded a) eqn:Hjf;
    [injection Hcall as <- _; reflexivity|].
  destruct (_ && _); injection Hcall as <- _; exact Hjf.
Qed.

Lemma funding_stage_settles model a a' :
  stage_out config Stage_funding model a a' ->
  Agent.just_funded a = false -> funding_settled config a'.
Proof.
  intros (g & g' & Hcall) Hjf. unfold funding_settled.
  stage_paths Hcall; cbn; try (left; split; [reflexivity | exact Hjf]).
  right. repeat split.
  match goal with E : (Agent.S a =? 0)%Z = false |- _ =>
    apply Z.eqb_neq in E; exact E end.
Qed.

Lemma month_funding_settled s a a' :
  (Agent.S a = 0%Z -> Agent.just_funded a = false) ->
  month_out config s a a' -> funding_settled config a'.
Proof.
  intros Ha Hm.
  apply month_out_inv in Hm
    as (model & a0 & a1 & a2 & a3 & a4 & a5 & _ & H0 & H1 & H2 & H3 & H4 &
        H5 & H6).
  apply shock_out_frame in H0 as (_ & _ & _ & _ & S0 & J0 & _).
  pose proof H2 as H2'.
  destruct H1 as (? & ? & H1), H2 as (? & ? & H2), H3 as (? & ? & H3),
    H4 as (? & ? & H4), H6 as (? & ? & H6).
  apply stage_frame in H1 as (F1 & _ & _ & _ & _ & J1),
    H2 as (F2 & _), H3 as (_ & _ & _ & _ & _ & J3),
    H4 as (_ & _ & _ & _ & _ & J4),
    H6 as (F6 & _ & P6 & _ & FR6 & J6).
  destruct (F1 ltac:(discriminate)) as (_ & S1 & _).
  specialize (J1 ltac:(discriminate) ltac:(discriminate)).
  specialize (J3 ltac:(discriminate) ltac:(discriminate)).
  specialize (J4 ltac:(discriminate) ltac:(discriminate)).
  specialize (J6 ltac:(discriminate) ltac:(discriminate)).
  specialize (FR6 ltac:(discriminate) ltac:(discriminate)).
  destruct (F6 ltac:(discriminate)) as (_ & S6 & _).
  destruct (P6 ltac:(discriminate)) as (_ & V6).
  assert (J2 : Agent.just_funded a2 = false).
  { destruct (Z.eq_dec (Agent.S a1) 0%Z) as [Hd|Hl].
    - destruct H2' as (g2 & g2' & H2').
      rewrite (dead_stage config _ _ _ _ Hd) in H2'.
      injection H2' as <- _. cbn. rewrite J1, J0. apply Ha. congruence.
    - eapply internal_dynamics_clears_flag; eassumption. }
  assert (J4' : Agent.just_funded a4 = false) by congruence.
  pose proof (funding_stage_settles model a4 a5 H5 J4') as Hend.
  unfold funding_settled in *. rewrite FR6, J6, V6, S6. exact Hend.
Qed.

End MonthLemmas.

(** ** Invariants of the agents along a run *)

Section AgentInvariants.
Context `{Numpy} (config : Config).

(** X1.  After one month or more, no agent has a negative revenue: the
    consumer-adoption stage writes [max(0, ...)] or 0 every month and no
    later stage writes [R]. *)
Theorem X1_revenue_never_negative
    (num_startups : Z) (seed : option Z) (g : rng) (t : nat)
    (model : Model) (g' : rng) :
  month_state config num_startups seed (Datatypes.S t) g = Ok (model, g') ->
  Forall (fun a => (0 <= Agent.R a)%Q) (agents (schedule model)).
Proof.
  intros Hrun.
  eapply (month_state_after_first config (fun _ => True));
    [auto | | auto | exact Hrun].
  intros s x y _ Hxy. eapply month_revenue_nonneg, Hxy.
Qed.

(** X2.  When the initial capital range and burn ratios are ordered and
    not negative and the growth and cut factors [1 + DELTA_GROWTH] and
    [1 - DELTA_CUT] are not negative, no agent ever has a negative burn
    rate: the policy stage floors it at 0 and the two internal
    adjustments keep its sign. *)
Theorem X2_burn_rate_never_negative
    (num_startups : Z) (seed : option Z) (g : rng) (t : nat)
    (model : Model) (g' : rng) :
  uniform_in_range ->
  burn_config config ->
  month_state config num_startups seed t g = Ok (model, g') ->
  Forall (fun a => (0 <= Agent.B a)%Q) (agents (schedule model)).
Proof.
  intros Hu Hcfg Hrun.
  eapply (month_state_invariant_from_init config); [| |exact Hrun].
  - intros g0 a g1 Hinit. eapply agent_init_burn_nonneg; eassumption.
  - apply month_inv.
    + intros stage m x y Hx Hxy. destruct Hcfg.
      eapply stage_burn_nonneg; eassumption.
    + intros delta x Hx.
      destruct (shock_out_frame x (StartupModel.shock_agent delta x))
        as (_ & -> & _); [right; eauto | exact Hx].
Qed.

(** X3.  After one month or more, every agent is either alive ([S = 1])
    with positive capital or dead ([S = 0]) with capital exactly 0;
    capital is never negative and [S] takes no other value. *)
Theorem X3_capital_tracks_survival
    (num_startups : Z) (seed : option Z) (g : rng) (t : nat)
    (model : Model) (g' : rng) :
  month_state config num_startups seed (Datatypes.S t) g = Ok (model, g') ->
  Forall capital_tracks_survival (agents (schedule model)).
Proof.
  intros Hrun.
  eapply (month_state_after_first config
            (fun a => Agent.S a = 1%Z \/
                      (Agent.S a = 0%Z /\ Agent.K a = 0%Q)));
    [| | | exact Hrun].
  - intros a (HS & _). left. exact HS.
  - intros s x y Hx Hxy. eapply month_capital_tracks_survival; eassumption.
  - intros a [[HS _]|Hd]; [left; exact HS | right; exact Hd].
Qed.

(** X4.  In the state after [t] months [get_survival_times] returns one
    entry per dead agent, and every entry is a step count [d] with
    [0 <= d < t].  Each dead agent carries the step at which it died: its
    [death_time] is the [schedule.steps] of the model in which it was
    still alive and whose [step] left it dead; alive agents carry none.
    The entries returned are exactly the step counts of the months, among
    the first [t], in which an agent died. *)
Theorem X4_survival_times
    (num_startups : Z) (seed : option Z) (g : rng) (t : nat)
    (model : Model) (g' : rng) :
  month_state config num_startups seed t g = Ok (model, g') ->
  Z.of_nat (length (get_survival_times model))
  = count_if is_dead (agents (schedule model)) /\
  Forall (fun d => (0 <= d < Z.of_nat t)%Z) (get_survival_times model) /\
  (forall i a,
     agents (schedule model) !! i = Some a ->
     (Agent.S a = 1%Z /\ Agent.death_time a = None) \/
     (Agent.S a = 0%Z /\
      exists d : nat,
        (d < t)%nat /\ Agent.death_time a = Some (Z.of_nat d) /\
        dies_in_month config num_startups seed g i d)) /\
  (forall z,
     In z (get_survival_times model) <->
     exists i d : nat,
       z = Z.of_nat d /\ (d < t)%nat /\
       dies_in_month config num_startups seed g i d).
Proof.
  intros Hrun.
  assert (Hall : Forall (dated_before (Z.of_nat t))
                        (agents (schedule model))).
  { eapply (month_state_indexed config
              (fun n => dated_before (Z.of_nat n))); [| |exact Hrun].
    - intros a (HS & HD & _). left. auto.
    - intros n x y Hx Hxy. eapply month_dated_before; eassumption. }
  assert (Hfirst :
    Z.of_nat (length (get_survival_times model))
    = count_if is_dead (agents (schedule model)) /\
    Forall (fun d => (0 <= d < Z.of_nat t)%Z) (get_survival_times model)).
  { unfold get_survival_times, count_if, is_dead.
    induction Hall as [|a l Ha _ IH]; cbn;
      [split; [reflexivity|constructor]|].
    destruct IH as [IHlen IHall].
    destruct Ha as [[HS HD]|[HS (d & HD & Hd)]]; rewrite HS; cbn.
    - split; assumption.
    - rewrite HD. cbn. split; [lia | constructor; assumption]. }
  destruct Hfirst as [Hlen Hrange].
  split; [exact Hlen|]. split; [exact Hrange|]. split.
  - intros i a Hi. eapply agent_history; eassumption.
  - intros z. rewrite <- list_elem_of_In. unfold get_survival_times.
    rewrite list_elem_of_omap. split.
    + intros (a & Ha & Hz). apply list_elem_of_lookup in Ha as (i & Hi).
      destruct (agent_history config _ _ _ _ _ _ _ _ Hrun Hi)
        as [[HS _]|(HS & d & Hd & HD & Hdies)];
        rewrite HS in Hz; cbn in Hz; [discriminate|].
      exists i, d. split; [congruence|]. split; assumption.
    + intros (i & d & -> & Hd & Hdies).
      destruct (dies_in_month_recorded config _ _ _ _ _ _ _ _ Hrun Hd Hdies)
        as (a & Hi & HS & HD).
      exists a. split; [eapply list_elem_of_lookup_2; exact Hi|].
      rewrite HS. cbn. exact HD.
Qed.

(** X5.  After one month or more, the valuation of every live agent is
    the valuation formula on the agent's own revenue, PMF and capital of
    that state: [V = LAMBDA_1 * R + LAMBDA_2 * PMF + LAMBDA_3 * K]. *)
Theorem X5_valuation_of_live_agent
    (num_startups : Z) (seed : option Z) (g : rng) (t : nat)
    (model : Model) (g' : rng) :
  month_state config num_startups seed (Datatypes.S t) g = Ok (model, g') ->
  Forall (fun a => Agent.S a <> 0%Z -> Agent.V a = valuation_of config a)
         (agents (schedule model)).
Proof.
  intros Hrun.
  eapply (month_state_after_first config (fun _ => True));
    [auto | | auto | exact Hrun].
  intros s x y _ Hxy. eapply month_valuation, Hxy.
Qed.

(** X6.  After one month or more, every agent either stores no funding
    and has no just-funded flag, or is a live agent that stores exactly
    [KAPPA * V] of its current valuation with the flag set: funding is
    never another amount, dead agents store none, and the flag never
    outlives the month after the funding. *)
Theorem X6_funding_is_share_of_valuation
    (num_startups : Z) (seed : option Z) (g : rng) (t : nat)
    (model : Model) (g' : rng) :
  month_state config num_startups seed (Datatypes.S t) g = Ok (model, g') ->
  Forall (funding_settled config) (agents (schedule model)).
Proof.
  intros Hrun.
  eapply (month_state_after_first config
            (fun a => Agent.S a = 0%Z -> Agent.just_funded a = false));
    [| | | exact Hrun].
  - intros a (_ & _ & _ & Hjf & _) _. exact Hjf.
  - intros s x y Hx Hxy. eapply month_funding_settled; eassumption.
  - intros a [[_ Hjf]|(_ & _ & Hl)] Hd; [exact Hjf | contradiction].
Qed.

End AgentInvariants.

(** ** The world and the series along a run *)

Section WorldLemmas.
Context `{Numpy} (config : Config).

(** The intermediate models of one month. *)
Lemma step_inv model g model' g' :
  StartupModel.step config model g = Ok (model', g') ->
  exists mc m1 g1 m2 m3,
    StartupModel.collect
      (set_model_steps (model_steps model + 1) model) g = Ok (mc, g) /\
    StartupModel.apply_shocks config mc g = Ok (m1, g1) /\
    StartupModel.update_market config m1 g1 = Ok (m2, g1) /\
    StartupModel.run_stages config (drop 2 stage_list) m2 g1
    = Ok (m3, g') /\
    model' = set_schedule {| steps := (steps (schedule m3) + 1)%Z;
                             time := (time (schedule m3) + 1)%Z;
                             agents := agents (schedule m3) |} m3.
Proof.
  unfold StartupModel.step, StartupModel.schedule_step. intros Hrun.
  apply bind_Ok in Hrun as (mc & gc & Hcollect & Hrun).
  pose proof (collect_spec _ _ _ _ Hcollect) as (-> & _).
  apply bind_Ok in Hrun as (m1 & g1 & Hshock & Hrun).
  apply bind_Ok in Hrun as (m2 & g2 & Hmarket & Hrun).
  pose proof (update_market_spec _ _ _ _ _ Hmarket) as (-> & _).
  apply bind_Ok in Hrun as (m3 & g3 & Hstages & Hrun).
  apply ret_Ok in Hrun. injection Hrun as -> ->.
  exists mc, m1, g1, m2, m3. auto.
Qed.

(** What a row records. *)
Lemma model_row_spec model g r g' :
  StartupModel.model_row model g = Ok (r, g') ->
  g' = g /\
  agents (schedule model) <> [] /\
  Alive_Startups r = count_if is_alive (agents (schedule model)) /\
  Dead_Startups r = count_if is_dead (agents (schedule model)) /\
  Failure_Rate r
  = (inject_Z (count_if is_dead (agents (schedule model)))
     / inject_Z (Z.of_nat (length (agents (schedule model)))))%Q /\
  Market_Size r = market_size model /\
  Competition_Index r = competition_index model.
Proof.
  unfold StartupModel.model_row, py_int_div, bind, ret, raise.
  destruct (Z.of_nat (length (agents (schedule model))) =? 0)%Z eqn:E;
    [discriminate|].
  intros [= <- <-]. cbn. repeat split.
  intros Hnil. rewrite Hnil in E. discriminate.
Qed.

(** [collect] appends the row of the model it is given. *)
Lemma collect_row model g model' g' :
  StartupModel.collect model g = Ok (model', g') ->
  exists r,
    StartupModel.model_row model g = Ok (r, g) /\
    model_vars (datacollector model')
    = model_vars (datacollector model) ++ [r] /\
    schedule model' = schedule model /\
    market_size model' = market_size model /\
    competition_index model' = competition_index model.
Proof.
  unfold StartupModel.collect. intros Hrun.
  apply bind_Ok in Hrun as (r & g1 & Hrow & Hrun).
  pose proof (model_row_spec _ _ _ _ Hrow) as (-> & _).
  apply ret_Ok in Hrun. injection Hrun as -> ->.
  exists r. cbn. auto.
Qed.

Lemma count_if_same_S l l' :
  Forall2 (fun a a' => Agent.S a' = Agent.S a) l l' ->
  count_if is_alive l' = count_if is_alive l /\
  count_if is_dead l' = count_if is_dead l.
Proof.
  unfold count_if, is_alive, is_dead.
  induction 1 as [|a a' l l' HS _ [IHa IHd]]; cbn; [auto|].
  rewrite HS.
  destruct (Agent.S a =? 1)%Z, (Agent.S a =? 0)%Z; cbn; split; lia.
Qed.

(** What one month does to the world and to the series. *)
Lemma step_world model g model' g' :
  StartupModel.step config model g = Ok (model', g') ->
  exists r shocked,
    StartupModel.model_row model g = Ok (r, g) /\
    model_vars (datacollector model')
    = model_vars (datacollector model) ++ [r] /\
    (shocked = market_size model \/
     exists delta_m,
       shocked = py_max 0 (market_size model * (1 + delta_m))%Q) /\
    market_size model'
    = (shocked * (1 + GROWTH_RATE_M config))%Q /\
    initial_startups model <> 0%Z /\
    competition_index model'
    = (inject_Z (count_if is_alive (agents (schedule model)))
       / inject_Z (initial_startups model))%Q /\
    Forall2
      (fun a a' =>
         exists m a0,
           competition_index m = competition_index model' /\
           shock_out a a0 /\
           stages_out config (drop 2 stage_list) m a0 a')
      (agents (schedule model)) (agents (schedule model')).
Proof.
  intros Hstep.
  apply step_inv in Hstep
    as (mc & m1 & g1 & m2 & m3 & Hc & Hshock & Hmarket & Hstages & ->).
  pose proof (collect_spec _ _ _ _ Hc) as (_ & _ & Hc_n & _).
  apply collect_row in Hc as (r & Hrow & Hvars & Hsched & HM & Hth).
  change (StartupModel.model_row model g = Ok (r, g)) in Hrow.
  cbn in Hvars, Hsched, HM, Hth, Hc_n.
  pose proof (apply_shocks_spec _ _ _ _ _ Hshock)
    as (Hs_agents & _ & Hs_n & _ & Hs_dc).
  apply run_stages_spec in Hstages as (Hworld & Hagents).
  assert (Hsm : market_size m1 = market_size mc \/
                exists delta_m,
                  market_size m1
                  = py_max 0 (market_size mc * (1 + delta_m))%Q).
  { unfold StartupModel.apply_shocks, np_random_random, np_random_uniform,
      bind, ret in Hshock.
    destruct (sample_random g) as [u gu].
    destruct (Qlt_bool u (P_SHOCK config)).
    - destruct (sample_uniform _ _ gu) as [d1 gd1].
      destruct (sample_uniform _ _ gd1) as [d2 gd2].
      injection Hshock as <- _. right. exists d2. reflexivity.
    - injection Hshock as <- _. left. reflexivity. }
  pose proof (update_market_spec _ _ _ _ _ Hmarket)
    as (_ & Hm_sched & Hm_M & _ & _ & Hm_dc).
  assert (Hm_th : initial_startups m1 <> 0%Z /\
                  competition_index m2
                  = (inject_Z (count_if is_alive (agents (schedule m1)))
                     / inject_Z (initial_startups m1))%Q).
  { unfold StartupModel.update_market, py_int_div, bind, ret, raise
      in Hmarket. cbn in Hmarket.
    destruct (initial_startups m1 =? 0)%Z eqn:En; [discriminate|].
    injection Hmarket as <-. split; [apply Z.eqb_neq, En | reflexivity]. }
  destruct Hm_th as (En & Hm_th).
  assert (Hcount : count_if is_alive (agents (schedule m1))
                   = count_if is_alive (agents (schedule model))).
  { rewrite <- Hsched. apply count_if_same_S.
    eapply Forall2_impl; [exact Hs_agents|].
    intros a a0 Ha0. apply shock_out_frame in Ha0. apply Ha0. }
  assert (E_dc : datacollector m3 = datacollector mc)
    by (rewrite Hworld; cbn; congruence).
  assert (E_M : market_size m3
                = (market_size m1 * (1 + GROWTH_RATE_M config))%Q)
    by (rewrite Hworld; cbn; exact Hm_M).
  assert (E_th : competition_index m3 = competition_index m2)
    by (rewrite Hworld; reflexivity).
  rewrite Hsched in Hs_agents. rewrite Hm_sched in Hagents.
  rewrite HM in Hsm. rewrite Hs_n, Hc_n in En, Hm_th. rewrite Hcount in Hm_th.
  exists r, (market_size m1).
  split; [exact Hrow|].
  split; [cbn; rewrite E_dc; exact Hvars|].
  split; [exact Hsm|].
  split; [cbn; exact E_M|].
  split; [exact En|].
  split; [cbn; rewrite E_th; exact Hm_th|].
  refine (Forall2_impl _ _ _ _ (Forall2_compose _ _ _ _ _ Hs_agents Hagents) _).
  intros a c (b & Hab & Hbc). exists m2, b.
  split; [cbn; symmetry; exact E_th|]. split; assumption.
Qed.

End WorldLemmas.

Section SeriesLemmas.
Context `{Numpy} (config : Config).

Lemma month_state_populated num_startups seed t g model g' :
  month_state config num_startups seed t g = Ok (model, g') ->
  populated num_startups model.
Proof.
  unfold month_state. intros Hrun.
  apply bind_Ok in Hrun as (m0 & g0 & Hinit & Hrun).
  apply init_spec in Hinit as (_ & _ & Hn & _ & Hlen & _).
  eapply steps_spec; [|exact Hrun]. split; assumption.
Qed.

Lemma month_state_zero num_startups seed g model g' :
  month_state config num_startups seed O g = Ok (model, g') ->
  StartupModel.init config num_startups seed g = Ok (model, g').
Proof.
  unfold month_state. intros Hrun.
  apply bind_Ok in Hrun as (m0 & g0 & Hinit & Hrun).
  cbn in Hrun. apply ret_Ok in Hrun. injection Hrun as -> ->. exact Hinit.
Qed.

Lemma init_world num_startups seed g model g' :
  StartupModel.init config num_startups seed g = Ok (model, g') ->
  market_size model = M0_INITIAL config /\ competition_index model = 0%Q.
Proof.
  unfold StartupModel.init. intros Hrun.
  apply bind_Ok in Hrun as ([] & g1 & _ & Hrun).
  apply bind_Ok in Hrun as (l & g2 & _ & Hrun).
  apply ret_Ok in Hrun. injection Hrun as -> ->. auto.
Qed.

(** Every agent's flag is 0 or 1. *)
Lemma month_state_flags num_startups seed t g model g' :
  month_state config num_startups seed t g = Ok (model, g') ->
  Forall (fun a => Agent.S a = 1%Z \/ Agent.S a = 0%Z)
         (agents (schedule model)).
Proof.
  intros Hrun.
  eapply Forall_impl.
  - eapply (month_state_invariant config
              (fun a => Agent.S a = 1%Z \/
                        (Agent.S a = 0%Z /\ Agent.K a = 0%Q)));
      [| |exact Hrun].
    + intros a (HS & _). left. exact HS.
    + intros s x y Hx Hxy.
      destruct (month_capital_tracks_survival config s x y Hx Hxy)
        as [[HS _]|Hd]; [left; exact HS | right; exact Hd].
  - intros a [HS|[HS _]]; auto.
Qed.

Lemma counts_partition (l : list Agent.t) :
  Forall (fun a => Agent.S a = 1%Z \/ Agent.S a = 0%Z) l ->
  (count_if is_alive l + count_if is_dead l)%Z = Z.of_nat (length l).
Proof.
  unfold count_if, is_alive, is_dead.
  induction 1 as [|a l [HS|HS] _ IH]; cbn; [reflexivity| |];
    rewrite HS; cbn; lia.
Qed.

Lemma count_if_bounds (p : Agent.t -> bool) (l : list Agent.t) :
  (0 <= count_if p l <= Z.of_nat (length l))%Z.
Proof.
  unfold count_if. pose proof (List.filter_length_le p l). lia.
Qed.

Lemma ratio_in_unit (a b : Z) :
  (0 <= a <= b)%Z -> (0 < b)%Z ->
  (0 <= inject_Z a / inject_Z b <= 1)%Q.
Proof.
  intros [Ha Hab] Hb.
  assert (HbQ : (0 < inject_Z b)%Q).
  { change 0%Q with (inject_Z 0). rewrite <- Zlt_Qlt. exact Hb. }
  split.
  - apply Qle_shift_div_l; [exact HbQ|]. rewrite Qmult_0_l.
    change 0%Q with (inject_Z 0). rewrite <- Zle_Qle. exact Ha.
  - apply Qle_shift_div_r; [exact HbQ|]. rewrite Qmult_1_l.
    rewrite <- Zle_Qle. exact Hab.
Qed.

(** A dead agent is dead a month later. *)
Lemma month_dead_stays s a a' :
  month_out config s a a' -> Agent.S a = 0%Z -> Agent.S a' = 0%Z.
Proof.
  intros Hm Hd. apply dead_month in Hm; [|exact Hd]. subst a'. exact Hd.
Qed.

Lemma count_dead_monotone l l' :
  Forall2 (fun a a' => Agent.S a = 0%Z -> Agent.S a' = 0%Z) l l' ->
  (count_if is_dead l <= count_if is_dead l')%Z.
Proof.
  unfold count_if, is_dead.
  induction 1 as [|a a' l l' HS _ IH]; cbn; [lia|].
  destruct (Agent.S a =? 0)%Z eqn:E.
  - apply Z.eqb_eq in E. rewrite (HS E). cbn. lia.
  - destruct (Agent.S a' =? 0)%Z; cbn; lia.
Qed.

Lemma steps_dead_monotone d model g model' g' :
  repeat_m d (StartupModel.step config) model g = Ok (model', g') ->
  (count_if is_dead (agents (schedule model))
   <= count_if is_dead (agents (schedule model')))%Z.
Proof.
  revert model g. induction d as [|d IH]; intros model g Hrun; cbn in Hrun.
  - apply ret_Ok in Hrun. injection Hrun as -> ->. lia.
  - apply bind_Ok in Hrun as (m1 & g1 & Hstep & Hrun).
    apply step_spec in Hstep as (Hagents & _).
    etransitivity; [|eapply IH; exact Hrun].
    apply count_dead_monotone.
    eapply Forall2_impl; [exact Hagents|].
    intros a a' Hm. eapply month_dead_stays, Hm.
Qed.

(** The rows that a loop of months appends, and the states they are rows
    of. *)
Lemma steps_rows n model g model' g' :
  repeat_m n (StartupModel.step config) model g = Ok (model', g') ->
  exists rows,
    model_vars (datacollector model')
    = model_vars (datacollector model) ++ rows /\
    length rows = n /\
    forall k, (k < n)%nat ->
      exists mk gk r,
        repeat_m k (StartupModel.step config) model g = Ok (mk, gk) /\
        StartupModel.model_row mk gk = Ok (r, gk) /\
        rows !! k = Some r.
Proof.
  revert model g. induction n as [|n IH]; intros model g Hrun;
    cbn [repeat_m] in Hrun.
  - apply ret_Ok in Hrun. injection Hrun as -> ->.
    exists []. rewrite app_nil_r. repeat split. intros k Hk. lia.
  - apply bind_Ok in Hrun as (m1 & g1 & Hstep & Hrun).
    pose proof (step_world config _ _ _ _ Hstep)
      as (r0 & _ & Hrow & Hvars & _).
    destruct (IH _ _ Hrun) as (rows & Hvars' & Hlen & Hk).
    exists (r0 :: rows). split; [|split].
    + rewrite Hvars', Hvars, <- app_assoc. reflexivity.
    + cbn. lia.
    + intros [|k] Hlt.
      * exists model, g, r0. repeat split. exact Hrow.
      * destruct (Hk k ltac:(lia)) as (mk & gk & r & Hmk & Hr & Hlook).
        exists mk, gk, r. split; [|split; assumption].
        cbn [repeat_m]. apply bind_Ok. eauto.
Qed.

(** The series of a completed run, row by row. *)
Lemma series_rows num_startups seed horizon g model g' :
  StartupModel.simulate config num_startups seed horizon g
  = Ok (model, g') ->
  length (StartupModel.get_model_data model)
  = Datatypes.S (Z.to_nat horizon) /\
  (exists mh,
     month_state config num_startups seed (Z.to_nat horizon) g
     = Ok (mh, g') /\
     schedule model = schedule mh) /\
  forall k, (k <= Z.to_nat horizon)%nat ->
    exists mk gk r,
      month_state config num_startups seed k g = Ok (mk, gk) /\
      StartupModel.model_row mk gk = Ok (r, gk) /\
      StartupModel.get_model_data model !! k = Some r.
Proof.
  unfold StartupModel.simulate, StartupModel.run_model. intros Hrun.
  apply bind_Ok in Hrun as (m0 & g0 & Hinit & Hrun).
  apply bind_Ok in Hrun as (mh & gh & Hloop & Hcollect).
  pose proof (init_spec _ _ _ _ _ _ Hinit) as (_ & _ & _ & Hvars0 & _).
  destruct (steps_rows _ _ _ _ _ Hloop) as (rows & Hvars & Hlen & Hk).
  rewrite Hvars0 in Hvars. cbn in Hvars.
  pose proof (collect_spec _ _ _ _ Hcollect) as (-> & _).
  apply collect_row in Hcollect as (rh & Hrow & Hvars' & Hsched & _).
  unfold StartupModel.get_model_data. rewrite Hvars', Hvars.
  assert (Hmh : month_state config num_startups seed (Z.to_nat horizon) g
                = Ok (mh, gh)).
  { unfold month_state. apply bind_Ok. eauto. }
  split; [rewrite length_app, Hlen; cbn; lia|].
  split; [eauto|].
  intros k Hle. destruct (Nat.eq_dec k (Z.to_nat horizon)) as [->|Hne].
  - exists mh, gh, rh. split; [exact Hmh|]. split; [exact Hrow|].
    rewrite lookup_app_r by lia. rewrite Hlen, Nat.sub_diag. reflexivity.
  - destruct (Hk k ltac:(lia)) as (mk & gk & r & Hmk & Hr & Hlook).
    exists mk, gk, r. split; [|split; [exact Hr|]].
    + unfold month_state. apply bind_Ok. eauto.
    + rewrite lookup_app_l by lia. exact Hlook.
Qed.

Lemma series_row_state num_startups seed horizon g model g' k r :
  StartupModel.simulate config num_startups seed horizon g
  = Ok (model, g') ->
  StartupModel.get_model_data model !! k = Some r ->
  exists mk gk,
    month_state config num_startups seed k g = Ok (mk, gk) /\
    StartupModel.model_row mk gk = Ok (r, gk).
Proof.
  intros Hrun Hlook.
  destruct (series_rows _ _ _ _ _ _ Hrun) as (Hlen & _ & Hk).
  apply lookup_lt_Some in Hlook as Hlt. rewrite Hlen in Hlt.
  destruct (Hk k ltac:(lia)) as (mk & gk & r' & Hmk & Hr & Hlook').
  rewrite Hlook in Hlook'. injection Hlook' as <-. eauto.
Qed.

(** A state whose row can be computed has agents, hence a positive
    population. *)
Lemma row_population num_startups seed t g mk gk r :
  month_state config num_startups seed t g = Ok (mk, gk) ->
  StartupModel.model_row mk gk = Ok (r, gk) ->
  (0 < num_startups)%Z /\
  Z.of_nat (length (agents (schedule mk))) = num_startups /\
  initial_startups mk = num_startups.
Proof.
  intros Hmk Hr.
  apply month_state_populated in Hmk as [Hn Hlen].
  apply model_row_spec in Hr as (_ & Hne & _).
  destruct (agents (schedule mk)) as [|a l] eqn:El; [congruence|].
  cbn in Hlen. split; [lia|]. split; [cbn; lia | exact Hn].
Qed.

End SeriesLemmas.

Section WorldInvariants.
Context `{Numpy} (config : Config).

(** Without a shock the shock stage returns the model it was given. *)
Lemma apply_shocks_quiet model g :
  random_nonneg -> (P_SHOCK config <= 0)%Q ->
  StartupModel.apply_shocks config model g
  = Ok (model, snd (sample_random g)).
Proof.
  intros Hr Hp.
  unfold StartupModel.apply_shocks, np_random_random, bind, ret.
  pose proof (Hr g) as Hu. destruct (sample_random g) as [u gu]. cbn in *.
  assert (E : Qlt_bool u (P_SHOCK config) = false).
  { apply Qlt_bool_false. eapply Qle_trans; eassumption. }
  rewrite E. reflexivity.
Qed.

Lemma month_state_market_quiet num_startups seed t g model g' :
  random_nonneg -> (P_SHOCK config <= 0)%Q ->
  month_state config num_startups seed t g = Ok (model, g') ->
  market_size model = grown config t (M0_INITIAL config).
Proof.
  intros Hr Hp. revert model g'. induction t as [|t IH]; intros model g' Hrun.
  - apply month_state_zero, init_world in Hrun as [HM _]. exact HM.
  - apply month_state_succ in Hrun as (m0 & g0 & Ht & Hstep).
    apply IH in Ht.
    apply step_inv in Hstep
      as (mc & m1 & g1 & m2 & m3 & Hc & Hshock & Hmarket & Hstages & ->).
    rewrite (apply_shocks_quiet mc g0 Hr Hp) in Hshock.
    injection Hshock as <- _.
    apply collect_row in Hc as (_ & _ & _ & _ & HM & _). cbn in HM.
    apply update_market_spec in Hmarket as (_ & _ & HM2 & _).
    apply run_stages_spec in Hstages as (Hworld & _).
    rewrite Hworld. cbn. rewrite HM2, HM, Ht. reflexivity.
Qed.

Lemma month_state_market_nonneg num_startups seed t g model g' :
  (0 <= M0_INITIAL config)%Q -> (0 <= 1 + GROWTH_RATE_M config)%Q ->
  month_state config num_startups seed t g = Ok (model, g') ->
  (0 <= market_size model)%Q.
Proof.
  intros H0 Hg. revert model g'. induction t as [|t IH]; intros model g' Hrun.
  - apply month_state_zero, init_world in Hrun as [HM _]. rewrite HM.
    exact H0.
  - apply month_state_succ in Hrun as (m0 & g0 & Ht & Hstep).
    apply IH in Ht.
    apply step_world in Hstep as (r & shocked & _ & _ & Hsh & HM & _).
    rewrite HM. apply Qmult_le_0_compat; [|exact Hg].
    destruct Hsh as [->|(delta_m & ->)]; [exact Ht | apply py_max_ge_l].
Qed.

(** The competition index of a state: 0 at construction, afterwards the
    alive fraction of the state one month before. *)
Lemma month_state_competition num_startups seed t g model g' :
  month_state config num_startups seed (Datatypes.S t) g = Ok (model, g') ->
  exists m0 g0,
    month_state config num_startups seed t g = Ok (m0, g0) /\
    (0 < num_startups)%Z /\
    competition_index model
    = (inject_Z (count_if is_alive (agents (schedule m0)))
       / inject_Z num_startups)%Q.
Proof.
  intros Hrun.
  apply month_state_succ in Hrun as (m0 & g0 & Ht & Hstep).
  apply step_world in Hstep as (r & _ & Hrow & _ & _ & _ & _ & Hth & _).
  destruct (row_population config _ _ _ _ _ _ _ Ht Hrow) as (Hpos & _ & Hn).
  rewrite Hn in Hth. eauto.
Qed.

Lemma month_state_competition_range num_startups seed t g model g' :
  month_state config num_startups seed t g = Ok (model, g') ->
  (0 <= competition_index model <= 1)%Q.
Proof.
  destruct t as [|t]; intros Hrun.
  - apply month_state_zero, init_world in Hrun as [_ Hth]. rewrite Hth.
    split; discriminate.
  - apply month_state_competition in Hrun
      as (m0 & g0 & Ht & Hpos & ->).
    apply month_state_populated in Ht as [_ Hlen].
    apply ratio_in_unit; [|exact Hpos].
    pose proof (count_if_bounds is_alive (agents (schedule m0))). lia.
Qed.


(** X8.  In every row of the series of a completed run the alive and
    dead counts add up to the population, and the failure rate is the
    dead count over the population, a value between 0 and 1. *)
Theorem X8_row_counts_partition
    (num_startups : Z) (seed : option Z) (horizon : Z) (g : rng)
    (model : Model) (g' : rng) (k : nat) (r : ModelRow) :
  StartupModel.simulate config num_startups seed horizon g
  = Ok (model, g') ->
  StartupModel.get_model_data model !! k = Some r ->
  (Alive_Startups r + Dead_Startups r)%Z = num_startups /\
  (0 <= Alive_Startups r)%Z /\ (0 <= Dead_Startups r)%Z /\
  Failure_Rate r = (inject_Z (Dead_Startups r) / inject_Z num_startups)%Q /\
  (0 <= Failure_Rate r <= 1)%Q.
Proof.
  intros Hrun Hlook.
  destruct (series_row_state config _ _ _ _ _ _ _ _ Hrun Hlook)
    as (mk & gk & Hmk & Hr).
  destruct (row_population config _ _ _ _ _ _ _ Hmk Hr) as (Hpos & Hlen & _).
  pose proof (counts_partition _ (month_state_flags config _ _ _ _ _ _ Hmk))
    as Hsum.
  apply model_row_spec in Hr as (_ & _ & -> & -> & -> & _).
  pose proof (count_if_bounds is_alive (agents (schedule mk))).
  pose proof (count_if_bounds is_dead (agents (schedule mk))).
  rewrite Hlen in *.
  split; [exact Hsum|]. split; [lia|]. split; [lia|].
  split; [reflexivity|]. apply ratio_in_unit; lia.
Qed.

(** X9.  Failures accumulate: along the series of a completed run the
    dead count never decreases and the alive count never increases. *)
Theorem X9_failures_accumulate
    (num_startups : Z) (seed : option Z) (horizon : Z) (g : rng)
    (model : Model) (g' : rng) (i j : nat) (ri rj : ModelRow) :
  StartupModel.simulate config num_startups seed horizon g
  = Ok (model, g') ->
  (i <= j)%nat ->
  StartupModel.get_model_data model !! i = Some ri ->
  StartupModel.get_model_data model !! j = Some rj ->
  (Dead_Startups ri <= Dead_Startups rj)%Z /\
  (Alive_Startups rj <= Alive_Startups ri)%Z.
Proof.
  intros Hrun Hij Hi Hj.
  destruct (series_row_state config _ _ _ _ _ _ _ _ Hrun Hi)
    as (mi & gi & Hmi & Hri).
  destruct (series_row_state config _ _ _ _ _ _ _ _ Hrun Hj)
    as (mj & gj & Hmj & Hrj).
  pose proof (counts_partition _ (month_state_flags config _ _ _ _ _ _ Hmi))
    as Hsi.
  pose proof (counts_partition _ (month_state_flags config _ _ _ _ _ _ Hmj))
    as Hsj.
  destruct (month_state_populated config _ _ _ _ _ _ Hmi) as [_ Hli].
  destruct (month_state_populated config _ _ _ _ _ _ Hmj) as [_ Hlj].
  assert (Hmono : (count_if is_dead (agents (schedule mi))
                   <= count_if is_dead (agents (schedule mj)))%Z).
  { pose proof Hmj as Hmj'.
    replace j with (i + (j - i))%nat in Hmj' by lia.
    apply month_state_later in Hmj' as (mi' & gi' & Hmi' & Hrest).
    rewrite Hmi in Hmi'. injection Hmi' as <- <-.
    eapply steps_dead_monotone, Hrest. }
  apply model_row_spec in Hri as (_ & _ & -> & -> & _).
  apply model_row_spec in Hrj as (_ & _ & -> & -> & _).
  split; [exact Hmono|]. rewrite Hli in Hsi. rewrite Hlj in Hsj. lia.
Qed.

(** X10.  The competition index lags by one month: the first row of the
    series records 0, and every later row records the alive count of the
    row before it over the population, because the index is computed at
    the start of a month, before that month's deaths.  It is between 0
    and 1 in every row. *)
Theorem X10_competition_index_lags
    (num_startups : Z) (seed : option Z) (horizon : Z) (g : rng)
    (model : Model) (g' : rng) :
  StartupModel.simulate config num_startups seed horizon g
  = Ok (model, g') ->
  (forall r, StartupModel.get_model_data model !! O = Some r ->
             Competition_Index r = 0%Q) /\
  (forall k r r',
     StartupModel.get_model_data model !! k = Some r ->
     StartupModel.get_model_data model !! Datatypes.S k = Some r' ->
     Competition_Index r'
     = (inject_Z (Alive_Startups r) / inject_Z num_startups)%Q) /\
  (forall k r, StartupModel.get_model_data model !! k = Some r ->
               (0 <= Competition_Index r <= 1)%Q).
Proof.
  intros Hrun. split; [|split].
  - intros r Hlook.
    destruct (series_row_state config _ _ _ _ _ _ _ _ Hrun Hlook)
      as (m0 & g0 & Hm0 & Hr).
    apply model_row_spec in Hr as (_ & _ & _ & _ & _ & _ & ->).
    apply month_state_zero, init_world in Hm0 as [_ Hth]. exact Hth.
  - intros k r r' Hk Hk'.
    destruct (series_row_state config _ _ _ _ _ _ _ _ Hrun Hk)
      as (mk & gk & Hmk & Hr).
    destruct (series_row_state config _ _ _ _ _ _ _ _ Hrun Hk')
      as (mk' & gk' & Hmk' & Hr').
    apply month_state_competition in Hmk' as (m0 & g0 & Hm0 & _ & Hth).
    rewrite Hmk in Hm0. injection Hm0 as <- <-.
    apply model_row_spec in Hr as (_ & _ & -> & _).
    apply model_row_spec in Hr' as (_ & _ & _ & _ & _ & _ & ->).
    exact Hth.
  - intros k r Hlook.
    destruct (series_row_state config _ _ _ _ _ _ _ _ Hrun Hlook)
      as (mk & gk & Hmk & Hr).
    apply model_row_spec in Hr as (_ & _ & _ & _ & _ & _ & ->).
    eapply month_state_competition_range, Hmk.
Qed.

(** X11.  With a shock probability that is not positive (and [random()]
    never negative) no shock ever occurs, and row [k] of the series
    records the initial market size grown [k] times by the factor
    [1 + GROWTH_RATE_M]. *)
Theorem X11_market_size_without_shocks
    (num_startups : Z) (seed : option Z) (horizon : Z) (g : rng)
    (model : Model) (g' : rng) (k : nat) (r : ModelRow) :
  random_nonneg ->
  (P_SHOCK config <= 0)%Q ->
  StartupModel.simulate config num_startups seed horizon g
  = Ok (model, g') ->
  StartupModel.get_model_data model !! k = Some r ->
  Market_Size r = grown config k (M0_INITIAL config).
Proof.
  intros Hrand Hp Hrun Hlook.
  destruct (series_row_state config _ _ _ _ _ _ _ _ Hrun Hlook)
    as (mk & gk & Hmk & Hr).
  apply model_row_spec in Hr as (_ & _ & _ & _ & _ & -> & _).
  eapply month_state_market_quiet; eassumption.
Qed.

(** X12.  With an initial market size and a growth factor
    [1 + GROWTH_RATE_M] that are not negative, the market size recorded
    in every row of the series is not negative, whatever shocks
    occurred. *)
Theorem X12_market_size_never_negative
    (num_startups : Z) (seed : option Z) (horizon : Z) (g : rng)
    (model : Model) (g' : rng) (k : nat) (r : ModelRow) :
  (0 <= M0_INITIAL config)%Q ->
  (0 <= 1 + GROWTH_RATE_M config)%Q ->
  StartupModel.simulate config num_startups seed horizon g
  = Ok (model, g') ->
  StartupModel.get_model_data model !! k = Some r ->
  (0 <= Market_Size r)%Q.
Proof.
  intros H0 Hg Hrun Hlook.
  destruct (series_row_state config _ _ _ _ _ _ _ _ Hrun Hlook)
    as (mk & gk & Hmk & Hr).
  apply model_row_spec in Hr as (_ & _ & _ & _ & _ & -> & _).
  eapply month_state_market_nonneg; eassumption.
Qed.

End WorldInvariants.

(** ** Revenue while nobody has died *)

Lemma py_max_Qeq (x y y' : Q) : (y == y')%Q -> (py_max x y == py_max x y')%Q.
Proof.
  intros Hy. unfold py_max, Qlt_bool. rewrite Hy.
  destruct (Qle_bool y' x); [reflexivity | exact Hy].
Qed.

Lemma count_alive_all (l : list Agent.t) :
  Forall (fun a => Agent.S a = 1%Z) l ->
  count_if is_alive l = Z.of_nat (length l).
Proof.
  unfold count_if, is_alive.
  induction 1 as [|a l HS _ IH]; cbn; [reflexivity|].
  rewrite HS. cbn. lia.
Qed.

Lemma Qdiv_same (n : Z) : (0 < n)%Z -> (inject_Z n / inject_Z n == 1)%Q.
Proof.
  intros Hn. unfold Qdiv. apply Qmult_inv_r.
  intros E. assert (Hlt : (0 < inject_Z n)%Q).
  { change 0%Q with (inject_Z 0). rewrite <- Zlt_Qlt. exact Hn. }
  rewrite E in Hlt. exact (Qlt_irrefl _ Hlt).
Qed.

Section Saturation.
Context `{Numpy} (config : Config).

Lemma six_stages_inv model a0 a' :
  stages_out config (drop 2 stage_list) model a0 a' ->
  exists a1 a2 a3 a4 a5,
    stage_out config Stage_consumer_adoption model a0 a1 /\
    stage_out config Stage_internal_dynamics model a1 a2 /\
    stage_out config Stage_capital_update model a2 a3 /\
    stage_out config Stage_pmf_valuation_update model a3 a4 /\
    stage_out config Stage_funding model a4 a5 /\
    stage_out config Stage_policy model a5 a'.
Proof.
  cbn. intros (a1 & H1 & a2 & H2 & a3 & H3 & a4 & H4 & a5 & H5 &
               a6 & H6 & ->).
  exists a1, a2, a3, a4, a5. auto 10.
Qed.

(** With the competition index at 1 the expected revenue vanishes, and
    the revenue of a live agent is its noise draw floored at 0. *)
Lemma consumer_adoption_saturated model a a' :
  (competition_index model == 1)%Q ->
  Agent.S a <> 0%Z ->
  stage_out config Stage_consumer_adoption model a a' ->
  exists gn,
    (Agent.R a'
     == py_max 0 (fst (sample_normal 0 (SIGMA_R config) gn)))%Q.
Proof.
  intros Hth Hlive (g & g' & Hcall). apply Z.eqb_neq in Hlive.
  unfold StartupModel.call_stage, StartupAgent.stage_consumer_adoption,
    np_random_normal, bind, ret in Hcall.
  rewrite Hlive in Hcall.
  destruct (Qlt_bool (SIGMA_R config) 0); [discriminate|].
  destruct (sample_normal 0 (SIGMA_R config) g) as [eps g1] eqn:Heps.
  injection Hcall as <- _. exists g. rewrite Heps. cbn.
  apply py_max_Qeq. rewrite Hth. ring.
Qed.

(** X13.  While no startup has died, revenue is pure noise: if every
    agent is alive in the state after [t] months, then in the state after
    [t + 1] months the revenue of every agent equals [max(0, e)] for a
    draw [e] of the revenue noise.  The competition index of that month
    is 1, so the expected revenue [M * p * q * (1 - theta)] is 0 whatever
    the market size and the PMF. *)
Theorem X13_revenue_is_noise_while_all_alive
    (num_startups : Z) (seed : option Z) (g : rng) (t : nat)
    (m0 : Model) (g0 : rng) (model : Model) (g' : rng) :
  month_state config num_startups seed t g = Ok (m0, g0) ->
  Forall (fun a => Agent.S a = 1%Z) (agents (schedule m0)) ->
  month_state config num_startups seed (Datatypes.S t) g = Ok (model, g') ->
  Forall (fun a =>
            exists gn,
              (Agent.R a
               == py_max 0 (fst (sample_normal 0 (SIGMA_R config) gn)))%Q)
         (agents (schedule model)).
Proof.
  intros Ht Hall Hrun.
  apply month_state_succ in Hrun as (m0' & g0' & Ht' & Hstep).
  rewrite Ht in Ht'. injection Ht' as <- <-.
  apply step_world in Hstep
    as (r & _ & Hrow & _ & _ & _ & _ & Hth & Hagents).
  destruct (row_population config _ _ _ _ _ _ _ Ht Hrow)
    as (Hpos & Hlen & Hn).
  rewrite (count_alive_all _ Hall), Hlen, Hn in Hth.
  assert (Hone : (competition_index model == 1)%Q)
    by (rewrite Hth; apply Qdiv_same, Hpos).
  clear -Hagents Hall Hone.
  induction Hagents as [|a a' l l' Ha _ IH]; [constructor|].
  inversion Hall as [|? ? HS Hall']; subst.
  constructor; [|apply IH, Hall'].
  destruct Ha as (m & a0 & Hm & Hshock & Hout).
  apply shock_out_frame in Hshock as (_ & _ & _ & _ & HS0 & _).
  apply six_stages_inv in Hout
    as (a1 & a2 & a3 & a4 & a5 & H1 & H2 & H3 & H4 & H5 & H6).
  destruct (consumer_adoption_saturated m a0 a1) as (gn & HR);
    [rewrite Hm; exact Hone | rewrite HS0, HS; discriminate | exact H1 |].
  destruct H2 as (? & ? & H2), H3 as (? & ? & H3), H4 as (? & ? & H4),
    H5 as (? & ? & H5), H6 as (? & ? & H6).
  apply stage_frame in H2 as (_ & E2 & _), H3 as (_ & E3 & _),
    H4 as (_ & E4 & _), H5 as (_ & E5 & _), H6 as (_ & E6 & _).
  exists gn.
  rewrite E6, E5, E4, E3, E2 by discriminate. exact HR.
Qed.

End Saturation.

(** ** The queries *)

#[export] Instance Qle_total : Total Qle.
Proof.
  intros x y. destruct (Qlt_le_dec x y) as [Hlt|Hle];
    [left; apply Qlt_le_weak, Hlt | right; exact Hle].
Qed.

#[export] Instance Qle_transitive : Transitive Qle.
Proof. intros x y z. apply Qle_trans. Qed.

Lemma count_if_and_le (p q : Agent.t -> bool) (l : list Agent.t) :
  (count_if (fun a => p a && q a) l <= count_if p l)%Z.
Proof.
  unfold count_if. induction l as [|a l IH]; cbn; [lia|].
  destruct (p a), (q a); cbn in *; lia.
Qed.

Lemma sorted_nth_le (s : list Q) :
  StronglySorted Qle s ->
  forall i j, (i <= j)%nat -> (j < length s)%nat ->
              (nth i s 0 <= nth j s 0)%Q.
Proof.
  induction 1 as [|x s Hs IH Hx]; intros i j Hij Hj; cbn in Hj; [lia|].
  destruct i as [|i], j as [|j]; cbn; try lia.
  - apply Qle_refl.
  - rewrite List.Forall_forall in Hx. apply Hx, nth_In. lia.
  - apply IH; lia.
Qed.

(** The percentile, for a rank between 0 and 100, is at most one of the
    values. *)
Lemma np_percentile_le_elem (l : list Q) (q : Q) :
  l <> [] -> (0 <= q <= 100)%Q ->
  exists v, In v l /\ (np_percentile l q <= v)%Q.
Proof.
  intros Hne [Hq0 Hq1]. unfold np_percentile.
  set (s := merge_sort Qle l). set (n := length l).
  set (vi := (inject_Z (Z.of_nat (n - 1)) * (q / 100))%Q).
  assert (Hn : (0 < n)%nat) by (destruct l; [congruence | cbn; lia]).
  assert (Hperm : s ≡ₚ l) by apply merge_sort_Permutation.
  assert (Hlen : length s = n) by (apply Permutation_length, Hperm).
  assert (Hsorted : StronglySorted Qle s)
    by (apply StronglySorted_merge_sort; typeclasses eauto).
  assert (Hn1 : (0 <= inject_Z (Z.of_nat (n - 1)))%Q).
  { change 0%Q with (inject_Z 0). rewrite <- Zle_Qle. lia. }
  assert (Hq : (0 <= q / 100 <= 1)%Q).
  { split; [apply Qle_shift_div_l; [reflexivity | lra]
           | apply Qle_shift_div_r; [reflexivity | lra]]. }
  assert (Hvi : (0 <= vi <= inject_Z (Z.of_nat (n - 1)))%Q)
    by (unfold vi; split; nra).
  assert (Hfl0 : (0 <= Qfloor vi)%Z).
  { rewrite <- (Qfloor_Z 0). apply Qfloor_resp_le, Hvi. }
  assert (Hfl1 : (Qfloor vi <= Z.of_nat (n - 1))%Z).
  { rewrite <- (Qfloor_Z (Z.of_nat (n - 1))). apply Qfloor_resp_le, Hvi. }
  set (lo := Z.to_nat (Qfloor vi)). set (hi := Nat.min (lo + 1) (n - 1)).
  assert (Hlo : (lo <= n - 1)%nat) by (unfold lo; lia).
  assert (Hhi : (lo <= hi /\ hi < n)%nat) by (unfold hi; lia).
  assert (Hgamma : (0 <= vi - inject_Z (Qfloor vi) <= 1)%Q).
  { pose proof (Qfloor_le vi). pose proof (Qlt_floor vi) as Hlt.
    rewrite inject_Z_plus in Hlt. change (inject_Z 1) with 1%Q in Hlt.
    split; lra. }
  assert (Hab : (nth lo s 0 <= nth hi s 0)%Q)
    by (apply sorted_nth_le; [exact Hsorted | lia | lia]).
  exists (nth hi s 0%Q). split.
  - apply (Permutation_in _ Hperm), nth_In. lia.
  - nra.
Qed.

(** X14.  In every month state the success count is at most the alive
    count, and successes and deaths together never exceed the number of
    agents: a dead startup is not counted as a success even when the
    valuation it kept is above the exit threshold. *)
Theorem X14_success_count_bounds `{Numpy}
    (config : Config) (rc : RunConfig)
    (num_startups : Z) (seed : option Z) (g : rng) (t : nat)
    (model : Model) (g' : rng) :
  month_state config num_startups seed t g = Ok (model, g') ->
  (0 <= get_success_count rc model
   <= count_if is_alive (agents (schedule model)))%Z /\
  (get_success_count rc model + count_if is_dead (agents (schedule model))
   <= Z.of_nat (length (agents (schedule model))))%Z.
Proof.
  intros Hrun.
  pose proof (counts_partition _ (month_state_flags config _ _ _ _ _ _ Hrun))
    as Hsum.
  pose proof (count_if_and_le is_alive
                (fun a => Qle_bool (V_EXIT rc) (Agent.V a))
                (agents (schedule model))) as Hle.
  pose proof (count_if_bounds
                (fun a => is_alive a && Qle_bool (V_EXIT rc) (Agent.V a))
                (agents (schedule model))) as Hb.
  unfold get_success_count. cbn beta in Hle. lia.
Qed.

(** X15.  When at least one startup is alive, [get_top_10_percent_count]
    is at least 1 and at most the alive count: the 90th percentile of
    the alive valuations never lies above all of them. *)
Theorem X15_top_decile_is_never_empty (model : Model) :
  (0 < count_if is_alive (agents (schedule model)))%Z ->
  (1 <= get_top_10_percent_count model
   <= count_if is_alive (agents (schedule model)))%Z.
Proof.
  unfold get_top_10_percent_count, count_if.
  destruct (List.filter is_alive (agents (schedule model))) as [|a l] eqn:El;
    [cbn; lia|].
  intros _. set (vals := map Agent.V (a :: l)).
  destruct (np_percentile_le_elem vals 90) as (v & Hin & Hle);
    [discriminate | split; discriminate |].
  split.
  - assert (Hv : In v (List.filter
                         (fun v => Qle_bool (np_percentile vals 90) v) vals)).
    { apply List.filter_In. split; [exact Hin | apply Qle_bool_iff, Hle]. }
    destruct (List.filter _ vals); [destruct Hv | cbn; lia].
  - pose proof (List.filter_length_le
                  (fun v => Qle_bool (np_percentile vals 90) v) vals) as Hlen.
    assert (Hl : length vals = length (a :: l))
      by (unfold vals; apply length_map).
    rewrite Hl in Hlen. lia.
Qed.

(** ** The drivers *)

Section DriverLemmas.
Context `{Numpy} (config : Config) (rc : RunConfig).

(** A seeded single run does not look at the generator it is given. *)
Lemma run_single_seeded run_number s g1 g2 :
  run_single_simulation config rc run_number (Some s) g1
  = match run_single_simulation config rc run_number (Some s) g2 with
    | Ok (m, g) => Ok (m, g)
    | Raise e => Raise e
    end.
Proof.
  unfold run_single_simulation, StartupModel.init, bind, np_random_seed.
  cbn. destruct (seed_state (s + run_number)); [|reflexivity].
  destruct (repeat_m _ _ _ _) as [[l gl]|e]; [|reflexivity]. cbn.
  destruct (StartupModel.run_model _ _ _ _) as [[m gm]|e]; [|reflexivity].
  destruct (py_int_div _ _ gm) as [[? ?]|?]; [|reflexivity].
  destruct (py_int_div _ _ _) as [[? ?]|?]; [|reflexivity].
  destruct (py_int_div _ _ _) as [[? ?]|?]; reflexivity.
Qed.

(** A single run that returns is the simulation with the derived seed. *)
Lemma run_single_is_simulate run_number seed g model g' :
  run_single_simulation config rc run_number seed g = Ok (model, g') ->
  StartupModel.simulate config (NUM_STARTUPS rc)
    (model_seed rc run_number seed) (TIME_HORIZON rc) g = Ok (model, g').
Proof.
  unfold run_single_simulation, StartupModel.simulate. intros Hrun.
  apply bind_Ok in Hrun as (m0 & g0 & Hinit & Hrun).
  apply bind_Ok in Hrun as (m1 & g1 & Hmodel & Hrun).
  apply bind_Ok in Hrun as (? & ? & H1 & Hrun).
  apply bind_Ok in Hrun as (? & ? & H2 & Hrun).
  apply bind_Ok in Hrun as (? & ? & H3 & Hrun).
  apply ret_Ok in Hrun. injection Hrun as -> ->.
  unfold py_int_div, raise, ret in H1, H2, H3.
  destruct (NUM_STARTUPS rc =? 0)%Z; [discriminate|].
  injection H1 as _ <-. injection H2 as _ <-. injection H3 as _ <-.
  apply bind_Ok. eauto.
Qed.

Lemma monte_carlo_loop_spec n i s models g models' g' :
  monte_carlo_loop config rc n i (Some s) models g = Ok (models', g') ->
  exists new,
    models' = models ++ new /\
    length new = n /\
    forall k m, new !! k = Some m ->
      forall g0, exists g1,
        run_single_simulation config rc (i + Z.of_nat k) (Some s) g0
        = Ok (m, g1).
Proof.
  revert i models g. induction n as [|n IH]; intros i models g Hrun;
    cbn [monte_carlo_loop] in Hrun.
  - apply ret_Ok in Hrun. injection Hrun as -> ->.
    exists []. rewrite app_nil_r. repeat split. intros k m Hk.
    rewrite lookup_nil in Hk. discriminate.
  - apply bind_Ok in Hrun as (m0 & g0 & Hone & Hrun).
    destruct (IH _ _ _ Hrun) as (new & -> & Hlen & Hk).
    exists (m0 :: new). split; [rewrite <- app_assoc; reflexivity|].
    split; [cbn; lia|].
    intros [|k] m Hlook ga; cbn in Hlook.
    + injection Hlook as <-. rewrite Z.add_0_r.
      pose proof (run_single_seeded i s ga g) as E. rewrite Hone in E.
      eauto.
    + destruct (Hk k m Hlook ga) as (g1 & Hm).
      exists g1. rewrite <- Hm. f_equal. lia.
Qed.

(** X16.  A seeded Monte Carlo batch that returns holds one model per
    requested run, and the model of run [k] is reproducible on its own:
    from any generator state, the single run number [k] with the same
    base seed returns that model, which is the simulation of
    [NUM_STARTUPS] startups over [TIME_HORIZON] months constructed with
    seed [s + k].  Earlier runs of the batch have no influence on later
    ones. *)
Theorem X16_monte_carlo_runs_are_reproducible
    (num_runs s : Z) (g : rng) (models : list Model) (g' : rng) :
  run_monte_carlo config rc num_runs (Some s) g = Ok (models, g') ->
  length models = Z.to_nat num_runs /\
  forall k m, models !! k = Some m ->
    forall g0, exists g1,
      run_single_simulation config rc (Z.of_nat k) (Some s) g0
      = Ok (m, g1) /\
      StartupModel.simulate config (NUM_STARTUPS rc)
        (Some (s + Z.of_nat k)%Z) (TIME_HORIZON rc) g0 = Ok (m, g1).
Proof.
  unfold run_monte_carlo. intros Hrun.
  apply bind_Ok in Hrun as (ms & g1 & Hloop & Hrun).
  destruct (num_runs =? 0)%Z; [discriminate|].
  apply ret_Ok in Hrun. injection Hrun as -> ->.
  apply monte_carlo_loop_spec in Hloop as (new & -> & Hlen & Hk).
  split; [exact Hlen|].
  intros k m Hlook g0. destruct (Hk k m Hlook g0) as (g2 & Hone).
  exists g2. split; [exact Hone|].
  apply run_single_is_simulate in Hone. exact Hone.
Qed.

(** X17.  A Monte Carlo batch without runs: asked for zero runs,
    [run_monte_carlo] raises [ZeroDivisionError], because after the empty
    loop the average time per run divides by the number of runs; asked
    for a negative number, it returns the empty list and leaves the
    generator as it was. *)
Theorem X17_monte_carlo_without_runs
    (num_runs : Z) (seed : option Z) (g : rng) :
  (num_runs <= 0)%Z ->
  run_monte_carlo config rc num_runs seed g
  = if (num_runs =? 0)%Z then Raise ZeroDivisionError else Ok ([], g).
Proof.
  intros Hle. unfold run_monte_carlo, bind.
  replace (Z.to_nat num_runs) with O by lia. cbn.
  destruct (num_runs =? 0)%Z; reflexivity.
Qed.

End DriverLemmas.

(** ** Edge cases of a run *)

Section RunEdges.
Context `{Numpy} (config : Config).

(** X18.  A population that is not positive cannot be run: with a seed
    NumPy accepts, constructing the model succeeds with no agents, and
    [run_model] raises [ZeroDivisionError] at its first collection,
    whatever the horizon, because the failure rate divides by the number
    of agents. *)
Theorem X18_empty_population_raises
    (num_startups horizon : Z) (seed : option Z) (g : rng) :
  (num_startups <= 0)%Z ->
  seed_accepted seed ->
  StartupModel.simulate config num_startups seed horizon g
  = Raise ZeroDivisionError.
Proof.
  intros Hle Hseed.
  unfold StartupModel.simulate, StartupModel.init, StartupModel.run_model,
    bind.
  replace (Z.to_nat num_startups) with O by lia.
  assert (Hs : exists g0,
             (match seed with
              | Some s => np_random_seed s
              | None => ret tt
              end) g = Ok (tt, g0)).
  { destruct seed as [s|]; cbn; [|eauto].
    unfold np_random_seed. cbn in Hseed.
    destruct (seed_state s); [eauto | congruence]. }
  destruct Hs as (g0 & ->). cbn.
  destruct (Z.to_nat horizon); reflexivity.
Qed.

(** X19.  The agent rows stored by the last collection of a completed
    run are the reporters of the final agents, in the order of the
    schedule: their capital, burn rate, revenue, PMF, valuation, flag,
    stored funding and death time. *)
Theorem X19_final_records_are_final_agents
    (num_startups : Z) (seed : option Z) (horizon : Z) (g : rng)
    (model : Model) (g' : rng) :
  StartupModel.simulate config num_startups seed horizon g
  = Ok (model, g') ->
  StartupModel.final_agent_records model
  = map StartupModel.agent_row (agents (schedule model)).
Proof.
  unfold StartupModel.simulate, StartupModel.run_model. intros Hrun.
  apply bind_Ok in Hrun as (m0 & g0 & _ & Hrun).
  apply bind_Ok in Hrun as (mh & gh & _ & Hcollect).
  apply collect_spec in Hcollect as (_ & Hsched & _ & Hms & _ & Hrec).
  unfold StartupModel.final_agent_records, StartupModel.get_agent_data.
  rewrite Hrec, Hms, dict_get_set, Hsched. reflexivity.
Qed.

End RunEdges.

(** ** From one month to the next *)

Section MonthLaw.
Context `{Numpy} (config : Config).

Lemma capital_update_alive model a g :
  Agent.S a = 1%Z ->
  let k := (Agent.K a + Agent.R a - Agent.B a + Agent.funding_received a)%Q in
  StartupAgent.stage_capital_update model a g
  = Ok (if Qle_bool k 0 then
          Agent.set_runway (Finite 0)
            (Agent.set_death_time (Some (steps (schedule model)))
               (Agent.set_K 0
                  (Agent.set_S 0
                     (Agent.set_funding_received 0 (Agent.set_K k a)))))
        else
          Agent.set_runway
            (if Qlt_bool 0 (Agent.B a) then Finite (k / Agent.B a) else Inf)
            (Agent.set_funding_received 0 (Agent.set_K k a)), g).
Proof.
  intros HS k. unfold StartupAgent.stage_capital_update, ret.
  rewrite HS. cbn. fold k.
  destruct (Qle_bool k 0); cbn; [reflexivity|].
  rewrite HS. cbn. destruct (Qlt_bool 0 (Agent.B a)); reflexivity.
Qed.

Lemma internal_dynamics_burn model a a' :
  Agent.S a <> 0%Z ->
  stage_out config Stage_internal_dynamics model a a' ->
  Agent.B a' = burn_after_dynamics config a.
Proof.
  intros Hlive (g & g' & Hcall). apply Z.eqb_neq in Hlive.
  unfold StartupModel.call_stage, StartupAgent.stage_internal_dynamics, ret
    in Hcall.
  unfold burn_after_dynamics. rewrite Hlive in Hcall.
  destruct (Agent.just_funded a); [injection Hcall as <- _; reflexivity|].
  destruct (_ && _); injection Hcall as <- _; reflexivity.
Qed.

Lemma policy_burn model a a' :
  POLICY_INTERVAL config <> 0%Z ->
  stage_out config Stage_policy model a a' ->
  Agent.B a'
  = if (Agent.S a =? 0)%Z then Agent.B a
    else if (steps (schedule model) mod POLICY_INTERVAL config =? 0)%Z
         then py_max 0 (Agent.B a + (C_REG config - S_G config
                                     + TAU config * Agent.R a))%Q
         else Agent.B a.
Proof.
  intros Hpi (g & g' & Hcall). apply Z.eqb_neq in Hpi.
  unfold StartupModel.call_stage, StartupAgent.stage_policy,
    StartupAgent.policy_logic, py_mod, bind, ret in Hcall.
  rewrite Hpi in Hcall.
  destruct (Agent.S a =? 0)%Z; [injection Hcall as <- _; reflexivity|].
  destruct (_ mod _ =? 0)%Z; injection Hcall as <- _; reflexivity.
Qed.

(** X20.  The law from one month to the next, on the recorded fields.
    For an agent alive after [t] months, let [b] be its burn rate after
    the internal dynamics (grown if it was just funded, else cut if its
    runway is low) and [k = K + R' - b + F] with its old capital [K], the
    funding [F] it stored, and the revenue [R'] recorded one month later.
    If [k <= 0] it is dead one month later with capital 0, death time [t],
    runway 0 and burn rate [b].  Otherwise it is alive with capital [k]
    and runway [k / b] (infinite when [b] is not positive), and its burn
    rate is [b], or [max(0, b + C_REG - S_G + TAU * R')] when step [t] is a
    policy month: the runway is computed before the policy changes the
    burn rate. *)
Theorem X20_month_to_month_law
    (num_startups : Z) (seed : option Z) (g : rng) (t : nat)
    (m0 m1 : Model) (g0 g1 : rng) (i : nat) (a a' : Agent.t) :
  POLICY_INTERVAL config <> 0%Z ->
  month_state config num_startups seed t g = Ok (m0, g0) ->
  month_state config num_startups seed (Datatypes.S t) g = Ok (m1, g1) ->
  agents (schedule m0) !! i = Some a ->
  agents (schedule m1) !! i = Some a' ->
  Agent.S a = 1%Z ->
  let b := burn_after_dynamics config a in
  let k := (Agent.K a + Agent.R a' - b + Agent.funding_received a)%Q in
  ((k <= 0)%Q ->
   Agent.S a' = 0%Z /\ Agent.K a' = 0%Q /\
   Agent.death_time a' = Some (Z.of_nat t) /\
   Agent.runway a' = Finite 0 /\ Agent.B a' = b) /\
  (~ (k <= 0)%Q ->
   Agent.S a' = 1%Z /\ Agent.K a' = k /\
   Agent.runway a' = (if Qlt_bool 0 b then Finite (k / b) else Inf) /\
   Agent.B a'
   = if (Z.of_nat t mod POLICY_INTERVAL config =? 0)%Z
     then py_max 0 (b + (C_REG config - S_G config
                         + TAU config * Agent.R a'))%Q
     else b).
Proof.
  intros Hpi Ht Hrun Hi Hi' Halive b k.
  apply month_state_succ in Hrun as (m0' & g0' & Ht' & Hstep).
  rewrite Ht in Ht'. injection Ht' as <- <-.
  destruct (month_state_steps config _ _ _ _ _ _ Ht) as (Hs & _).
  apply step_spec in Hstep as (Hagents & _). rewrite Hs in Hagents.
  destruct (Forall2_lookup_l _ _ _ _ _ Hagents Hi) as (a'' & Hi'' & Hm).
  rewrite Hi' in Hi''. injection Hi'' as <-.
  apply month_out_inv in Hm
    as (model & a0 & a1 & a2 & a3 & a4 & a5 & Hsteps & H0 & H1 & H2 & H3 &
        H4 & H5 & H6).
  apply shock_out_frame in H0
    as (K0 & B0 & _ & _ & S0 & J0 & F0 & W0 & _).
  pose proof H2 as H2'.
  pose proof (policy_burn model a5 a' Hpi H6) as HB6.
  destruct H1 as (? & ? & H1), H2 as (? & ? & H2), H3 as (g3 & g3' & H3),
    H4 as (? & ? & H4), H5 as (? & ? & H5), H6 as (? & ? & H6).
  apply stage_frame in H1 as (F1 & _ & _ & B1 & FR1 & J1),
    H2 as (F2 & R2 & _ & _ & FR2 & _),
    H4 as (F4 & R4 & _ & B4 & _), H5 as (F5 & R5 & _ & B5 & _),
    H6 as (F6 & R6 & _).
  destruct (F1 ltac:(discriminate)) as (K1 & S1 & _ & W1).
  destruct (F2 ltac:(discriminate)) as (K2 & S2 & _ & _).
  destruct (F4 ltac:(discriminate)) as (K4 & S4 & D4 & W4).
  destruct (F5 ltac:(discriminate)) as (K5 & S5 & D5 & W5).
  destruct (F6 ltac:(discriminate)) as (K6 & S6 & D6 & W6).
  specialize (B1 ltac:(discriminate) ltac:(discriminate)).
  specialize (B4 ltac:(discriminate) ltac:(discriminate)).
  specialize (B5 ltac:(discriminate) ltac:(discriminate)).
  specialize (FR1 ltac:(discriminate) ltac:(discriminate)).
  specialize (FR2 ltac:(discriminate) ltac:(discriminate)).
  specialize (J1 ltac:(discriminate) ltac:(discriminate)).
  specialize (R2 ltac:(discriminate)). specialize (R4 ltac:(discriminate)).
  specialize (R5 ltac:(discriminate)). specialize (R6 ltac:(discriminate)).
  destruct (stage_frame config _ _ _ _ _ _ H3) as (_ & R3 & _ & B3 & _).
  specialize (R3 ltac:(discriminate)).
  specialize (B3 ltac:(discriminate) ltac:(discriminate)).
  assert (HS1 : Agent.S a1 = 1%Z) by congruence.
  assert (HS2 : Agent.S a2 = 1%Z) by congruence.
  assert (Eb : Agent.B a2 = b).
  { rewrite (internal_dynamics_burn model a1 a2)
      by (try exact H2'; rewrite HS1; discriminate).
    unfold b, burn_after_dynamics. rewrite J1, J0, W1, W0, B1, B0.
    reflexivity. }
  assert (ER : Agent.R a2 = Agent.R a') by congruence.
  assert (Ek : (Agent.K a2 + Agent.R a2 - Agent.B a2
                + Agent.funding_received a2)%Q = k).
  { unfold k. rewrite K2, K1, K0, ER, Eb, FR2, FR1, F0. reflexivity. }
  unfold StartupModel.call_stage in H3.
  rewrite (capital_update_alive model a2 g3 HS2) in H3. cbn zeta in H3.
  rewrite Ek, Eb in H3.
  assert (ES' : Agent.S a' = Agent.S a3) by congruence.
  assert (EK' : Agent.K a' = Agent.K a3) by congruence.
  assert (ED' : Agent.death_time a' = Agent.death_time a3) by congruence.
  assert (EW' : Agent.runway a' = Agent.runway a3) by congruence.
  assert (EB5 : Agent.B a5 = Agent.B a3) by congruence.
  assert (ES5 : Agent.S a5 = Agent.S a3) by congruence.
  assert (ER5 : Agent.R a5 = Agent.R a') by congruence.
  rewrite ES', EK', ED', EW', HB6, ES5, EB5, ER5, Hsteps.
  destruct (Qle_bool k 0) eqn:Hk; injection H3 as <- _; cbn.
  - apply Qle_bool_iff in Hk. split; [|intros; contradiction].
    intros _. rewrite Eb, Hsteps. repeat split.
  - apply Qle_bool_false in Hk. split; [intros; contradiction|].
    intros _. rewrite HS2, Eb, ?Hsteps. cbn. repeat split.
Qed.

End MonthLaw.

(** ** Averages *)

Lemma Qsum_unit_bounds (l : list Q) :
  Forall (fun x => (0 <= x <= 1)%Q) l ->
  (0 <= Qsum l <= inject_Z (Z.of_nat (length l)))%Q.
Proof.
  unfold Qsum. induction 1 as [|x l [Hx0 Hx1] _ [IH0 IH1]]; cbn [foldr length].
  - split; discriminate.
  - rewrite Nat2Z.inj_succ. unfold Z.succ. rewrite inject_Z_plus.
    change (inject_Z 1) with 1%Q. split; lra.
Qed.

Lemma np_mean_unit_bounds (l : list Q) :
  l <> [] ->
  Forall (fun x => (0 <= x <= 1)%Q) l ->
  (0 <= np_mean l <= 1)%Q.
Proof.
  intros Hne Hall. unfold np_mean.
  pose proof (Qsum_unit_bounds l Hall) as [H0 H1].
  assert (Hlen : (0 < inject_Z (Z.of_nat (length l)))%Q).
  { change 0%Q with (inject_Z 0). rewrite <- Zlt_Qlt.
    destruct l; [congruence | cbn; lia]. }
  split; [apply Qle_shift_div_l | apply Qle_shift_div_r];
    try exact Hlen; lra.
Qed.

Section Averages.
Context `{Numpy} (config : Config).

Lemma model_row_avg_pmf model g r g' :
  StartupModel.model_row model g = Ok (r, g') ->
  Avg_PMF r
  = if existsb is_alive (agents (schedule model))
    then np_mean (map Agent.PMF
                      (List.filter is_alive (agents (schedule model))))
    else 0%Q.
Proof.
  unfold StartupModel.model_row, py_int_div, bind, ret, raise.
  destruct (Z.of_nat (length (agents (schedule model))) =? 0)%Z;
    [discriminate|].
  intros [= <- <-]. reflexivity.
Qed.

(** X21.  When [np.random.beta] returns values of the unit interval, the
    average PMF recorded in every row of the series is between 0 and 1;
    in a row taken when no startup is alive it is 0 and no mean of an
    empty list is computed. *)
Theorem X21_average_pmf_in_unit_interval
    (num_startups : Z) (seed : option Z) (horizon : Z) (g : rng)
    (model : Model) (g' : rng) (k : nat) (r : ModelRow) :
  beta_in_unit_interval ->
  StartupModel.simulate config num_startups seed horizon g
  = Ok (model, g') ->
  StartupModel.get_model_data model !! k = Some r ->
  (0 <= Avg_PMF r <= 1)%Q /\
  (Alive_Startups r = 0%Z -> Avg_PMF r = 0%Q).
Proof.
  intros Hbeta Hrun Hlook.
  destruct (series_row_state config _ _ _ _ _ _ _ _ Hrun Hlook)
    as (mk & gk & Hmk & Hr).
  assert (Hall : Forall pmf_bounded (agents (schedule mk))).
  { eapply month_state_invariant; [| |exact Hmk].
    - intros a (_ & _ & _ & _ & gb & HPMF). unfold pmf_bounded.
      rewrite HPMF. apply Hbeta.
    - apply month_inv.
      + intros; eapply stage_pmf_bounded; eassumption.
      + intros; apply shock_agent_pmf_bounded; assumption. }
  rewrite (model_row_avg_pmf _ _ _ _ Hr).
  apply model_row_spec in Hr as (_ & _ & HA & _).
  set (l := agents (schedule mk)) in *.
  assert (Hfil : Forall (fun x => (0 <= x <= 1)%Q)
                        (map Agent.PMF (List.filter is_alive l))).
  { apply Forall_fmap. rewrite List.Forall_forall.
    intros a Ha. apply List.filter_In in Ha as [Ha _].
    rewrite List.Forall_forall in Hall. exact (Hall a Ha). }
  destruct (existsb is_alive l) eqn:Eany.
  - split.
    + apply np_mean_unit_bounds; [|exact Hfil].
      apply existsb_exists in Eany as (a & Ha & Hal).
      intros Hnil. apply fmap_nil_inv in Hnil.
      assert (Hin : In a (List.filter is_alive l))
        by (apply List.filter_In; auto).
      rewrite Hnil in Hin. destruct Hin.
    + intros Hzero. exfalso. rewrite HA in Hzero.
      apply existsb_exists in Eany as (a & Ha & Hal).
      assert (Hin : In a (List.filter is_alive l))
        by (apply List.filter_In; auto).
      unfold count_if in Hzero.
      destruct (List.filter is_alive l); [destruct Hin | cbn in Hzero; lia].
  - split; [split; discriminate | reflexivity].
Qed.

End Averages.

(** ** The further properties on concrete runs *)

Section FurtherRuns.
Import Lcg.
Local Open Scope Z_scope.

Lemma lcg_unit_of_range (g : Z) : (0 <= unit_of g <= 1)%Q.
Proof.
  unfold unit_of. rewrite Qred_correct.
  pose proof (Z.mod_pos_bound (g / 65536) 1024 ltac:(lia)) as [Hlo Hhi].
  assert (H0 : (inject_Z 0 <= inject_Z ((g / 65536) mod 1024))%Q)
    by (rewrite <- Zle_Qle; exact Hlo).
  assert (H1 : (inject_Z ((g / 65536) mod 1024) <= inject_Z 1024)%Q)
    by (rewrite <- Zle_Qle; lia).
  change (inject_Z 0) with 0%Q in H0. change (inject_Z 1024) with 1024%Q in H1.
  split; [apply Qle_shift_div_l | apply Qle_shift_div_r];
    try reflexivity; lra.
Qed.

Lemma lcg_uniform_in_range : uniform_in_range (H:=numpy).
Proof.
  intros low high g Hle. cbn. rewrite Qred_correct.
  pose proof (lcg_unit_of_range (next g)). nra.
Qed.

Lemma lcg_random_nonneg : random_nonneg (H:=numpy).
Proof. intros g. cbn. apply lcg_unit_of_range. Qed.

Lemma high_burn_config_burn : burn_config config_high_burn.
Proof. constructor; cbn; discriminate. Qed.

(** After two months no revenue is negative. *)
Lemma X1_revenue_never_negative_witness :
  exists model g',
    month_state (H:=numpy) config_high_burn 3 (Some 42) 2 0
    = Ok (model, g') /\
    Forall (fun a => (0 <= Agent.R a)%Q) (agents (schedule model)).
Proof.
  eexists _, _. split; [vm_compute; reflexivity|].
  eapply (X1_revenue_never_negative (H:=numpy) config_high_burn 3 (Some 42)
            0 1%nat).
  vm_compute; reflexivity.
Defined.

(** After two months no burn rate is negative. *)
Lemma X2_burn_rate_never_negative_witness :
  exists model g',
    month_state (H:=numpy) config_high_burn 3 (Some 42) 2 0
    = Ok (model, g') /\
    Forall (fun a => (0 <= Agent.B a)%Q) (agents (schedule model)).
Proof.
  eexists _, _. split; [vm_compute; reflexivity|].
  eapply (X2_burn_rate_never_negative (H:=numpy) config_high_burn 3
            (Some 42) 0 2%nat).
  - exact lcg_uniform_in_range.
  - exact high_burn_config_burn.
  - vm_compute; reflexivity.
Defined.

(** After one month two startups are alive with capital and the third is
    dead without. *)
Lemma X3_capital_tracks_survival_witness :
  exists model g',
    month_state (H:=numpy) config_high_burn 3 (Some 42) 1 0
    = Ok (model, g') /\
    Forall capital_tracks_survival (agents (schedule model)).
Proof.
  eexists _, _. split; [vm_compute; reflexivity|].
  eapply (X3_capital_tracks_survival (H:=numpy) config_high_burn 3
            (Some 42) 0 0%nat).
  vm_compute; reflexivity.
Defined.

(** After two months there is one survival time, and it is 0: the third
    startup died in the first month, run at step count 0. *)
Lemma X4_survival_times_witness :
  exists model g',
    month_state (H:=numpy) config_high_burn 3 (Some 42) 2 0
    = Ok (model, g') /\
    get_survival_times model = [0] /\
    Z.of_nat (length (get_survival_times model))
    = count_if is_dead (agents (schedule model)) /\
    Forall (fun d => 0 <= d < 2) (get_survival_times model) /\
    (forall i a,
       agents (schedule model) !! i = Some a ->
       (Agent.S a = 1 /\ Agent.death_time a = None) \/
       (Agent.S a = 0 /\
        exists d : nat,
          (d < 2)%nat /\ Agent.death_time a = Some (Z.of_nat d) /\
          dies_in_month (H:=numpy) config_high_burn 3 (Some 42) 0 i d)) /\
    (forall z,
       In z (get_survival_times model) <->
       exists i d : nat,
         z = Z.of_nat d /\ (d < 2)%nat /\
         dies_in_month (H:=numpy) config_high_burn 3 (Some 42) 0 i d).
Proof.
  eexists _, _. split; [vm_compute; reflexivity|].
  split; [reflexivity|].
  eapply (X4_survival_times (H:=numpy) config_high_burn 3 (Some 42) 0
            2%nat).
  vm_compute; reflexivity.
Defined.

(** After two months the valuations of the two live startups follow the
    formula. *)
Lemma X5_valuation_of_live_agent_witness :
  exists model g',
    month_state (H:=numpy) config_high_burn 3 (Some 42) 2 0
    = Ok (model, g') /\
    Forall (fun a => Agent.S a <> 0 ->
                     Agent.V a = valuation_of config_high_burn a)
           (agents (schedule model)).
Proof.
  eexists _, _. split; [vm_compute; reflexivity|].
  eapply (X5_valuation_of_live_agent (H:=numpy) config_high_burn 3
            (Some 42) 0 1%nat).
  vm_compute; reflexivity.
Defined.

(** After one month, a funding month, every startup's stored funding is
    settled. *)
Lemma X6_funding_is_share_of_valuation_witness :
  exists model g',
    month_state (H:=numpy) config_high_burn 3 (Some 42) 1 0
    = Ok (model, g') /\
    Forall (funding_settled config_high_burn) (agents (schedule model)).
Proof.
  eexists _, _. split; [vm_compute; reflexivity|].
  eapply (X6_funding_is_share_of_valuation (H:=numpy) config_high_burn 3
            (Some 42) 0 0%nat).
  vm_compute; reflexivity.
Defined.


(** The second row counts two alive and one dead startup. *)
Lemma X8_row_counts_partition_witness :
  exists model g' r,
    StartupModel.simulate (H:=numpy) config_high_burn 3 (Some 42) 2 0
    = Ok (model, g') /\
    StartupModel.get_model_data model !! 1%nat = Some r /\
    Dead_Startups r = 1 /\
    Alive_Startups r + Dead_Startups r = 3 /\
    (0 <= Failure_Rate r <= 1)%Q.
Proof.
  eexists _, _, _. split; [vm_compute; reflexivity|].
  split; [vm_compute; reflexivity|]. split; [reflexivity|].
  edestruct (X8_row_counts_partition (H:=numpy) config_high_burn 3
               (Some 42) 2 0) with (k := 1%nat)
    as (Hsum & _ & _ & _ & Hrate).
  - vm_compute; reflexivity.
  - vm_compute; reflexivity.
  - split; [exact Hsum | exact Hrate].
Defined.

(** From the first row to the second the dead count goes from 0 to 1. *)
Lemma X9_failures_accumulate_witness :
  exists model g' r0 r1,
    StartupModel.simulate (H:=numpy) config_high_burn 3 (Some 42) 2 0
    = Ok (model, g') /\
    StartupModel.get_model_data model !! 0%nat = Some r0 /\
    StartupModel.get_model_data model !! 1%nat = Some r1 /\
    Dead_Startups r0 <= Dead_Startups r1 /\
    Alive_Startups r1 <= Alive_Startups r0.
Proof.
  eexists _, _, _, _. split; [vm_compute; reflexivity|].
  split; [vm_compute; reflexivity|]. split; [vm_compute; reflexivity|].
  eapply (X9_failures_accumulate (H:=numpy) config_high_burn 3 (Some 42)
            2 0 _ _ 0%nat 1%nat).
  - vm_compute; reflexivity.
  - lia.
  - vm_compute; reflexivity.
  - vm_compute; reflexivity.
Defined.

(** The third row records the alive fraction of the second, 2/3. *)
Lemma X10_competition_index_lags_witness :
  exists model g' r1 r2,
    StartupModel.simulate (H:=numpy) config_high_burn 3 (Some 42) 2 0
    = Ok (model, g') /\
    StartupModel.get_model_data model !! 1%nat = Some r1 /\
    StartupModel.get_model_data model !! 2%nat = Some r2 /\
    Alive_Startups r1 = 2 /\
    Competition_Index r2 = (inject_Z 2 / inject_Z 3)%Q.
Proof.
  eexists _, _, _, _. split; [vm_compute; reflexivity|].
  split; [vm_compute; reflexivity|]. split; [vm_compute; reflexivity|].
  split; [reflexivity|].
  edestruct (X10_competition_index_lags (H:=numpy) config_high_burn 3
               (Some 42) 2 0) as (_ & Hlag & _).
  - vm_compute; reflexivity.
  - eapply eq_trans;
      [eapply (Hlag 1%nat); vm_compute; reflexivity | reflexivity].
Defined.

(** Without shocks the third row records the market size grown twice. *)
Lemma X11_market_size_without_shocks_witness :
  exists model g' r,
    StartupModel.simulate (H:=numpy) config_no_shock 2 (Some 42) 2 0
    = Ok (model, g') /\
    StartupModel.get_model_data model !! 2%nat = Some r /\
    Market_Size r = (100000000 * (1 + 0.05) * (1 + 0.05))%Q.
Proof.
  eexists _, _, _. split; [vm_compute; reflexivity|].
  split; [vm_compute; reflexivity|].
  eapply (X11_market_size_without_shocks (H:=numpy) config_no_shock 2
            (Some 42) 2 0 _ _ 2%nat).
  - exact lcg_random_nonneg.
  - cbn. discriminate.
  - vm_compute; reflexivity.
  - vm_compute; reflexivity.
Defined.

(** The market size of the second row is not negative. *)
Lemma X12_market_size_never_negative_witness :
  exists model g' r,
    StartupModel.simulate (H:=numpy) config_high_burn 3 (Some 42) 2 0
    = Ok (model, g') /\
    StartupModel.get_model_data model !! 1%nat = Some r /\
    (0 <= Market_Size r)%Q.
Proof.
  eexists _, _, _. split; [vm_compute; reflexivity|].
  split; [vm_compute; reflexivity|].
  eapply (X12_market_size_never_negative (H:=numpy) config_high_burn 3
            (Some 42) 2 0 _ _ 1%nat).
  - cbn. discriminate.
  - cbn. discriminate.
  - vm_compute; reflexivity.
  - vm_compute; reflexivity.
Defined.

(** All three startups are alive at construction, so the revenue of the
    first month is floored noise. *)
Lemma X13_revenue_is_noise_while_all_alive_witness :
  exists m0 g0 m1 g1,
    month_state (H:=numpy) config_high_burn 3 (Some 42) 0 0 = Ok (m0, g0) /\
    Forall (fun a => Agent.S a = 1) (agents (schedule m0)) /\
    month_state (H:=numpy) config_high_burn 3 (Some 42) 1 0 = Ok (m1, g1) /\
    Forall (fun a =>
              exists gn,
                (Agent.R a
                 == py_max 0 (fst (sample_normal 0
                                     (SIGMA_R config_high_burn) gn)))%Q)
           (agents (schedule m1)).
Proof.
  eexists _, _, _, _. split; [vm_compute; reflexivity|].
  split; [repeat constructor|].
  split; [vm_compute; reflexivity|].
  eapply (X13_revenue_is_noise_while_all_alive (H:=numpy) config_high_burn
            3 (Some 42) 0 0%nat).
  - vm_compute; reflexivity.
  - repeat constructor.
  - vm_compute; reflexivity.
Defined.

(** After two months no startup has reached the exit valuation. *)
Lemma X14_success_count_bounds_witness :
  exists model g',
    month_state (H:=numpy) config_high_burn 3 (Some 42) 2 0
    = Ok (model, g') /\
    0 <= get_success_count default_run_config model
      <= count_if is_alive (agents (schedule model)).
Proof.
  eexists _, _. split; [vm_compute; reflexivity|].
  eapply (X14_success_count_bounds (H:=numpy) config_high_burn
            default_run_config 3 (Some 42) 0 2%nat).
  vm_compute; reflexivity.
Defined.

(** One alive startup is its own top decile. *)
Lemma X15_top_decile_is_never_empty_witness :
  count_if is_alive (agents (schedule (model_at 0 thrifty))) = 1 /\
  1 <= get_top_10_percent_count (model_at 0 thrifty) <= 1.
Proof.
  split; [reflexivity|].
  apply (X15_top_decile_is_never_empty (model_at 0 thrifty)).
  reflexivity.
Defined.

(** A batch of two runs with base seed 42: the second model is the
    simulation with seed 43. *)
Lemma X16_monte_carlo_runs_are_reproducible_witness :
  exists models g' m,
    run_monte_carlo (H:=numpy) config_high_burn small_run_config 2
      (Some 42) 0 = Ok (models, g') /\
    length models = 2%nat /\
    models !! 1%nat = Some m /\
    exists g1,
      StartupModel.simulate (H:=numpy) config_high_burn 2 (Some 43) 2 7
      = Ok (m, g1).
Proof.
  eexists _, _, _. split; [vm_compute; reflexivity|].
  split; [reflexivity|]. split; [vm_compute; reflexivity|].
  edestruct (X16_monte_carlo_runs_are_reproducible (H:=numpy)
               config_high_burn small_run_config 2 42 0) as (_ & Hk).
  - vm_compute; reflexivity.
  - edestruct (Hk 1%nat) as (g1 & _ & Hsim); [vm_compute; reflexivity|].
    exists g1. exact Hsim.
Defined.

(** Zero runs raise; minus one run returns nothing. *)
Lemma X17_monte_carlo_without_runs_witness :
  run_monte_carlo (H:=numpy) default_config default_run_config 0 (Some 42) 0
  = Raise ZeroDivisionError /\
  run_monte_carlo (H:=numpy) default_config default_run_config (-1)
    (Some 42) 0 = Ok ([], 0).
Proof.
  split.
  - apply (X17_monte_carlo_without_runs (H:=numpy) default_config
             default_run_config 0 (Some 42) 0). lia.
  - apply (X17_monte_carlo_without_runs (H:=numpy) default_config
             default_run_config (-1) (Some 42) 0). lia.
Defined.

(** No startups, sixty months. *)
Lemma X18_empty_population_raises_witness :
  StartupModel.simulate (H:=numpy) default_config 0 (Some 42) 60 0
  = Raise ZeroDivisionError.
Proof.
  apply (X18_empty_population_raises (H:=numpy) default_config 0 60
           (Some 42) 0).
  - lia.
  - cbn. discriminate.
Defined.

(** The final rows of three startups after two months. *)
Lemma X19_final_records_are_final_agents_witness :
  exists model g',
    StartupModel.simulate (H:=numpy) config_high_burn 3 (Some 42) 2 0
    = Ok (model, g') /\
    StartupModel.final_agent_records model
    = map StartupModel.agent_row (agents (schedule model)).
Proof.
  eexists _, _. split; [vm_compute; reflexivity|].
  eapply (X19_final_records_are_final_agents (H:=numpy) config_high_burn 3
            (Some 42) 2 0).
  vm_compute; reflexivity.
Defined.

(** The first startup from the first month to the second: alive, with
    the capital the law gives. *)
Lemma X20_month_to_month_law_witness :
  exists m0 g0 m1 g1 a a',
    month_state (H:=numpy) config_high_burn 3 (Some 42) 1 0 = Ok (m0, g0) /\
    month_state (H:=numpy) config_high_burn 3 (Some 42) 2 0 = Ok (m1, g1) /\
    agents (schedule m0) !! 0%nat = Some a /\
    agents (schedule m1) !! 0%nat = Some a' /\
    Agent.S a = 1 /\
    Agent.S a' = 1 /\
    Agent.K a'
    = (Agent.K a + Agent.R a' - burn_after_dynamics config_high_burn a
       + Agent.funding_received a)%Q.
Proof.
  eexists _, _, _, _, _, _.
  split; [vm_compute; reflexivity|].
  split; [vm_compute; reflexivity|].
  split; [vm_compute; reflexivity|].
  split; [vm_compute; reflexivity|].
  split; [reflexivity|].
  edestruct (X20_month_to_month_law (H:=numpy) config_high_burn 3 (Some 42)
               0 1%nat) with (i := 0%nat) as (_ & Hgt).
  - cbn. discriminate.
  - vm_compute; reflexivity.
  - vm_compute; reflexivity.
  - vm_compute; reflexivity.
  - vm_compute; reflexivity.
  - reflexivity.
  - destruct Hgt as (HS & HK & _);
      [apply Qlt_not_le; vm_compute; reflexivity|].
    split; [exact HS | exact HK].
Defined.

(** The average PMF of the second row. *)
Lemma X21_average_pmf_in_unit_interval_witness :
  exists model g' r,
    StartupModel.simulate (H:=numpy) config_high_burn 3 (Some 42) 2 0
    = Ok (model, g') /\
    StartupModel.get_model_data model !! 1%nat = Some r /\
    (0 <= Avg_PMF r <= 1)%Q.
Proof.
  eexists _, _, _. split; [vm_compute; reflexivity|].
  split; [vm_compute; reflexivity|].
  eapply (X21_average_pmf_in_unit_interval (H:=numpy) config_high_burn 3
            (Some 42) 2 0 _ _ 1%nat).
  - exact lcg_beta_in_unit_interval.
  - vm_compute; reflexivity.
  - vm_compute; reflexivity.
Defined.

End FurtherRuns.
